(* ===== verification/_CoqProject ===== *)
-Q . S2P
Prelude.v
Model.v
Forms.v
Libraries.v
Ledger.v
Orders.v
Cart.v
Checkout.v
Requests.v
Catalog.v
Search.v
Users.v
Recovery.v
Stats.v
System.v
Roles.v
Lifecycle.v
Views.v
Concurrency.v
Races.v
