(* ===== verification/Prelude.v ===== *)
(** * A verification library for the Online-BookStore Flask application

    The program (src/app.py, src/models.py, src/forms.py) is a Flask web
    application over one SQLAlchemy database.  Each HTTP route is a
    handler that loads rows, checks guards (logged in, role, ownership,
    order status, stock), mutates ORM objects and commits one
    transaction; any early return or uncaught exception leaves the
    database as it was (the session is rolled back).  The part with real
    invariants is the inventory engine: [Book.available_copies] is
    decremented when copies are put in a cart or ordered and incremented
    when a cart line is removed or an order is canceled.

    ** How the development is laid out

    - [Prelude] (this file): the state-and-error monad [St] in which every
      handler is written (a handler is [Store -> Error + (A * Store)], the
      error branch being the rolled-back request; [final m s] is the
      database after the request), its notation in [bookstore_scope],
      sums over finite maps ([map_sum], used for the reservation totals),
      the SQLite row-id allocator [next_key] (max id + 1), the "first
      matching row" of a query ([min_key_where], [first_row]: a table
      scan in row-id order), unique columns ([map_inj]), with their
      lemmas in the hint database [bookstore].
    - [Model]: the ORM classes of src/models.py as records in Modules
      [User], [Book], [Order], [Cart], [BookRequest], the order and
      request status enums, the database [Store] (one [gmap nat] per
      table, the wishlist join table as a [gset], the upload folder as a
      map from file names to contents), the error kinds of
      the handlers, the form-field parser of [int(request.form.get(..))],
      the helpers every route uses ([login_required], [get_or_404] for
      each table, [current_user]), the row writes of the unit of work,
      and a small example database [demo_store] on which the witnesses
      run.
    - [Forms]: the forms of src/forms.py as the data a POST carries and
      what [validate_on_submit] checks (CSRF token, [DataRequired] with
      Python's [str.strip], [EqualTo], [IntegerField] parsing,
      [NumberRange] of the unused [OrderForm]), and Python's [strip] and
      [lower] on ASCII text.
    - [Libraries]: the libraries the accounts call, as classes with
      laws: [Bcrypt] ([hashpw], [checkpw]: a hash checks exactly the
      passwords with the same first 72 bytes as its own, [bcrypt_key],
      as bcrypt 4 truncates), [TimedSerializer] (itsdangerous' [dumps] /
      [loads] with [max_age]) and werkzeug's [secure_filename]; the
      account routes and the system theorems are proved for every
      instance, and symbolic instances run the concrete scenarios.
    - [Ledger]: the inventory ledger.  The reservation totals of a book
      (cart lines plus active orders, an order being active when it is
      [pending] or [approved]), the ledger invariant [ledger_ok]
      ([available + reserved = total] for every book), the stock bound
      [stock_ok] ([0 <= available <= total]), the spec's [reserve] /
      [release] contract (section 4.1 of the spec, spec-modelled, with the
      capped release), the lemmas that say how the totals move when a
      row is inserted, updated or deleted, and [same_inventory], the
      equivalence of stores with the same books, orders and cart lines,
      for which the invariants are [Proper] (a route that writes none of
      these tables keeps them by setoid rewriting).
    - [Orders]: the order routes of src/app.py: [place_order],
      [student_edit_order], [student_cancel_order], [admin_approve_order],
      [admin_cancel_order]; their behaviour on every branch, their effect
      on the ledger, and their refinement of [reserve] / [release].
    - [Cart]: [add_to_cart], [remove_from_cart], the cart listing, one
      line per (user, book).
    - [Checkout]: [cart_checkout], a loop over the user's cart lines that
      turns each line into a pending order (structural recursion on the
      list of lines, proved to finish without error).
    - [Requests]: the book-request workflow ([request_book],
      [admin_approve_request], [admin_reject_request]) and its status
      relation against the spec's.
    - [Catalog]: [admin_add_book], [admin_edit_book], [admin_delete_book]
      (with what the ORM's flush does on a delete, from the relationships
      of models.py) and [toggle_wishlist]; the referential integrity
      [refs_ok] that keeps a reused book id from inheriting claims.
    - [Users]: [register], [login] (the session it sets, checking the
      stored bcrypt hash, and where it redirects), [profile] (the name, and the picture saved in
      the upload folder), [admin_edit_student] (the unique
      e-mail index), [admin_delete_student] (the ORM's flush) and the
      start-up code that creates the default admin.
    - [Recovery]: [forgot_password] (the token the reset mail carries)
      and [reset_password] (the password written for the token's
      e-mail).
    - [Search]: the catalog search as SQLite's [LIKE] on lowered text,
      proved equal to the substring test for texts without wildcards,
      and [allowed_file].
    - [Stats]: [api_stats], the grouped, sorted and limited join query
      as [merge_sort] and [take 5], and [stats_spec], the SQL meaning of
      the query, which it meets.
    - [System]: the whole application as a transition system: one
      [request] constructor per route that writes the database, [serve]
      (the route's handler run as one transaction), the step relations
      [step] (any request) and [safe_step] (the requests the spec
      allows), and the invariants of every reachable state by rule
      induction over [rtc].
    - [Roles]: the [role] string column as a type ([roles_ok]: every
      user is a student or an admin), kept by every route and by the
      start-up code.
    - [Lifecycle]: runs of requests as lists of databases, the number of
      status changes of an order along a run, and the rank of a status
      in the spec's order machine as a termination measure.
    - [Views]: the routes that only read or only touch the session:
      [index], [admin_dashboard], [student_dashboard], [admin_requests],
      [admin_students], [cart] and [logout], each answering a redirect or
      the rows its template is given ([Query.all()] in row-id order,
      [order_by(created_at.desc())] as descending row id).
    - [Concurrency]: [place_order] and [add_to_cart] split into their
      read phase and their commit (each proved equal to its handler when
      not interleaved), two requests interleaved as read, read, commit,
      commit, and the spec's atomic conditional update (spec sections 5
      and 9); the class [InventoryWrite] of commits that write a book
      row computed from the row as read, and [race2], two requests
      interleaved as read, read, commit, commit.
    - [Races]: the other four routes that write [available_copies]
      ([student_edit_order], [student_cancel_order],
      [admin_cancel_order], [remove_from_cart]) split the same way, each
      split proved equal to its handler; [inv_request] gathers the six
      routes with their read phase ([inv_read]), commit ([inv_flush])
      and handler ([inv_serve]), and [inv_race] runs two of them
      interleaved.

    ** What the theorems show

    - System: after any sequence of requests, in any interleaving of
      users, referential integrity, one cart line per (user, book) and
      unique e-mails hold ([reachable_struct_ok]); along admissible
      requests (those meeting the spec's preconditions that the code
      does not check) all three invariants of spec section 3 -- the
      ledger, [0 <= available <= total] and quantities of at least 1 --
      hold in every reachable state ([safe_reachable_invariants]), and
      every order follows the order state machine of spec section 4.3
      ([safe_reachable_order_lifecycle]: created pending, never
      deleted, moved only by approve and cancel, so that a canceled
      order stays canceled).
      Each route's preservation lemma
      (a successful run keeps the invariant) is shared by the route's
      own theorem and the system theorem.
    - Races and Concurrency: for any two of the six routes that write
      [available_copies], interleaved on one book, the second commit
      writes the row it computed from the old value, so the first
      request's change of [available_copies] is lost while its change
      of the reservations stays, the ledger being off by that change
      ([inventory_race_lost_update]: a cancel racing an order loses the
      copies it gave back); with
      the spec's atomic update any sequence of commits keeps the ledger
      and the stock bound ([atomic_commits_safe]), and N one-copy
      orders for a book with k copies free succeed exactly min N k times
      ([atomic_commits_no_oversell], spec section 8).  Two interleaved
      [add_to_cart] of one user (a double click) insert two lines for
      the same book and lose the first reservation
      ([add_to_cart_race_duplicate_line]).
    - Type: the [role] column holds ['student'] or ['admin'] in every
      database reached from the start-up one, so the two styles of role
      guard in the routes agree ([reachable_roles_ok]).
    - Views: [logout] clears the session, after which every route under
      [@login_required] writes nothing ([logout_ends_session]); the admin
      dashboard lists exactly the tables, by row id, with the count of
      pending requests ([admin_dashboard_spec]); the index and the two
      dashboards send every user to the page of their role
      ([index_dispatch]).
    - Recovery: a reset with a valid token sets exactly the password of
      the user holding the token's e-mail, after which login succeeds
      exactly with the passwords whose first 72 bytes are those of the
      new one ([reset_password_then_login]);
      tokens expire after 1800 seconds ([forgot_password_token],
      [reset_password_rejects]).
    - Ledger: each route that moves copies keeps [ledger_ok] (the order
      routes, the cart routes, checkout, book add under [refs_ok], book
      and user delete), the admin approve and cancel only on active
      orders, the book edit exactly when the total is unchanged.
    - Functional behaviour on every branch: the edit bound of spec
      section 4.3, place and cancel as [reserve] and [release], checkout
      moving every line to an order, request and book creation, search.
    - Statistics: [api_stats] returns the top five books by ordered
      quantity ([api_stats_spec]), counting canceled orders
      ([cancel_keeps_ordered_total]).
    - Round trips: place then cancel, add then remove, toggling twice,
      a reset token's e-mail read back by [loads].
    - Termination: the checkout loop always finishes without an error,
      so a checkout of a non-empty cart always succeeds
      ([cart_checkout_spec]); along admissible requests an order changes
      its status at most twice, by the rank measure, while the code's
      admin routes let it change for ever ([order_lifecycle_terminates]).
    - Findings, as theorems for every database and request, each with
      a run on [demo_store]: the admin routes have no status guard (a
      second cancel returns the copies again, [admin_cancel_order_twice];
      an approve revives a canceled order,
      [admin_approve_order_revives_canceled]), quantities are not
      range-checked ([place_order_negative_quantity],
      [add_to_cart_unchecked], which also has no role check), deleting a
      book orphans its orders for good ([admin_delete_book_orphans]),
      the search text is an unescaped LIKE pattern
      ([catalog_search_wildcards]), any two inventory routes on one book
      lose an update ([inventory_race_lost_update]), two interleaved
      cart adds of one user duplicate a line
      ([add_to_cart_race_duplicate_line]), an admin can move an order
      between approved and canceled for ever
      ([order_lifecycle_terminates]), a capital letter typed by an admin
      locks a user out of login ([login_uppercase_email_locked]), the
      login redirects to any [next] URL ([login_open_redirect]), two
      users uploading pictures of the same name share one file
      ([profile_upload_overwrites]), and passwords agreeing on their
      first 72 bytes are interchangeable ([reset_password_then_login]).
      As concrete runs only: book totals are not range-checked, an
      admin can delete themself (and a registered admin@bookstore.com
      then stops the start-up), [OrderForm]'s [NumberRange(min=1)] is
      used by no route, and a reset link outlives its account: it resets
      the password of the next account registered with the e-mail, any
      number of times within 30 minutes.

    ** Bounds and fuel

    No definition needs fuel: every loop of the code is a structural
    recursion (the checkout loop on the list of lines, [like_match] on
    the pattern, the string functions on the text).  Integer columns are
    [Z]: Python integers do not wrap and SQLite's 64-bit bound is never
    approached by the routes, so no width is modelled.  Times are [Z]
    seconds, the clock reading being an input of the request, as is the
    salt that [bcrypt.gensalt()] draws.

    ** What is not modelled

    Templates and flash messages (a flash-and-redirect is an error value
    of the handler, the database being unchanged; a page is the rows the
    template is given), what bcrypt and itsdangerous compute (only their
    laws, in [Libraries]; bcrypt 5's [ValueError] on passwords over 72
    bytes is not modelled, bcrypt 4's truncation is), the mail sender, the file system beyond the
    upload folder's names and contents, logging, the JSON rendering of
    [api_stats], the timestamp values ([created_at] only orders rows, as
    descending row id; [due_date] is never read), the columns no route
    writes or reads beyond their defaults ([fine], [payment_id],
    [returned_at], [recovery_email]), the binary64 rounding of the
    float [price] (a price is the rational its text denotes; no route
    computes with it), and the text-to-number parsing of form fields (a
    field is modelled as already classified: absent, a number, or not a
    number).  Requests are modelled one at a time, each one transaction,
    except the interleavings of two routes that write
    [available_copies] ([Concurrency], [Races]); other interleavings
    (two checkouts of one cart, two admins on one request) are not
    modelled. *)

From stdpp Require Export base gmap strings list fin_maps sorting.
From Stdlib Require Export ZArith Lia.

Declare Scope bookstore_scope.
Delimit Scope bookstore_scope with bs.

Create HintDb bookstore.
Create Rewrite HintDb bookstore_rw.

(** ** The state-and-error monad of a request *)

Definition St (S E A : Type) : Type := S -> E + (A * S).

Section Monad.
Context {S E : Type}.

Definition retS {A} (a : A) : St S E A := fun s => inr (a, s).
Definition failS {A} (e : E) : St S E A := fun _ => inl e.
Definition bindS {A B} (m : St S E A) (k : A -> St S E B) : St S E B :=
  fun s => match m s with inl e => inl e | inr (a, s') => k a s' end.
Definition getS : St S E S := fun s => inr (s, s).
Definition putS (s' : S) : St S E unit := fun _ => inr (tt, s').
Definition modifyS (f : S -> S) : St S E unit := fun s => inr (tt, f s).
(** [guardS b e]: continue when [b] holds, otherwise return [e]. *)
Definition guardS (b : bool) (e : E) : St S E unit :=
  if b then retS tt else failS e.
(** Lift a lookup: [None] is the error [e]. *)
Definition someS {A} (o : option A) (e : E) : St S E A :=
  match o with Some a => retS a | None => failS e end.

(** The store after running a request: unchanged on an error
    (the transaction is rolled back). *)
Definition final {A} (m : St S E A) (s : S) : S :=
  match m s with inl _ => s | inr (_, s') => s' end.
End Monad.

(** ** Sums over finite maps *)

Definition map_sum {K A} `{Countable K} (f : K -> A -> Z) (m : gmap K A) : Z :=
  map_fold (fun k a acc => (f k a + acc)%Z) 0%Z m.

(** ** Row ids: SQLite gives a new row the largest id plus one *)

Definition max_key {A} (m : gmap nat A) : nat :=
  map_fold (fun k _ acc => k `max` acc) 0 m.

Definition next_key {A} (m : gmap nat A) : nat := S (max_key m).

(** ** The first matching row of a table scan (row-id order) *)

Definition opt_min (k : nat) (o : option nat) : option nat :=
  match o with Some k' => Some (k `min` k') | None => Some k end.

Definition min_key_where {A} (P : nat -> A -> bool) (m : gmap nat A) : option nat :=
  map_fold (fun k a acc => if P k a then opt_min k acc else acc) None m.

(** A column declared [unique]: no two rows share its value. *)
Definition map_inj {K A B} `{Countable K} (key : A -> B) (m : gmap K A) : Prop :=
  map_Forall (fun i a => map_Forall (fun j b => key a = key b -> i = j) m) m.

#[export] Instance map_inj_dec {K A B} `{Countable K} `{EqDecision B}
    (key : A -> B) (m : gmap K A) :
  Decision (map_inj key m).
Proof. unfold map_inj. apply _. Defined.

(** [Model.query.filter_by(...).first()]: the matching row of least id. *)
Definition first_row {A} (P : nat -> A -> bool) (m : gmap nat A) : option (nat * A) :=
  match min_key_where P m with
  | Some k => match m !! k with Some a => Some (k, a) | None => None end
  | None => None
  end.

Notation "x <- m ;; k" := (bindS m (fun x => k))
  (at level 100, m at next level, right associativity) : bookstore_scope.
Notation "m ;;; k" := (bindS m (fun _ => k))
  (at level 100, right associativity) : bookstore_scope.

Section MonadLemmas.
Context {S E : Type}.

Lemma bindS_inr {A B} (m : St S E A) (k : A -> St S E B) s a s' :
  m s = inr (a, s') -> bindS m k s = k a s'.
Proof. unfold bindS. by intros ->. Qed.

Lemma bindS_inl {A B} (m : St S E A) (k : A -> St S E B) s e :
  m s = inl e -> bindS m k s = inl e.
Proof. unfold bindS. by intros ->. Qed.

Lemma bindS_ok_inv {A B} (m : St S E A) (k : A -> St S E B) s b s'' :
  bindS m k s = inr (b, s'') ->
  exists a s', m s = inr (a, s') /\ k a s' = inr (b, s'').
Proof. unfold bindS. destruct (m s) as [e|[a s']]; [done|eauto]. Qed.

Lemma guardS_ok_inv b (e : E) s u s' :
  guardS (S:=S) b e s = inr (u, s') -> b = true /\ s' = s.
Proof. unfold guardS, retS, failS. destruct b; intros H; [injection H|]; naive_solver. Qed.

Lemma someS_ok_inv {A} (o : option A) (e : E) s a s' :
  someS (S:=S) o e s = inr (a, s') -> o = Some a /\ s' = s.
Proof. unfold someS, retS, failS. destruct o; intros H; [injection H|]; naive_solver. Qed.

Lemma final_ok {A} (m : St S E A) s a s' :
  m s = inr (a, s') -> final m s = s'.
Proof. unfold final. by intros ->. Qed.

Lemma final_err {A} (m : St S E A) s e :
  m s = inl e -> final m s = s.
Proof. unfold final. by intros ->. Qed.
(** A property of the store holds after a request when it holds before
    and after every successful run (the error runs roll back). *)
Lemma final_inv {A} (m : St S E A) s (P : S -> Prop) :
  P s -> (forall a s', m s = inr (a, s') -> P s') -> P (final m s).
Proof. unfold final. destruct (m s) as [e|[a s']]; eauto. Qed.
End MonadLemmas.

#[export] Hint Resolve final_ok final_err : bookstore.

(** Unfold the monad's combinators in a goal or hypothesis. *)
Ltac unfold_st :=
  unfold guardS, someS, bindS, getS, putS, modifyS, retS, failS in *;
  cbn beta iota zeta in *.

(** Split a successful run of a handler into its steps. *)
Ltac split_run H :=
  repeat match type of H with
  | bindS _ _ _ = inr _ =>
      let a := fresh "a" in let s := fresh "s" in
      let H1 := fresh "Hstep" in
      apply bindS_ok_inv in H as (a & s & H1 & H)
  end.

(** ** Lemmas on sums over finite maps *)


Section MapSum.
Context {K A : Type} `{Countable K}.
Implicit Types (m : gmap K A) (f g : K -> A -> Z).

Lemma map_sum_empty f : map_sum f ∅ = 0%Z.
Proof. apply map_fold_empty. Qed.

Lemma map_sum_insert_fresh f m i x :
  m !! i = None -> map_sum f (<[i:=x]> m) = (f i x + map_sum f m)%Z.
Proof.
  intros Hi. unfold map_sum.
  apply (map_fold_insert_L (fun k a acc => f k a + acc)%Z); [intros; lia|done].
Qed.

Lemma map_sum_delete f m i x :
  m !! i = Some x -> map_sum f m = (f i x + map_sum f (delete i m))%Z.
Proof.
  intros Hi. unfold map_sum.
  apply (map_fold_delete_L (fun k a acc => f k a + acc)%Z); [intros; lia|done].
Qed.

(** Overwriting row [i] changes the sum by the difference of the rows. *)
Lemma map_sum_insert f m i x y :
  m !! i = Some x -> map_sum f (<[i:=y]> m) = (map_sum f m - f i x + f i y)%Z.
Proof.
  intros Hi. rewrite <- insert_delete_eq.
  rewrite map_sum_insert_fresh by apply lookup_delete_eq.
  rewrite (map_sum_delete f m i x Hi). lia.
Qed.

Lemma map_sum_ext f g m :
  (forall k a, m !! k = Some a -> f k a = g k a) -> map_sum f m = map_sum g m.
Proof.
  induction m as [|i x m Hi IH] using map_ind; intros Hfg.
  - by rewrite !map_sum_empty.
  - rewrite !map_sum_insert_fresh by done.
    rewrite (Hfg i x) by apply lookup_insert_eq.
    rewrite IH; [done|]. intros k a Hk. apply Hfg.
    rewrite lookup_insert_ne; [done|]. intros ->. congruence.
Qed.

Lemma map_sum_zero f m :
  (forall k a, m !! k = Some a -> f k a = 0%Z) -> map_sum f m = 0%Z.
Proof.
  induction m as [|i x m Hi IH] using map_ind; intros Hf.
  - apply map_sum_empty.
  - rewrite map_sum_insert_fresh by done. rewrite (Hf i x) by apply lookup_insert_eq.
    rewrite IH; [done|]. intros k a Hk. apply Hf.
    rewrite lookup_insert_ne; [done|]. intros ->. congruence.
Qed.

Lemma map_sum_nonneg f m :
  (forall k a, m !! k = Some a -> (0 <= f k a)%Z) -> (0 <= map_sum f m)%Z.
Proof.
  induction m as [|i x m Hi IH] using map_ind; intros Hf.
  - rewrite map_sum_empty. lia.
  - rewrite map_sum_insert_fresh by done.
    assert (0 <= f i x)%Z by (apply Hf; apply lookup_insert_eq).
    assert (0 <= map_sum f m)%Z; [|lia].
    apply IH. intros k a Hk. apply Hf.
    rewrite lookup_insert_ne; [done|]. intros ->. congruence.
Qed.

(** A non-negative sum bounds each of its terms. *)
Lemma map_sum_single_le f m i x :
  (forall k a, m !! k = Some a -> (0 <= f k a)%Z) -> m !! i = Some x ->
  (f i x <= map_sum f m)%Z.
Proof.
  intros Hf Hi. rewrite (map_sum_delete f m i x Hi).
  assert (0 <= map_sum f (delete i m))%Z; [|lia].
  apply map_sum_nonneg. intros k a (_ & Hk)%lookup_delete_Some. eauto.
Qed.
End MapSum.

Lemma map_sum_fmap {K A B} `{Countable K} (h : K -> B -> Z) (g : A -> B) (m : gmap K A) :
  map_sum h (g <$> m) = map_sum (fun k a => h k (g a)) m.
Proof.
  induction m as [|i x m Hi IH] using map_ind.
  - by rewrite fmap_empty, !map_sum_empty.
  - assert (Hn : (g <$> m) !! i = None) by (rewrite lookup_fmap, Hi; done).
    rewrite fmap_insert, (map_sum_insert_fresh h _ i _ Hn).
    rewrite map_sum_insert_fresh by done. by rewrite IH.
Qed.

#[export] Hint Rewrite @map_sum_empty : bookstore_rw.

(** ** Lemmas on row ids *)


Lemma max_key_ge {A} (m : gmap nat A) k a : m !! k = Some a -> k <= max_key m.
Proof.
  unfold max_key. revert k a.
  induction m as [|i x m Hi IH] using map_ind; intros k a Hk.
  - by rewrite lookup_empty in Hk.
  - rewrite (map_fold_insert_L (fun k _ acc => k `max` acc)); [|intros; lia|done].
    destruct (decide (i = k)) as [->|Hne]; [lia|].
    rewrite lookup_insert_ne in Hk by done. specialize (IH _ _ Hk). lia.
Qed.

Lemma next_key_fresh {A} (m : gmap nat A) : m !! next_key m = None.
Proof.
  destruct (m !! next_key m) as [a|] eqn:Ha; [|done].
  apply max_key_ge in Ha. unfold next_key in Ha. lia.
Qed.

#[export] Hint Resolve next_key_fresh : bookstore.

(** ** Lemmas on the first matching row *)


Section MinKey.
Context {A : Type} (P : nat -> A -> bool).

Lemma min_key_where_insert (m : gmap nat A) i x :
  m !! i = None ->
  min_key_where P (<[i:=x]> m) =
    if P i x then opt_min i (min_key_where P m) else min_key_where P m.
Proof.
  intros Hi. unfold min_key_where.
  apply (map_fold_insert_L (fun k a acc => if P k a then opt_min k acc else acc)); [|done].
  intros j1 j2 z1 z2 [y|] _ _ _;
    destruct (P j1 z1), (P j2 z2); simpl; f_equal; lia.
Qed.

(** A matching row makes the search succeed. *)
Lemma min_key_where_found (m : gmap nat A) j b :
  m !! j = Some b -> P j b = true -> min_key_where P m <> None.
Proof.
  revert j b. induction m as [|l y m Hl IH] using map_ind; intros j b Hj Hpj.
  - by rewrite lookup_empty in Hj.
  - rewrite min_key_where_insert by done.
    destruct (P l y) eqn:Hpl; [by destruct (min_key_where P m)|].
    destruct (decide (j = l)) as [->|Hne].
    + rewrite lookup_insert_eq in Hj. congruence.
    + rewrite lookup_insert_ne in Hj by done. eauto.
Qed.

Lemma min_key_where_Some (m : gmap nat A) k :
  min_key_where P m = Some k ->
  exists a, m !! k = Some a /\ P k a = true /\
    forall k' a', m !! k' = Some a' -> P k' a' = true -> k <= k'.
Proof.
  revert k. induction m as [|i x m Hi IH] using map_ind; intros k Hk.
  - done.
  - rewrite min_key_where_insert in Hk by done.
    assert (Hother : forall k' a', <[i:=x]> m !! k' = Some a' ->
              k' <> i -> m !! k' = Some a')
      by (intros k' a' Hk' Hne; by rewrite lookup_insert_ne in Hk').
    destruct (P i x) eqn:Hp;
      [destruct (min_key_where P m) as [k0|] eqn:Hm; simpl in Hk|].
    + injection Hk as <-.
      destruct (IH k0 eq_refl) as (a0 & Ha0 & Hp0 & Hmin).
      destruct (Nat.le_ge_cases i k0).
      * rewrite Nat.min_l by done. exists x.
        split; [apply lookup_insert_eq|split; [done|]].
        intros k' a' Hk' Hpk'. destruct (decide (k' = i)) as [->|Hne]; [lia|].
        specialize (Hmin _ _ (Hother _ _ Hk' Hne) Hpk'). lia.
      * rewrite Nat.min_r by done. exists a0.
        rewrite lookup_insert_ne by (intros ->; congruence).
        split; [done|split; [done|]].
        intros k' a' Hk' Hpk'. destruct (decide (k' = i)) as [->|Hne]; [lia|].
        eauto.
    + injection Hk as <-. exists x.
      split; [apply lookup_insert_eq|split; [done|]].
      intros k' a' Hk' Hpk'. destruct (decide (k' = i)) as [->|Hne]; [lia|].
      exfalso. eapply min_key_where_found; [exact (Hother _ _ Hk' Hne)|done|done].
    + destruct (IH k Hk) as (a0 & Ha0 & Hp0 & Hmin). exists a0.
      rewrite lookup_insert_ne by (intros ->; congruence).
      split; [done|split; [done|]].
      intros k' a' Hk' Hpk'. destruct (decide (k' = i)) as [->|Hne].
      * rewrite lookup_insert_eq in Hk'. congruence.
      * eauto.
Qed.

Lemma min_key_where_None (m : gmap nat A) :
  min_key_where P m = None -> forall k a, m !! k = Some a -> P k a = false.
Proof.
  induction m as [|i x m Hi IH] using map_ind; intros Hn k a Hk.
  - by rewrite lookup_empty in Hk.
  - rewrite min_key_where_insert in Hn by done.
    destruct (P i x) eqn:Hp; [by destruct (min_key_where P m)|].
    destruct (decide (k = i)) as [->|Hne].
    + rewrite lookup_insert_eq in Hk. congruence.
    + rewrite lookup_insert_ne in Hk by done. eauto.
Qed.

Lemma first_row_Some (m : gmap nat A) k a :
  first_row P m = Some (k, a) ->
  m !! k = Some a /\ P k a = true /\
  forall k' a', m !! k' = Some a' -> P k' a' = true -> k <= k'.
Proof.
  unfold first_row. destruct (min_key_where P m) as [k0|] eqn:Hk; [|done].
  apply min_key_where_Some in Hk as (a0 & Ha0 & Hp & Hmin). rewrite Ha0.
  intros [= <- <-]. auto.
Qed.

Lemma first_row_None (m : gmap nat A) :
  first_row P m = None -> forall k a, m !! k = Some a -> P k a = false.
Proof.
  unfold first_row. destruct (min_key_where P m) as [k0|] eqn:Hk.
  - apply min_key_where_Some in Hk as (a0 & Ha0 & _). by rewrite Ha0.
  - intros _. by apply min_key_where_None.
Qed.
End MinKey.

(** ** Lemmas on unique columns *)

Section MapInj.
Context {K A B : Type} `{Countable K} (key : A -> B).
Implicit Types (m : gmap K A).

(** Writing row [k] keeps the column unique when no other row has the
    value of the written row. *)
Lemma map_inj_insert m k a :
  map_inj key m ->
  (forall j b, m !! j = Some b -> j <> k -> key b <> key a) ->
  map_inj key (<[k:=a]> m).
Proof.
  intros Hu Hk i ai Hi j aj Hj Hkey.
  rewrite lookup_insert in Hi, Hj.
  destruct (decide (k = i)) as [<-|Hki], (decide (k = j)) as [<-|Hkj]; simplify_eq.
  - done.
  - exfalso. by apply (Hk j aj Hj).
  - exfalso. by apply (Hk i ai Hi).
  - exact (Hu i ai Hi j aj Hj Hkey).
Qed.

Lemma map_inj_subseteq m m' : m' ⊆ m -> map_inj key m -> map_inj key m'.
Proof.
  intros Hsub Hu i ai Hi j aj Hj.
  exact (Hu i ai (lookup_weaken _ _ _ _ Hi Hsub) j aj (lookup_weaken _ _ _ _ Hj Hsub)).
Qed.

Lemma map_inj_delete m k : map_inj key m -> map_inj key (delete k m).
Proof. apply map_inj_subseteq, delete_subseteq. Qed.
End MapInj.

(** ** Booleans of the code as propositions *)

Lemma Z_ltb_false_le (a b : Z) : (a <? b)%Z = false -> (b <= a)%Z.
Proof. intros H. apply Z.ltb_ge in H. exact H. Qed.

#[export] Hint Resolve Z_ltb_false_le : bookstore.

(** Decide a closed decidable proposition (or its negation) by
    evaluation. *)
Ltac decide_by_eval :=
  lazymatch goal with
  | |- ~ ?P => apply (bool_decide_eq_false_1 P); vm_compute; reflexivity
  | |- ?P => apply (bool_decide_eq_true_1 P); vm_compute; reflexivity
  end.
