(* ===== verification/Model.v ===== *)
(** * The database of the application (src/models.py) and the helpers
    shared by the routes of src/app.py.

    Each ORM class is a record in a Module of its name ([Book.t],
    [Order.t], ...), so that the columns keep their source names
    ([Book.available_copies], [Order.quantity]).  A table is a
    [gmap nat] from the integer primary key to the row; the wishlist
    association table is a set of (user id, book id) pairs.  Integer
    columns are [Z] (Python integers; nothing in the code bounds them).
    Nullable foreign keys are [option nat]. *)

From S2P Require Import Prelude.
From Stdlib Require Import QArith_base.
Close Scope Q_scope.

Open Scope bookstore_scope.

(** ** Rows *)

Module User.
(** models.py [class User]: the columns the routes read or write
    (the unused [recovery_email] and the timestamp are not modelled). *)
Record t := mk {
  name : string;
  email : string;
  password_hash : string;
  role : string;
  profile_pic : string;
}.

Definition set_name (u : t) (n : string) : t :=
  mk n (email u) (password_hash u) (role u) (profile_pic u).
Definition set_password_hash (u : t) (h : string) : t :=
  mk (name u) (email u) h (role u) (profile_pic u).
Definition set_profile_pic (u : t) (f : string) : t :=
  mk (name u) (email u) (password_hash u) (role u) f.
End User.

Module Book.
(** models.py [class Book] (the timestamp is not modelled).  The float
    [price] is the rational its text denotes: no route computes with
    it, so the rounding of [float()] to binary64 is not modelled. *)
Record t := mk {
  title : string;
  author : string;
  genre : string;
  isbn : option string;
  price : Q;
  total_copies : Z;
  available_copies : Z;
}.

(** [book.available_copies = n] *)
Definition set_available_copies (b : t) (n : Z) : t :=
  mk (title b) (author b) (genre b) (isbn b) (price b) (total_copies b) n.
End Book.

(** models.py line 61: [pending, approved, canceled, returned, paid]. *)
Inductive OrderStatus := Pending | Approved | Canceled | Returned | Paid.

#[export] Instance OrderStatus_eq_dec : EqDecision OrderStatus.
Proof. solve_decision. Defined.

Module Order.
(** models.py [class Order]: [user_id] and [book_id] are nullable
    foreign keys; the payment id, due date, fine and timestamps are
    not modelled. *)
Record t := mk {
  user_id : option nat;
  book_id : option nat;
  quantity : Z;
  status : OrderStatus;
  payment_method : option string;
  payment_status : string;
}.

(** [order.status = st] *)
Definition set_status (o : t) (st : OrderStatus) : t :=
  mk (user_id o) (book_id o) (quantity o) st (payment_method o) (payment_status o).

(** [order.quantity = q] *)
Definition set_quantity (o : t) (q : Z) : t :=
  mk (user_id o) (book_id o) q (status o) (payment_method o) (payment_status o).

(** [order.book_id = None]: what the ORM writes into the orders of a
    deleted book. *)
Definition set_book_id (o : t) (b : option nat) : t :=
  mk (user_id o) b (quantity o) (status o) (payment_method o) (payment_status o).

(** [order.user_id = None]: what the ORM writes into the orders of a
    deleted user. *)
Definition set_user_id (o : t) (u : option nat) : t :=
  mk u (book_id o) (quantity o) (status o) (payment_method o) (payment_status o).
End Order.

Module Cart.
(** models.py [class Cart]: both foreign keys are [nullable=False]. *)
Record t := mk {
  user_id : nat;
  book_id : nat;
  quantity : Z;
}.

(** [cart_item.quantity = q] *)
Definition set_quantity (c : t) (q : Z) : t := mk (user_id c) (book_id c) q.
End Cart.

(** models.py line 92: [pending, approved, rejected]. *)
Inductive RequestStatus := ReqPending | ReqApproved | ReqRejected.

#[export] Instance RequestStatus_eq_dec : EqDecision RequestStatus.
Proof. solve_decision. Defined.

Module BookRequest.
(** models.py [class BookRequest]. *)
Record t := mk {
  user_id : nat;
  title : string;
  author : string;
  genre : string;
  reason : option string;
  status : RequestStatus;
}.

Definition set_status (r : t) (st : RequestStatus) : t :=
  mk (user_id r) (title r) (author r) (genre r) (reason r) st.
End BookRequest.

(** ** The database *)

(** The tables, the wishlist join table, and the files of
    [UPLOAD_FOLDER] (static/uploads, src/app.py line 37) by name: the
    profile pictures live outside the database, but are written by the
    same request. *)
Record Store := mkStore {
  users : gmap nat User.t;
  books : gmap nat Book.t;
  orders : gmap nat Order.t;
  carts : gmap nat Cart.t;
  requests : gmap nat BookRequest.t;
  wishlist : gset (nat * nat);
  uploads : gmap string string;
}.

Definition with_users (s : Store) (m : gmap nat User.t) : Store :=
  mkStore m (books s) (orders s) (carts s) (requests s) (wishlist s) (uploads s).
Definition with_books (s : Store) (m : gmap nat Book.t) : Store :=
  mkStore (users s) m (orders s) (carts s) (requests s) (wishlist s) (uploads s).
Definition with_orders (s : Store) (m : gmap nat Order.t) : Store :=
  mkStore (users s) (books s) m (carts s) (requests s) (wishlist s) (uploads s).
Definition with_carts (s : Store) (m : gmap nat Cart.t) : Store :=
  mkStore (users s) (books s) (orders s) m (requests s) (wishlist s) (uploads s).
Definition with_requests (s : Store) (m : gmap nat BookRequest.t) : Store :=
  mkStore (users s) (books s) (orders s) (carts s) m (wishlist s) (uploads s).
Definition with_wishlist (s : Store) (w : gset (nat * nat)) : Store :=
  mkStore (users s) (books s) (orders s) (carts s) (requests s) w (uploads s).
Definition with_uploads (s : Store) (f : gmap string string) : Store :=
  mkStore (users s) (books s) (orders s) (carts s) (requests s) (wishlist s) f.

(** ** What a request can end with, other than a commit

    Every one of these leaves the database unchanged.
    - [LoginRequired]: [@login_required] redirects to the login page;
    - [NotFound]: [get_or_404] aborts with 404;
    - [Unauthorized]: a role or ownership check fails ("Not authorized",
      403, or a redirect to the index);
    - [InsufficientInventory]: "Not enough copies available";
    - [InvalidQuantity]: "Invalid quantity" / "Quantity out of range";
    - [InvalidState]: "Only pending orders can be edited/canceled";
    - [EmptyCart]: "Cart is empty";
    - [InvalidForm]: [form.validate_on_submit()] is false (a missing or
      wrong CSRF token, a [DataRequired] field left blank, a number field
      that does not parse): the form is rendered again;
    - [AlreadyAuthenticated]: [/register] visited while logged in
      redirects to the index;
    - [DuplicateEmail]: "Email already registered";
    - [ServerError]: an uncaught exception (a [ValueError] from [int()],
      an [AttributeError] on a missing related row, an
      [IntegrityError] at commit): HTTP 500, the session rolled back. *)
Inductive Error :=
  | LoginRequired
  | NotFound
  | Unauthorized
  | InsufficientInventory
  | InvalidQuantity
  | InvalidState
  | EmptyCart
  | InvalidForm
  | AlreadyAuthenticated
  | DuplicateEmail
  | UnknownEmail
  | InvalidLink
  | BadRequest
  | ServerError.

#[export] Instance Error_eq_dec : EqDecision Error.
Proof. solve_decision. Defined.

(** A request handler: reads and writes the store, or fails. *)
Abbreviation handler := (St Store Error).

(** ** Form fields *)

(** An integer form field, as [int(request.form.get(name, default))]
    sees it: missing, the text of an integer, or other text. *)
Inductive FormInt := Absent | IntLit (z : Z) | NotAnInt.

(** [int(request.form.get(name, default))]; [None] is the [ValueError]. *)
Definition form_int (f : FormInt) (default : Z) : option Z :=
  match f with
  | Absent => Some default
  | IntLit z => Some z
  | NotAnInt => None
  end.

(** A [FloatField] as WTForms sees it: missing from the request (the
    field keeps its default), the text of a number (the rational it
    denotes), or other text, the empty text included ([float()] raises
    and the field is invalid). *)
Inductive FormFloat := FAbsent | FloatLit (q : Q) | NotAFloat.

(** [request.form.get(name, default)] on a text field. *)
Definition form_str (f : option string) (default : string) : string :=
  match f with Some v => v | None => default end.

(** ** Helpers of every route *)

(** The session's user id, loaded by [load_user] ([User.query.get]). *)
Definition current_user (s : Store) (sess : option nat) : option (nat * User.t) :=
  match sess with
  | Some uid => match users s !! uid with Some u => Some (uid, u) | None => None end
  | None => None
  end.

(** [@login_required]: the logged-in user or a redirect to login. *)
Definition login_required (sess : option nat) : handler (nat * User.t) :=
  s <- getS ;; someS (current_user s sess) LoginRequired.

Definition is_role (u : User.t) (r : string) : bool := String.eqb (User.role u) r.

Definition get_book_or_404 (i : nat) : handler Book.t :=
  s <- getS ;; someS (books s !! i) NotFound.
Definition get_order_or_404 (i : nat) : handler Order.t :=
  s <- getS ;; someS (orders s !! i) NotFound.
Definition get_cart_or_404 (i : nat) : handler Cart.t :=
  s <- getS ;; someS (carts s !! i) NotFound.
Definition get_request_or_404 (i : nat) : handler BookRequest.t :=
  s <- getS ;; someS (requests s !! i) NotFound.
Definition get_user_or_404 (i : nat) : handler User.t :=
  s <- getS ;; someS (users s !! i) NotFound.

(** [order.book]: the related book row, or the [AttributeError] of
    [None.available_copies] when the foreign key is null or dangling. *)
Definition order_book (o : Order.t) : handler (nat * Book.t) :=
  s <- getS ;;
  match Order.book_id o with
  | Some b => match books s !! b with
              | Some bk => retS (b, bk)
              | None => failS ServerError
              end
  | None => failS ServerError
  end.

(** [cart_item.book] *)
Definition cart_book (c : Cart.t) : handler Book.t :=
  s <- getS ;; someS (books s !! Cart.book_id c) ServerError.

(** Row writes of the unit of work that the commit flushes. *)
Definition save_book (i : nat) (b : Book.t) : handler unit :=
  modifyS (fun s => with_books s (<[i:=b]> (books s))).
Definition save_order (i : nat) (o : Order.t) : handler unit :=
  modifyS (fun s => with_orders s (<[i:=o]> (orders s))).
Definition save_cart (i : nat) (c : Cart.t) : handler unit :=
  modifyS (fun s => with_carts s (<[i:=c]> (carts s))).
Definition save_request (i : nat) (r : BookRequest.t) : handler unit :=
  modifyS (fun s => with_requests s (<[i:=r]> (requests s))).

(** [db.session.add(row)]: the row gets the next row id. *)
Definition add_order (o : Order.t) : handler nat :=
  s <- getS ;;
  let i := next_key (orders s) in
  putS (with_orders s (<[i:=o]> (orders s))) ;;; retS i.
Definition add_cart (c : Cart.t) : handler nat :=
  s <- getS ;;
  let i := next_key (carts s) in
  putS (with_carts s (<[i:=c]> (carts s))) ;;; retS i.
Definition add_request (r : BookRequest.t) : handler nat :=
  s <- getS ;;
  let i := next_key (requests s) in
  putS (with_requests s (<[i:=r]> (requests s))) ;;; retS i.

Definition add_book (b : Book.t) : handler nat :=
  s <- getS ;;
  let i := next_key (books s) in
  putS (with_books s (<[i:=b]> (books s))) ;;; retS i.

Definition add_user (u : User.t) : handler nat :=
  s <- getS ;;
  let i := next_key (users s) in
  putS (with_users s (<[i:=u]> (users s))) ;;; retS i.

Definition save_user (i : nat) (u : User.t) : handler unit :=
  modifyS (fun s => with_users s (<[i:=u]> (users s))).

(** [db.session.delete(cart_item)] *)
Definition delete_cart (i : nat) : handler unit :=
  modifyS (fun s => with_carts s (delete i (carts s))).

(** ** An example database

    Used by the concrete runs of the theorems: an admin (user 1), two
    students (users 2 and 3), four books, three orders, one cart line
    and one pending book request.  Book 2 and order 1 are the edit
    scenario of spec section 8 (2 copies free, a pending order of 3);
    book 3 and order 2 its admin-cancel scenario (1 copy free out of 10,
    an approved order of 4).  The password hashes are those of the
    symbolic bcrypt of [Libraries] ([$2b$] and the password). *)
Definition admin_user : User.t :=
  User.mk "Admin" "admin@bookstore.com" "$2b$admin123" "admin" "default.png".
Definition alice : User.t :=
  User.mk "Alice" "alice@campus.edu" "$2b$alice-pw" "student" "default.png".
Definition bob : User.t :=
  User.mk "Bob" "bob@campus.edu" "$2b$bob-pw" "student" "default.png".

Definition dune : Book.t := Book.mk "Dune" "Herbert" "Fiction" None (995 # 100)%Q 5 5.
Definition sicp : Book.t := Book.mk "SICP" "Abelson" "CS" (Some "0262510871") (55 # 1)%Q 5 2.
Definition taocp : Book.t := Book.mk "TAOCP" "Knuth" "CS" None (200 # 1)%Q 10 1.
Definition kr : Book.t := Book.mk "K&R" "Kernighan" "CS" None 0%Q 3 1.

Definition demo_store : Store := mkStore
  (list_to_map [(1, admin_user); (2, alice); (3, bob)])
  (list_to_map [(1, dune); (2, sicp); (3, taocp); (4, kr)])
  (list_to_map [(1, Order.mk (Some 2) (Some 2) 3 Pending None "unpaid");
                (2, Order.mk (Some 3) (Some 3) 4 Approved None "unpaid");
                (3, Order.mk (Some 2) (Some 3) 5 Approved (Some "mock") "unpaid")])
  (list_to_map [(1, Cart.mk 2 4 2)])
  (list_to_map [(1, BookRequest.mk 2 "Types and PL" "Pierce" "CS" None ReqPending)])
  ∅ ∅.

(** ** Lemmas on the helpers *)

Lemma login_required_ok sess s cu s' :
  login_required sess s = inr (cu, s') ->
  s' = s /\ current_user s sess = Some cu.
Proof.
  unfold login_required. unfold_st. intros H.
  destruct (current_user s sess); simplify_eq; auto.
Qed.

Lemma current_user_Some s sess uid u :
  current_user s sess = Some (uid, u) -> sess = Some uid /\ users s !! uid = Some u.
Proof.
  unfold current_user. destruct sess as [i|]; [|done].
  destruct (users s !! i) eqn:E; naive_solver.
Qed.

Lemma order_book_ok o s b bk s' :
  order_book o s = inr ((b, bk), s') ->
  s' = s /\ Order.book_id o = Some b /\ books s !! b = Some bk.
Proof.
  unfold order_book. unfold_st.
  destruct (Order.book_id o) as [b'|]; [|done].
  destruct (books s !! b') eqn:E; intros H; simplify_eq; auto.
Qed.

Ltac get_or_404_inv :=
  intros H; unfold_st; destruct (_ !! _); simplify_eq; auto.

Lemma get_book_ok i s b s' :
  get_book_or_404 i s = inr (b, s') -> s' = s /\ books s !! i = Some b.
Proof. unfold get_book_or_404. get_or_404_inv. Qed.

Lemma get_order_ok i s o s' :
  get_order_or_404 i s = inr (o, s') -> s' = s /\ orders s !! i = Some o.
Proof. unfold get_order_or_404. get_or_404_inv. Qed.

Lemma get_cart_ok i s c s' :
  get_cart_or_404 i s = inr (c, s') -> s' = s /\ carts s !! i = Some c.
Proof. unfold get_cart_or_404. get_or_404_inv. Qed.

Lemma get_request_ok i s r s' :
  get_request_or_404 i s = inr (r, s') -> s' = s /\ requests s !! i = Some r.
Proof. unfold get_request_or_404. get_or_404_inv. Qed.

Lemma get_user_ok i s u s' :
  get_user_or_404 i s = inr (u, s') -> s' = s /\ users s !! i = Some u.
Proof. unfold get_user_or_404. get_or_404_inv. Qed.

Lemma cart_book_ok c s bk s' :
  cart_book c s = inr (bk, s') -> s' = s /\ books s !! Cart.book_id c = Some bk.
Proof. unfold cart_book. get_or_404_inv. Qed.


Lemma Book_set_available_total b n :
  Book.total_copies (Book.set_available_copies b n) = Book.total_copies b.
Proof. done. Qed.

#[export] Hint Rewrite Book_set_available_total : bookstore_rw.

(** Invert a successful run of a route: split the binds and replace each
    step by what it read or wrote. *)
Ltac run_inv :=
  repeat match goal with
  | H : bindS _ _ _ = inr _ |- _ =>
      let a := fresh "a" in let s := fresh "s" in let H1 := fresh "Hrun" in
      apply bindS_ok_inv in H as (a & s & H1 & H); cbn beta iota in H
  | p : (_ * _)%type |- _ => destruct p; cbn beta iota in *
  | H : login_required _ _ = inr _ |- _ =>
      apply login_required_ok in H as [? H]; subst;
      try (pose proof (current_user_Some _ _ _ _ H) as [? ?])
  | H : guardS _ _ _ = inr _ |- _ => apply guardS_ok_inv in H as [? ?]; subst
  | H : someS _ _ _ = inr _ |- _ => apply someS_ok_inv in H as [? ?]; subst
  | H : get_book_or_404 _ _ = inr _ |- _ => apply get_book_ok in H as [? ?]; subst
  | H : get_order_or_404 _ _ = inr _ |- _ => apply get_order_ok in H as [? ?]; subst
  | H : get_cart_or_404 _ _ = inr _ |- _ => apply get_cart_ok in H as [? ?]; subst
  | H : get_request_or_404 _ _ = inr _ |- _ => apply get_request_ok in H as [? ?]; subst
  | H : get_user_or_404 _ _ = inr _ |- _ => apply get_user_ok in H as [? ?]; subst
  | H : order_book _ _ = inr _ |- _ => apply order_book_ok in H as (? & ? & ?); subst
  | H : cart_book _ _ = inr _ |- _ => apply cart_book_ok in H as [? ?]; subst
  | H : save_book _ _ _ = inr _ |- _ => unfold save_book, modifyS in H; injection H as <- <-
  | H : save_order _ _ _ = inr _ |- _ => unfold save_order, modifyS in H; injection H as <- <-
  | H : save_cart _ _ _ = inr _ |- _ => unfold save_cart, modifyS in H; injection H as <- <-
  | H : save_request _ _ _ = inr _ |- _ => unfold save_request, modifyS in H; injection H as <- <-
  | H : delete_cart _ _ = inr _ |- _ => unfold delete_cart, modifyS in H; injection H as <- <-
  | H : add_order _ _ = inr _ |- _ => unfold add_order in H; unfold_st; injection H as <- <-
  | H : add_cart _ _ = inr _ |- _ => unfold add_cart in H; unfold_st; injection H as <- <-
  | H : add_request _ _ = inr _ |- _ => unfold add_request in H; unfold_st; injection H as <- <-
  | H : add_book _ _ = inr _ |- _ => unfold add_book in H; unfold_st; injection H as <- <-
  | H : add_user _ _ = inr _ |- _ => unfold add_user in H; unfold_st; injection H as <- <-
  | H : save_user _ _ _ = inr _ |- _ => unfold save_user, modifyS in H; injection H as <- <-
  | H : modifyS _ _ = inr _ |- _ => unfold modifyS in H; injection H as <- <-
  | H : retS _ _ = inr _ |- _ => unfold retS in H; injection H as <- <-
  | H : getS _ = inr _ |- _ => unfold getS in H; injection H as <- <-
  | H : inr (_, _) = inr (_, _) |- _ => injection H as <- <-
  | H : negb _ = true |- _ => apply negb_true_iff in H
  | H : (_ <? _)%Z = false |- _ => apply Z.ltb_ge in H
  | H : (_ || _)%bool = false |- _ => apply orb_false_iff in H as [? ?]
  | H : bool_decide _ = true |- _ => apply bool_decide_eq_true in H
  end.
