(* ===== verification/Forms.v ===== *)
(** * The forms of src/forms.py and what [validate_on_submit] checks

    Every [FlaskForm] carries a CSRF token (Flask-WTF enables it by
    default, independently of the [CSRFProtect] line that app.py leaves
    commented out), so a submitted form is valid only with a good token
    and when each validator passes.  A submitted form is modelled as the
    data of its fields: a text field is [option string] ([None] when the
    field is not in the request), an [IntegerField] is a [FormInt], a
    [FloatField] a [FormFloat], and the check that calls an external
    library (the e-mail syntax of [Email()]) is given as a boolean of
    the submitted form. *)

From S2P Require Import Prelude Model.
From Stdlib Require Import QArith_base.
Close Scope Q_scope.

Open Scope bookstore_scope.

(** ** Text *)

(** The ASCII characters Python's [str.strip()] removes: tab, line feed,
    vertical tab, form feed, carriage return, the separators 0x1c-0x1f
    and space. *)
Definition is_py_space (a : Ascii.ascii) : bool :=
  let n := Ascii.nat_of_ascii a in
  ((9 <=? n) && (n <=? 13)) || ((28 <=? n) && (n <=? 32)).

(** [s.strip() == ""] *)
Fixpoint is_blank (s : string) : bool :=
  match s with
  | EmptyString => true
  | String a rest => is_py_space a && is_blank rest
  end.

(** [str.strip()]: drop the leading and the trailing whitespace. *)
Fixpoint drop_spaces (l : list Ascii.ascii) : list Ascii.ascii :=
  match l with
  | [] => []
  | a :: rest => if is_py_space a then drop_spaces rest else l
  end.

Definition py_strip (s : string) : string :=
  String.string_of_list_ascii
    (rev (drop_spaces (rev (drop_spaces (String.list_ascii_of_string s))))).

(** [str.lower()] on ASCII text: A-Z become a-z. *)
Definition is_upper (a : Ascii.ascii) : bool :=
  let n := Ascii.nat_of_ascii a in (65 <=? n) && (n <=? 90).

Definition lower_char (a : Ascii.ascii) : Ascii.ascii :=
  if is_upper a then Ascii.ascii_of_nat (Ascii.nat_of_ascii a + 32) else a.

Fixpoint py_lower (s : string) : string :=
  match s with
  | EmptyString => EmptyString
  | String a rest => String (lower_char a) (py_lower rest)
  end.

Fixpoint has_upper (s : string) : bool :=
  match s with
  | EmptyString => false
  | String a rest => is_upper a || has_upper rest
  end.

(** [DataRequired()]: the field has data and, for text, not only
    whitespace. *)
Definition data_required (f : option string) : bool :=
  match f with Some v => negb (is_blank v) | None => false end.

(** [field.data or default] on a text field: [None] and [""] are false. *)
Definition or_default (f : option string) (default : string) : string :=
  match f with
  | Some v => if String.eqb v "" then default else v
  | None => default
  end.

(** ** The forms *)

(** forms.py [RequestBookForm] as submitted. *)
Record RequestBookForm := mkRequestBookForm {
  rq_csrf_ok : bool;
  rq_title : option string;
  rq_author : option string;
  rq_genre : option string;
  rq_reason : option string;
}.

Definition request_form_valid (f : RequestBookForm) : bool :=
  rq_csrf_ok f && data_required (rq_title f) && data_required (rq_author f).

(** forms.py [BookForm] as submitted. *)
Record BookForm := mkBookForm {
  bf_csrf_ok : bool;
  bf_title : option string;
  bf_author : option string;
  bf_genre : option string;
  bf_isbn : option string;
  bf_price : FormFloat;
  bf_total_copies : FormInt;
}.

(** [IntegerField('Total Copies', default=1)]: absent keeps the default;
    text that is not an integer is a validation error. *)
Definition book_form_total (f : BookForm) : option Z := form_int (bf_total_copies f) 1.

(** [FloatField('Price', default=0.0)]: absent keeps the default; text
    that is not a number is a validation error. *)
Definition book_form_price (f : BookForm) : option Q :=
  match bf_price f with
  | FAbsent => Some 0%Q
  | FloatLit q => Some q
  | NotAFloat => None
  end.

Definition book_form_valid (f : BookForm) : bool :=
  bf_csrf_ok f && data_required (bf_title f) && data_required (bf_author f) &&
  bool_decide (is_Some (book_form_price f)) && bool_decide (is_Some (book_form_total f)).

(** forms.py [LoginForm] as submitted ([email_ok]: [Email()] passes). *)
Record LoginForm := mkLoginForm {
  lf_csrf_ok : bool;
  lf_email : option string;
  lf_email_ok : bool;
  lf_password : option string;
}.

Definition login_form_valid (f : LoginForm) : bool :=
  lf_csrf_ok f && data_required (lf_email f) && lf_email_ok f && data_required (lf_password f).

(** forms.py [RegisterForm] as submitted. *)
Record RegisterForm := mkRegisterForm {
  rf_csrf_ok : bool;
  rf_name : option string;
  rf_email : option string;
  rf_email_ok : bool;
  rf_password : option string;
  rf_confirm : option string;
}.

(** [EqualTo('confirm')] compares the two fields' data. *)
Definition register_form_valid (f : RegisterForm) : bool :=
  rf_csrf_ok f && data_required (rf_name f) && data_required (rf_email f) && rf_email_ok f &&
  data_required (rf_password f) && bool_decide (rf_password f = rf_confirm f).

(** forms.py [StudentForm] as submitted ([email_ok]: [Email()] passes). *)
Record StudentForm := mkStudentForm {
  sf_csrf_ok : bool;
  sf_name : option string;
  sf_email : option string;
  sf_email_ok : bool;
}.

Definition student_form_valid (f : StudentForm) : bool :=
  sf_csrf_ok f && data_required (sf_name f) && data_required (sf_email f) && sf_email_ok f.

(** forms.py [OrderForm] as submitted; no route uses it.  [IntegerField]
    fails on text that is not an integer, [DataRequired()] on a missing
    field and on [0] (it tests [not field.data]), and [NumberRange(min=1)]
    on a smaller number. *)
Record OrderForm := mkOrderForm {
  of_csrf_ok : bool;
  of_quantity : FormInt;
}.

Definition order_form_valid (f : OrderForm) : bool :=
  of_csrf_ok f &&
  match of_quantity f with
  | IntLit z => negb (Z.eqb z 0) && Z.leb 1 z
  | Absent | NotAnInt => false
  end.

(** ** Lemmas *)

Lemma data_required_Some f : data_required f = true -> exists v, f = Some v /\ is_blank v = false.
Proof. destruct f as [v|]; simpl; [|done]. intros H. exists v. by destruct (is_blank v). Qed.

Lemma lower_char_not_upper a : is_upper (lower_char a) = false.
Proof. destruct a as [[] [] [] [] [] [] [] []]; reflexivity. Qed.

(** Lowered text has no capital letter. *)
Lemma has_upper_py_lower s : has_upper (py_lower s) = false.
Proof. induction s as [|a s IH]; simpl; [done|]. by rewrite lower_char_not_upper, IH. Qed.

Lemma drop_spaces_nil l : drop_spaces l = [] <-> forallb is_py_space l = true.
Proof.
  induction l as [|a l IH]; simpl; [done|].
  destruct (is_py_space a); simpl; [done|]. split; discriminate.
Qed.

Lemma drop_spaces_forallb l : forallb is_py_space (drop_spaces l) = true -> drop_spaces l = [].
Proof.
  induction l as [|a l IH]; simpl; [done|].
  destruct (is_py_space a) eqn:Ha; simpl; [done|]. by rewrite Ha.
Qed.

Lemma is_blank_forallb s : is_blank s = forallb is_py_space (String.list_ascii_of_string s).
Proof. induction s as [|a s IH]; simpl; [done|]. by rewrite IH. Qed.

Lemma forallb_rev_spaces l : forallb is_py_space (rev l) = forallb is_py_space l.
Proof.
  induction l as [|a l IH]; simpl; [done|].
  rewrite forallb_app, IH. simpl. by rewrite andb_true_r, andb_comm.
Qed.

Lemma rev_nil_iff {A} (l : list A) : rev l = [] <-> l = [].
Proof.
  split; [|by intros ->]. intros H. apply (f_equal (@rev A)) in H.
  by rewrite rev_involutive in H.
Qed.

(** [is_blank] is WTForms' test [not field.data.strip()]. *)
Lemma is_blank_strip s : is_blank s = String.eqb (py_strip s) "".
Proof.
  apply eq_true_iff_eq. rewrite String.eqb_eq, is_blank_forallb.
  unfold py_strip. set (l := String.list_ascii_of_string s).
  transitivity (drop_spaces l = []).
  { symmetry. apply drop_spaces_nil. }
  assert (Hrev : forall x : list Ascii.ascii, String.string_of_list_ascii x = "" <-> x = []).
  { intros [|]; simpl; split; done. }
  rewrite Hrev, rev_nil_iff, (drop_spaces_nil (rev _)), forallb_rev_spaces. split.
  - intros ->. done.
  - apply drop_spaces_forallb.
Qed.
