(* ===== verification/Libraries.v ===== *)
(** * The libraries the account routes call: bcrypt, itsdangerous, werkzeug

    models.py hashes passwords with [bcrypt.hashpw(password,
    bcrypt.gensalt())] ([User.set_password], lines 27-30) and checks them
    with [bcrypt.checkpw] ([User.check_password], lines 32-38, [False]
    when the stored hash is malformed).  src/app.py signs the e-mail of a
    password reset with [URLSafeTimedSerializer(SECRET_KEY)] (line 64):
    [s.dumps(email, salt='recover-key')] (line 146) and
    [s.loads(token, salt='recover-key', max_age=1800)] (line 158).  The
    profile route names an uploaded file with werkzeug's
    [secure_filename] (line 128).

    These are libraries the sources only call.  Each is a class whose
    laws are what the routes rely on; the routes of [Users] and the
    theorems about them are proved for every instance.  The random salt
    of [gensalt()] and the signing time are inputs of the request.
    [secure_filename] needs no law: what is proved of it holds for any
    function.  Symbolic instances ([sym_bcrypt], [sym_serializer],
    [sym_secure_filename]) run the concrete
    scenarios; they are not declared as instances, so no theorem is
    proved about them by accident. *)

From S2P Require Import Prelude.

Open Scope bookstore_scope.

(** The bytes of a password that bcrypt reads: the first 72 of its
    UTF-8 encoding (a [string] is a sequence of bytes).  bcrypt 4 drops
    the rest without an error. *)
Definition BCRYPT_MAX_BYTES : nat := 72.

Definition bcrypt_key (password : string) : string := String.substring 0 BCRYPT_MAX_BYTES password.

(** [bcrypt.hashpw] and [bcrypt.checkpw]: a hash checks against every
    password with the same first 72 bytes as the one it was made from,
    and against no other (the collision resistance the application
    relies on). *)
Class Bcrypt := {
  hashpw : string -> string -> string;
  checkpw : string -> string -> bool;
  checkpw_hashpw_key : forall password password' salt,
    bcrypt_key password = bcrypt_key password' -> checkpw password (hashpw password' salt) = true;
  checkpw_hashpw_inv : forall password password' salt,
    checkpw password (hashpw password' salt) = true -> bcrypt_key password = bcrypt_key password';
}.

(** [URLSafeTimedSerializer] with one salt: [dumps payload t] is the
    token signed at time [t]; [loads tok max_age now] is its payload
    when the signature is good and [0 <= now - t <= max_age], and
    [None] where [loads] raises.  The only tokens it accepts are tokens
    it made. *)
Class TimedSerializer := {
  token : Type;
  dumps : string -> Z -> token;
  loads : token -> Z -> Z -> option string;
  loads_dumps : forall payload t max_age now,
    (t <= now <= t + max_age)%Z -> loads (dumps payload t) max_age now = Some payload;
  loads_dumps_expired : forall payload t max_age now,
    (t + max_age < now)%Z -> loads (dumps payload t) max_age now = None;
  loads_Some : forall tok max_age now payload,
    loads tok max_age now = Some payload ->
    exists t, tok = dumps payload t /\ (t <= now <= t + max_age)%Z;
}.

(** ** Lemmas of the interfaces *)

Lemma checkpw_hashpw `{Bcrypt} password salt : checkpw password (hashpw password salt) = true.
Proof. by apply checkpw_hashpw_key. Qed.

(** [checkpw] against a hash decides equality of the first 72 bytes. *)
Lemma checkpw_hashpw_eqb `{Bcrypt} password password' salt :
  checkpw password (hashpw password' salt) =
    String.eqb (bcrypt_key password) (bcrypt_key password').
Proof.
  destruct (String.eqb_spec (bcrypt_key password) (bcrypt_key password')) as [E|Hne].
  - by apply checkpw_hashpw_key.
  - destruct (checkpw _ _) eqn:Hc; [|done]. by apply checkpw_hashpw_inv in Hc.
Qed.

(** ** Symbolic instances *)

Definition sym_hashpw (password _ : string) : string := ("$2b$" ++ bcrypt_key password)%string.

Definition sym_checkpw (password hash : string) : bool := String.eqb hash (sym_hashpw password "").

Definition sym_bcrypt : Bcrypt.
Proof.
  refine {| hashpw := sym_hashpw; checkpw := sym_checkpw |}.
  - intros p p' salt H. apply String.eqb_eq. unfold sym_hashpw. by rewrite H.
  - intros p p' salt H. apply String.eqb_eq in H. unfold sym_hashpw in H.
    by injection H.
Defined.

(** A token is the signed payload with its signing time. *)
Definition sym_loads (tok : string * Z) (max_age now : Z) : option string :=
  if bool_decide (tok.2 <= now <= tok.2 + max_age)%Z then Some tok.1 else None.

Definition sym_serializer : TimedSerializer.
Proof.
  refine {| token := string * Z; dumps := pair; loads := sym_loads |}.
  - intros p t m now H. unfold sym_loads. by rewrite bool_decide_eq_true_2.
  - intros p t m now H. unfold sym_loads. rewrite bool_decide_eq_false_2; [done|]. simpl. lia.
  - intros [p t] m now e. unfold sym_loads. simpl. case_bool_decide; [|done].
    intros [= <-]. eauto.
Defined.

(** [werkzeug.utils.secure_filename]. *)
Class SecureFilename := secure_filename : string -> string.

(** A name that is already safe is kept as it is. *)
Definition sym_secure_filename : SecureFilename := fun f => f.
