(* ===== verification/Ledger.v ===== *)
(** * The inventory ledger

    The code has no ledger object: every route that reserves or returns
    copies writes [book.available_copies] itself (src/app.py lines 219,
    274, 293, 319, 477, 490).  This file states what those writes must
    keep: the copies a book has reserved are the quantities of its cart
    lines and of its active orders (pending or approved, spec section 3),
    and [available_copies + reserved = total_copies] ([ledger_ok]).  It
    also holds the spec's contract of section 4.1 ([reserve], [release]
    with its cap, modelled from the spec) and the lemmas saying how the
    reserved total moves when one row is written. *)

From S2P Require Import Prelude Model.

Open Scope bookstore_scope.
Open Scope Z_scope.

(** ** Reservation claims *)

(** An order holds copies while it is pending or approved. *)
Definition active (st : OrderStatus) : bool :=
  match st with Pending | Approved => true | _ => false end.

(** The copies of book [b] held by cart line [c]. *)
Definition cart_hold (b : nat) (_ : nat) (c : Cart.t) : Z :=
  if Nat.eqb (Cart.book_id c) b then Cart.quantity c else 0.

(** The copies of book [b] held by order [o]. *)
Definition order_hold (b : nat) (_ : nat) (o : Order.t) : Z :=
  if bool_decide (Order.book_id o = Some b) && active (Order.status o)
  then Order.quantity o else 0.

Definition cart_reserved (s : Store) (b : nat) : Z := map_sum (cart_hold b) (carts s).
Definition order_reserved (s : Store) (b : nat) : Z := map_sum (order_hold b) (orders s).
Definition reserved (s : Store) (b : nat) : Z := cart_reserved s b + order_reserved s b.

(** ** The invariants *)

(** Spec section 3: [available_copies + reserved = total_copies]. *)
Definition ledger_ok (s : Store) : Prop :=
  map_Forall (fun b bk => Book.available_copies bk + reserved s b = Book.total_copies bk)
    (books s).

(** Spec section 3: [0 <= available_copies <= total_copies]. *)
Definition stock_ok (s : Store) : Prop :=
  map_Forall (fun _ bk => 0 <= Book.available_copies bk <= Book.total_copies bk) (books s).

(** Spec section 3: every cart line and order has quantity at least 1. *)
Definition holds_ok (s : Store) : Prop :=
  map_Forall (fun _ c => 1 <= Cart.quantity c) (carts s) /\
  map_Forall (fun _ o => 1 <= Order.quantity o) (orders s).

#[export] Instance ledger_ok_dec s : Decision (ledger_ok s).
Proof. unfold ledger_ok. apply _. Defined.
#[export] Instance stock_ok_dec s : Decision (stock_ok s).
Proof. unfold stock_ok. apply _. Defined.
#[export] Instance holds_ok_dec s : Decision (holds_ok s).
Proof. unfold holds_ok. apply _. Defined.

(** ** The contract of spec section 4.1 (modelled from the spec) *)

Module LedgerSpec.
(** [reserve(book, qty)]: fails when [qty > available_copies]. *)
Definition reserve (bk : Book.t) (qty : Z) : option Book.t :=
  if Book.available_copies bk <? qty then None
  else Some (Book.set_available_copies bk (Book.available_copies bk - qty)).

(** [release(book, qty)]: increments, capped at [total_copies]. *)
Definition release (bk : Book.t) (qty : Z) : Book.t :=
  Book.set_available_copies bk
    (Z.min (Book.total_copies bk) (Book.available_copies bk + qty)).
End LedgerSpec.

(** What the code writes instead of [release]: lines 293, 319 and 490
    ([... .available_copies += quantity]), with no cap. *)
Definition return_copies (bk : Book.t) (qty : Z) : Book.t :=
  Book.set_available_copies bk (Book.available_copies bk + qty).

(** ** How the reserved totals move *)

Section Holds.
Implicit Types (s : Store) (b i : nat) (o : Order.t) (c : Cart.t).

Lemma order_hold_same b i o :
  Order.book_id o = Some b -> active (Order.status o) = true ->
  order_hold b i o = Order.quantity o.
Proof. intros Hb Ha. unfold order_hold. rewrite Ha, bool_decide_eq_true_2; done. Qed.

Lemma order_hold_inactive b i o :
  active (Order.status o) = false -> order_hold b i o = 0.
Proof. intros Ha. unfold order_hold. rewrite Ha, andb_false_r. done. Qed.

Lemma order_hold_other b b' i o :
  Order.book_id o = Some b' -> b <> b' -> order_hold b i o = 0.
Proof.
  intros Hb Hne. unfold order_hold. rewrite bool_decide_eq_false_2; [done|].
  rewrite Hb. congruence.
Qed.

Lemma cart_hold_same b i c : Cart.book_id c = b -> cart_hold b i c = Cart.quantity c.
Proof. intros <-. unfold cart_hold. by rewrite Nat.eqb_refl. Qed.

Lemma cart_hold_other b i c : Cart.book_id c <> b -> cart_hold b i c = 0.
Proof. intros Hne. unfold cart_hold. by rewrite (proj2 (Nat.eqb_neq _ _) Hne). Qed.

Lemma reserved_with_books s m b : reserved (with_books s m) b = reserved s b.
Proof. done. Qed.

(** Each lemma below takes the new store [s'] with the tables it
    keeps as equations, so that it applies to any way of building
    [s'] from [s]. *)
Lemma reserved_add_order s s' i o b :
  carts s' = carts s -> orders s' = <[i:=o]> (orders s) -> orders s !! i = None ->
  reserved s' b = reserved s b + order_hold b i o.
Proof.
  intros Hc Ho Hi. unfold reserved, order_reserved, cart_reserved.
  rewrite Hc, Ho, map_sum_insert_fresh by done. lia.
Qed.

Lemma reserved_save_order s s' i o o' b :
  carts s' = carts s -> orders s' = <[i:=o']> (orders s) -> orders s !! i = Some o ->
  reserved s' b = reserved s b - order_hold b i o + order_hold b i o'.
Proof.
  intros Hc Ho Hi. unfold reserved, order_reserved, cart_reserved.
  rewrite Hc, Ho, (map_sum_insert _ _ _ o) by done. lia.
Qed.

Lemma reserved_delete_order s s' i o b :
  carts s' = carts s -> orders s' = delete i (orders s) -> orders s !! i = Some o ->
  reserved s' b = reserved s b - order_hold b i o.
Proof.
  intros Hc Ho Hi. unfold reserved, order_reserved, cart_reserved.
  rewrite Hc, Ho, (map_sum_delete _ (orders s) i o Hi). lia.
Qed.

Lemma reserved_add_cart s s' i c b :
  orders s' = orders s -> carts s' = <[i:=c]> (carts s) -> carts s !! i = None ->
  reserved s' b = reserved s b + cart_hold b i c.
Proof.
  intros Ho Hc Hi. unfold reserved, order_reserved, cart_reserved.
  rewrite Hc, Ho, map_sum_insert_fresh by done. lia.
Qed.

Lemma reserved_save_cart s s' i c c' b :
  orders s' = orders s -> carts s' = <[i:=c']> (carts s) -> carts s !! i = Some c ->
  reserved s' b = reserved s b - cart_hold b i c + cart_hold b i c'.
Proof.
  intros Ho Hc Hi. unfold reserved, order_reserved, cart_reserved.
  rewrite Hc, Ho, (map_sum_insert _ _ _ c) by done. lia.
Qed.

Lemma reserved_delete_cart s s' i c b :
  orders s' = orders s -> carts s' = delete i (carts s) -> carts s !! i = Some c ->
  reserved s' b = reserved s b - cart_hold b i c.
Proof.
  intros Ho Hc Hi. unfold reserved, order_reserved, cart_reserved.
  rewrite Hc, Ho, (map_sum_delete _ (carts s) i c Hi). lia.
Qed.
End Holds.

#[export] Hint Rewrite reserved_with_books : bookstore_rw.

(** Rewrite [reserved s' b] into [reserved s b] and the held quantities,
    with one of the lemmas above; the tables of [s'] are matched by
    conversion and the row lookups come from the context. *)
Tactic Notation "rw_reserved" uconstr(L) constr(s) :=
  erewrite (L s); [|reflexivity|reflexivity|eauto with bookstore].

(** ** Transferring the invariants to a new store *)

(** [ledger_ok] carries over when every book of the new store existed
    before with the same total and the same [available + reserved]. *)
Lemma ledger_ok_transfer s s' :
  ledger_ok s ->
  (forall b bk', books s' !! b = Some bk' ->
     exists bk, books s !! b = Some bk /\
       Book.total_copies bk' = Book.total_copies bk /\
       Book.available_copies bk' + reserved s' b = Book.available_copies bk + reserved s b) ->
  ledger_ok s'.
Proof.
  intros Hok Hs' b bk' Hb'. destruct (Hs' b bk' Hb') as (bk & Hb & Ht & Ha).
  specialize (Hok b bk Hb). simpl in Hok. lia.
Qed.

(** The common case: one book [b0] is rewritten with [available'], the
    reserved total of [b0] moves by the opposite amount and that of
    every other book is unchanged. *)
Lemma ledger_ok_one_book s s' b0 bk0 available' :
  ledger_ok s ->
  books s !! b0 = Some bk0 ->
  books s' = <[b0:=Book.set_available_copies bk0 available']> (books s) ->
  available' + reserved s' b0 = Book.available_copies bk0 + reserved s b0 ->
  (forall b, b <> b0 -> reserved s' b = reserved s b) ->
  ledger_ok s'.
Proof.
  intros Hok Hb0 Hbooks Hb0r Hother. apply (ledger_ok_transfer s); [done|].
  intros b bk' Hb'. rewrite Hbooks in Hb'.
  destruct (decide (b = b0)) as [->|Hne].
  - rewrite lookup_insert_eq in Hb'. injection Hb' as <-. eauto.
  - rewrite lookup_insert_ne in Hb' by congruence. exists bk'.
    rewrite Hother by done. auto.
Qed.

(** The converse: the ledger fails on [s'] when one book kept its
    total while its [available + reserved] moved by a non-zero [d]. *)
Lemma ledger_broken s s' b bk bk' d :
  ledger_ok s -> books s !! b = Some bk -> books s' !! b = Some bk' ->
  Book.total_copies bk' = Book.total_copies bk ->
  Book.available_copies bk' + reserved s' b = Book.available_copies bk + reserved s b + d ->
  d <> 0 -> ~ ledger_ok s'.
Proof.
  intros Hok Hb Hb' Ht Hd Hne Hok'.
  specialize (Hok b bk Hb). specialize (Hok' b bk' Hb'). simpl in *. lia.
Qed.

(** Same for [stock_ok]. *)
Lemma stock_ok_one_book s s' b0 bk0 available' :
  stock_ok s ->
  books s' = <[b0:=Book.set_available_copies bk0 available']> (books s) ->
  0 <= available' <= Book.total_copies bk0 ->
  stock_ok s'.
Proof.
  intros Hok Hbooks Hav b bk' Hb'. rewrite Hbooks in Hb'.
  destruct (decide (b = b0)) as [->|Hne].
  - rewrite lookup_insert_eq in Hb'. by injection Hb' as <-.
  - rewrite lookup_insert_ne in Hb' by congruence. exact (Hok b bk' Hb').
Qed.

(** With all quantities at least 1, every claim on a book is
    non-negative. *)
Lemma cart_hold_nonneg s b : holds_ok s ->
  forall k c, carts s !! k = Some c -> 0 <= cart_hold b k c.
Proof.
  intros [Hc _] k c Hk. specialize (Hc k c Hk). simpl in Hc. unfold cart_hold. case_match; lia.
Qed.

Lemma order_hold_nonneg s b : holds_ok s ->
  forall k o, orders s !! k = Some o -> 0 <= order_hold b k o.
Proof.
  intros [_ Ho] k o Hk. specialize (Ho k o Hk). simpl in Ho. unfold order_hold. case_match; lia.
Qed.

(** Under [holds_ok] the reserved total of a book bounds each single
    claim, so that under [ledger_ok] returning the copies of an active
    claim never exceeds [total_copies]. *)
Lemma order_hold_le_reserved s b i o :
  holds_ok s -> orders s !! i = Some o -> order_hold b i o <= reserved s b.
Proof.
  intros Hh Hi. unfold reserved, order_reserved, cart_reserved.
  pose proof (map_sum_single_le _ _ i o (order_hold_nonneg s b Hh) Hi).
  pose proof (map_sum_nonneg _ (carts s) (cart_hold_nonneg s b Hh)). lia.
Qed.

Lemma cart_hold_le_reserved s b i c :
  holds_ok s -> carts s !! i = Some c -> cart_hold b i c <= reserved s b.
Proof.
  intros Hh Hi. unfold reserved, order_reserved, cart_reserved.
  pose proof (map_sum_single_le _ _ i c (cart_hold_nonneg s b Hh) Hi).
  pose proof (map_sum_nonneg _ (orders s) (order_hold_nonneg s b Hh)). lia.
Qed.

(** Returning [q] copies of a claim on an existing book keeps the stock
    bound, under the ledger. *)
Lemma stock_return s s' b bk q :
  ledger_ok s -> stock_ok s -> books s !! b = Some bk ->
  0 <= q -> q <= reserved s b ->
  books s' = <[b:=return_copies bk q]> (books s) -> stock_ok s'.
Proof.
  intros Hl Hs Hb Hq Hr Hbooks. specialize (Hl b bk Hb). pose proof (Hs b bk Hb). simpl in *.
  eapply (stock_ok_one_book s _ b bk); [done|exact Hbooks|]. lia.
Qed.

(** [stock_ok] reads only the books. *)
Lemma stock_ok_ext s s' : books s' = books s -> stock_ok s -> stock_ok s'.
Proof. unfold stock_ok. by intros ->. Qed.

Lemma return_copies_set_available book n q :
  return_copies (Book.set_available_copies book n) q = Book.set_available_copies book (n + q).
Proof. done. Qed.

Lemma Book_set_available_id book :
  Book.set_available_copies book (Book.available_copies book) = book.
Proof. by destruct book. Qed.

(** ** Stores with the same inventory

    The ledger, the stock bound and the quantities read only the books,
    the orders and the cart lines: stores that agree on these three
    tables are equivalent for them, and a route that writes none of them
    keeps every invariant by rewriting. *)
Definition same_inventory (s s' : Store) : Prop :=
  books s = books s' /\ orders s = orders s' /\ carts s = carts s'.

#[export] Instance same_inventory_equiv : Equivalence same_inventory.
Proof.
  split.
  - done.
  - intros s s' (? & ? & ?). done.
  - intros s1 s2 s3 (? & ? & ?) (? & ? & ?). split_and!; congruence.
Qed.

#[export] Instance reserved_proper : Proper (same_inventory ==> eq ==> eq) reserved.
Proof.
  intros s s' (_ & Ho & Hc) b ? <-. unfold reserved, cart_reserved, order_reserved.
  by rewrite Ho, Hc.
Qed.

#[export] Instance ledger_ok_proper : Proper (same_inventory ==> iff) ledger_ok.
Proof.
  intros s s' Hs. unfold ledger_ok. rewrite (proj1 Hs).
  split; intros Hok b bk Hbk; specialize (Hok b bk Hbk); simpl in *.
  - by rewrite <- Hs.
  - by rewrite Hs.
Qed.

#[export] Instance stock_ok_proper : Proper (same_inventory ==> iff) stock_ok.
Proof. intros s s' (Hb & _ & _). unfold stock_ok. by rewrite Hb. Qed.

#[export] Instance holds_ok_proper : Proper (same_inventory ==> iff) holds_ok.
Proof. intros s s' (_ & Ho & Hc). unfold holds_ok. by rewrite Ho, Hc. Qed.
