(* ===== verification/Orders.v ===== *)
(** * The order routes of src/app.py

    [place_order] (lines 209-225), [student_edit_order] (253-279),
    [student_cancel_order] (282-297), [admin_approve_order] (299-309) and
    [admin_cancel_order] (311-323), each written step by step in the
    request monad in the order of the source: the guards in the order of
    the code's early returns, then the writes the commit flushes.  The
    theorems give each route's result on every branch and its effect on
    the ledger invariant. *)

From S2P Require Import Prelude Model Ledger.

Open Scope bookstore_scope.
Open Scope Z_scope.

(** ** The routes *)

(** The pending order that [place_order] creates (lines 220-221). *)
Definition new_order (uid book_id : nat) (qty : Z) : Order.t :=
  Order.mk (Some uid) (Some book_id) qty Pending None "unpaid".

(** [POST /order/<book_id>] *)
Definition place_order (sess : option nat) (book_id : nat) (qty_field : FormInt) : handler nat :=
  user <- login_required sess ;; let '(uid, cu) := user in
  guardS (is_role cu "student") Unauthorized ;;;
  qty <- someS (form_int qty_field 1) ServerError ;;
  book <- get_book_or_404 book_id ;;
  guardS (negb (Book.available_copies book <? qty)) InsufficientInventory ;;;
  save_book book_id (Book.set_available_copies book (Book.available_copies book - qty)) ;;;
  add_order (new_order uid book_id qty).

(** [POST /student/orders/<order_id>/edit] (the GET branch only renders). *)
Definition student_edit_order (sess : option nat) (order_id : nat) (quantity_field : FormInt)
    : handler unit :=
  user <- login_required sess ;; let '(uid, _) := user in
  order <- get_order_or_404 order_id ;;
  guardS (bool_decide (Order.user_id order = Some uid)) Unauthorized ;;;
  guardS (bool_decide (Order.status order = Pending)) InvalidState ;;;
  new_qty <- someS (form_int quantity_field (Order.quantity order)) InvalidQuantity ;;
  ob <- order_book order ;; let '(b, book) := ob in
  let max_allowed := Book.available_copies book + Order.quantity order in
  guardS (negb ((new_qty <? 1) || (max_allowed <? new_qty))) InvalidQuantity ;;;
  save_book b (Book.set_available_copies book (max_allowed - new_qty)) ;;;
  save_order order_id (Order.set_quantity order new_qty).

(** [POST /student/orders/<order_id>/cancel] *)
Definition student_cancel_order (sess : option nat) (order_id : nat) : handler unit :=
  user <- login_required sess ;; let '(uid, _) := user in
  order <- get_order_or_404 order_id ;;
  guardS (bool_decide (Order.user_id order = Some uid)) Unauthorized ;;;
  guardS (bool_decide (Order.status order = Pending)) InvalidState ;;;
  ob <- order_book order ;; let '(b, book) := ob in
  save_book b (return_copies book (Order.quantity order)) ;;;
  save_order order_id (Order.set_status order Canceled).

(** [POST /admin/orders/<order_id>/approve] *)
Definition admin_approve_order (sess : option nat) (order_id : nat) : handler unit :=
  user <- login_required sess ;; let '(_, cu) := user in
  guardS (is_role cu "admin") Unauthorized ;;;
  order <- get_order_or_404 order_id ;;
  save_order order_id (Order.set_status order Approved).

(** [POST /admin/orders/<order_id>/cancel] *)
Definition admin_cancel_order (sess : option nat) (order_id : nat) : handler unit :=
  user <- login_required sess ;; let '(_, cu) := user in
  guardS (is_role cu "admin") Unauthorized ;;;
  order <- get_order_or_404 order_id ;;
  save_order order_id (Order.set_status order Canceled) ;;;
  ob <- order_book order ;; let '(b, book) := ob in
  save_book b (return_copies book (Order.quantity order)).

(** ** place_order *)

Lemma place_order_run sess book_id qty_field s oid s' :
  place_order sess book_id qty_field s = inr (oid, s') ->
  exists uid cu qty book,
    current_user s sess = Some (uid, cu) /\ is_role cu "student" = true /\
    form_int qty_field 1 = Some qty /\
    books s !! book_id = Some book /\ qty <= Book.available_copies book /\
    oid = next_key (orders s) /\
    s' = with_orders
           (with_books s (<[book_id:=Book.set_available_copies book
                                      (Book.available_copies book - qty)]> (books s)))
           (<[oid:=Order.mk (Some uid) (Some book_id) qty Pending None "unpaid"]> (orders s)).
Proof.
  intros H. unfold place_order in H. run_inv.
  do 4 eexists. repeat split; eauto.
Qed.

(** A successful [place_order] keeps the ledger. *)
Lemma place_order_ledger_step sess book_id qty_field s oid s' :
  place_order sess book_id qty_field s = inr (oid, s') ->
  ledger_ok s -> ledger_ok s'.
Proof.
  intros Hrun Hok.
  apply place_order_run in Hrun as (uid & cu & qty & book & _ & _ & _ & Hb & _ & -> & ->).
  apply (ledger_ok_one_book s _ book_id book (Book.available_copies book - qty));
    [done|done|done| |].
  - rw_reserved reserved_add_order s. rewrite order_hold_same by done. simpl; lia.
  - intros b Hne. rw_reserved reserved_add_order s.
    rewrite (order_hold_other _ book_id) by done. lia.
Qed.

(** C1: placing an order keeps the ledger: the copies taken from
    [available_copies] are exactly the quantity of the new pending order,
    whatever the quantity (also zero or negative) and on every branch. *)
Theorem place_order_ledger_ok sess book_id qty_field s :
  ledger_ok s -> ledger_ok (final (place_order sess book_id qty_field) s).
Proof.
  intros Hok. apply (final_inv _ _ ledger_ok); [done|]. intros oid s' Hrun.
  by eapply place_order_ledger_step.
Qed.

Lemma place_order_ledger_ok_witness :
  ledger_ok (final (place_order (Some 2%nat) 1%nat (IntLit 2)) demo_store).
Proof. apply place_order_ledger_ok. decide_by_eval. Defined.

(** C2: for a logged-in student whose quantity parses and whose book
    exists, [place_order] is the spec's [reserve] on the book followed by
    the creation of a pending order under the next row id; when
    [reserve] refuses, the request fails with [InsufficientInventory]
    and nothing is written. *)
Theorem place_order_refines_reserve sess uid cu book_id qty_field qty book s :
  current_user s sess = Some (uid, cu) -> is_role cu "student" = true ->
  form_int qty_field 1 = Some qty -> books s !! book_id = Some book ->
  place_order sess book_id qty_field s =
    match LedgerSpec.reserve book qty with
    | None => inl InsufficientInventory
    | Some book' =>
        inr (next_key (orders s),
             with_orders (with_books s (<[book_id:=book']> (books s)))
               (<[next_key (orders s):=new_order uid book_id qty]> (orders s)))
    end.
Proof.
  intros Hcu Hrole Hq Hb.
  unfold place_order, login_required, get_book_or_404, save_book, add_order.
  unfold_st. rewrite Hcu. cbn. rewrite Hrole, Hq. cbn. rewrite Hb. cbn.
  unfold LedgerSpec.reserve. by destruct (Book.available_copies book <? qty).
Qed.

(** Witness of C2: Alice orders 2 copies of Dune (5 free). *)
Lemma place_order_refines_reserve_witness :
  place_order (Some 2%nat) 1%nat (IntLit 2) demo_store =
    match LedgerSpec.reserve dune 2 with
    | None => inl InsufficientInventory
    | Some book' =>
        inr (next_key (orders demo_store),
             with_orders (with_books demo_store (<[1%nat:=book']> (books demo_store)))
               (<[next_key (orders demo_store):=new_order 2 1 2]> (orders demo_store)))
    end.
Proof. apply (place_order_refines_reserve _ 2%nat alice); reflexivity. Defined.

(** C3: with a non-negative quantity, [place_order] keeps every book's
    [available_copies] between 0 and [total_copies]. *)
Theorem place_order_stock_ok sess book_id qty_field s :
  stock_ok s -> (forall q, form_int qty_field 1 = Some q -> 0 <= q) ->
  stock_ok (final (place_order sess book_id qty_field) s).
Proof.
  intros Hok Hpos. apply (final_inv _ _ stock_ok); [done|]. intros oid s' Hrun.
  apply place_order_run in Hrun as (uid & cu & qty & book & _ & _ & Hq & Hb & Hle & -> & ->).
  eapply (stock_ok_one_book s _ book_id book); [done|reflexivity|].
  specialize (Hok _ _ Hb). specialize (Hpos _ Hq). simpl in *. lia.
Qed.

Lemma place_order_stock_ok_witness :
  stock_ok (final (place_order (Some 2%nat) 1%nat (IntLit 2)) demo_store).
Proof.
  apply place_order_stock_ok; [decide_by_eval|].
  intros q Hq. injection Hq as <-. lia.
Defined.

(** ** Edit and cancel by the student *)

Lemma student_edit_order_run sess order_id quantity_field s u s' :
  student_edit_order sess order_id quantity_field s = inr (u, s') ->
  exists uid order new_qty b book,
    sess = Some uid /\ orders s !! order_id = Some order /\
    Order.user_id order = Some uid /\ Order.status order = Pending /\
    form_int quantity_field (Order.quantity order) = Some new_qty /\
    Order.book_id order = Some b /\ books s !! b = Some book /\
    1 <= new_qty <= Book.available_copies book + Order.quantity order /\
    s' = with_orders
           (with_books s (<[b:=Book.set_available_copies book
                                (Book.available_copies book + Order.quantity order - new_qty)]>
                            (books s)))
           (<[order_id:=Order.set_quantity order new_qty]> (orders s)).
Proof.
  intros H. unfold student_edit_order in H. run_inv.
  do 5 eexists. repeat split; eauto; lia.
Qed.

(** A successful edit keeps the ledger. *)
Lemma student_edit_order_ledger_step sess order_id quantity_field s u s' :
  student_edit_order sess order_id quantity_field s = inr (u, s') ->
  ledger_ok s -> ledger_ok s'.
Proof.
  intros Hrun Hok.
  apply student_edit_order_run in Hrun
    as (uid & order & n & b & book & _ & Ho & _ & Hst & _ & Hob & Hb & _ & ->).
  assert (Hact : active (Order.status order) = true) by (rewrite Hst; done).
  apply (ledger_ok_one_book s _ b book
           (Book.available_copies book + Order.quantity order - n)); [done|done|done| |].
  - rw_reserved reserved_save_order s. rewrite !(order_hold_same b) by done. simpl; lia.
  - intros b' Hne. rw_reserved reserved_save_order s.
    rewrite !(order_hold_other b' b) by done. lia.
Qed.

(** C4: editing a pending order keeps the ledger: the new
    [available_copies] is [max_allowed - new_qty], which moves the book
    by exactly the change of the order's quantity. *)
Theorem student_edit_order_ledger_ok sess order_id quantity_field s :
  ledger_ok s -> ledger_ok (final (student_edit_order sess order_id quantity_field) s).
Proof.
  intros Hok. apply (final_inv _ _ ledger_ok); [done|]. intros u s' Hrun.
  by eapply student_edit_order_ledger_step.
Qed.

Lemma student_edit_order_ledger_ok_witness :
  ledger_ok (final (student_edit_order (Some 2%nat) 1%nat (IntLit 5)) demo_store).
Proof. apply student_edit_order_ledger_ok. decide_by_eval. Defined.

(** C5: the edit bound of spec section 4.3, as the code computes it: for
    the owner of a pending order whose new quantity parses, the edit
    succeeds exactly when [1 <= new_qty <= available_copies + quantity],
    and then sets [available_copies] to [available_copies + quantity -
    new_qty] and the order's quantity to [new_qty]; otherwise it fails
    with [InvalidQuantity] and writes nothing. *)
Theorem student_edit_order_bound sess uid cu order_id quantity_field s order new_qty b book :
  current_user s sess = Some (uid, cu) -> orders s !! order_id = Some order ->
  Order.user_id order = Some uid -> Order.status order = Pending ->
  form_int quantity_field (Order.quantity order) = Some new_qty ->
  Order.book_id order = Some b -> books s !! b = Some book ->
  student_edit_order sess order_id quantity_field s =
    if (1 <=? new_qty) && (new_qty <=? Book.available_copies book + Order.quantity order)
    then inr (tt, with_orders
                    (with_books s (<[b:=Book.set_available_copies book
                         (Book.available_copies book + Order.quantity order - new_qty)]>
                         (books s)))
                    (<[order_id:=Order.set_quantity order new_qty]> (orders s)))
    else inl InvalidQuantity.
Proof.
  intros Hcu Ho Hu Hst Hq Hob Hb.
  unfold student_edit_order, login_required, get_order_or_404, order_book,
    save_book, save_order.
  unfold_st. rewrite Hcu. cbn. rewrite Ho. cbn. rewrite Hu, Hst.
  rewrite !bool_decide_eq_true_2 by done. cbn. rewrite Hq. cbn. rewrite Hob, Hb. cbn.
  destruct (Z.ltb_spec new_qty 1), (Z.leb_spec 1 new_qty),
    (Z.ltb_spec (Book.available_copies book + Order.quantity order) new_qty),
    (Z.leb_spec new_qty (Book.available_copies book + Order.quantity order));
    simpl; done || lia.
Qed.

(** Witness of C5 on the scenario of spec section 8: 2 copies free and a
    pending order of 3, so the pool is 5: editing to 5 succeeds and
    leaves 0 copies, editing to 6 is out of range. *)
Lemma student_edit_order_bound_witness :
  student_edit_order (Some 2%nat) 1%nat (IntLit 5) demo_store =
    inr (tt, with_orders
               (with_books demo_store (<[2%nat:=Book.set_available_copies sicp 0]>
                                         (books demo_store)))
               (<[1%nat:=Order.mk (Some 2%nat) (Some 2%nat) 5 Pending None "unpaid"]>
                  (orders demo_store))) /\
  student_edit_order (Some 2%nat) 1%nat (IntLit 6) demo_store = inl InvalidQuantity.
Proof.
  split.
  - rewrite (student_edit_order_bound _ 2%nat alice _ _ _
               (Order.mk (Some 2%nat) (Some 2%nat) 3 Pending None "unpaid") 5 2%nat sicp);
      reflexivity.
  - rewrite (student_edit_order_bound _ 2%nat alice _ _ _
               (Order.mk (Some 2%nat) (Some 2%nat) 3 Pending None "unpaid") 6 2%nat sicp);
      reflexivity.
Defined.

Lemma student_cancel_order_run sess order_id s u s' :
  student_cancel_order sess order_id s = inr (u, s') ->
  exists uid order b book,
    sess = Some uid /\ orders s !! order_id = Some order /\
    Order.user_id order = Some uid /\ Order.status order = Pending /\
    Order.book_id order = Some b /\ books s !! b = Some book /\
    s' = with_orders
           (with_books s (<[b:=return_copies book (Order.quantity order)]> (books s)))
           (<[order_id:=Order.set_status order Canceled]> (orders s)).
Proof.
  intros H. unfold student_cancel_order in H. run_inv.
  do 4 eexists. repeat split; eauto.
Qed.

Lemma student_cancel_order_ok sess uid cu order_id s order b book :
  current_user s sess = Some (uid, cu) -> orders s !! order_id = Some order ->
  Order.user_id order = Some uid -> Order.status order = Pending ->
  Order.book_id order = Some b -> books s !! b = Some book ->
  student_cancel_order sess order_id s =
    inr (tt, with_orders
               (with_books s (<[b:=return_copies book (Order.quantity order)]> (books s)))
               (<[order_id:=Order.set_status order Canceled]> (orders s))).
Proof.
  intros Hcu Ho Hu Hst Hob Hb.
  unfold student_cancel_order, login_required, get_order_or_404, order_book,
    save_book, save_order.
  unfold_st. rewrite Hcu. cbn. rewrite Ho. cbn. rewrite Hu, Hst.
  rewrite !bool_decide_eq_true_2 by done. cbn. rewrite Hob, Hb. done.
Qed.

(** A pending order whose copies are returned and whose status becomes
    [canceled] leaves the ledger as it was: the shared step of the two
    cancel routes. *)
Lemma ledger_ok_cancel s s' order_id order b book :
  ledger_ok s -> orders s !! order_id = Some order ->
  active (Order.status order) = true ->
  Order.book_id order = Some b -> books s !! b = Some book ->
  books s' = <[b:=return_copies book (Order.quantity order)]> (books s) ->
  carts s' = carts s ->
  orders s' = <[order_id:=Order.set_status order Canceled]> (orders s) ->
  ledger_ok s'.
Proof.
  intros Hok Ho Hact Hob Hb Hbooks Hc Hos.
  apply (ledger_ok_one_book s _ b book _ Hok Hb Hbooks).
  - rewrite (reserved_save_order s s' order_id order (Order.set_status order Canceled)) by done.
    rewrite (order_hold_same b) by done. rewrite order_hold_inactive by done. lia.
  - intros b' Hne.
    rewrite (reserved_save_order s s' order_id order (Order.set_status order Canceled)) by done.
    rewrite (order_hold_other b' b _ order), order_hold_inactive by done. lia.
Qed.

(** A successful student cancel keeps the ledger. *)
Lemma student_cancel_order_ledger_step sess order_id s u s' :
  student_cancel_order sess order_id s = inr (u, s') ->
  ledger_ok s -> ledger_ok s'.
Proof.
  intros Hrun Hok.
  apply student_cancel_order_run in Hrun
    as (uid & order & b & book & _ & Ho & _ & Hst & Hob & Hb & ->).
  apply (ledger_ok_cancel s _ order_id order b book); try done. by rewrite Hst.
Qed.

(** C6: a student's cancel of a pending order keeps the ledger. *)
Theorem student_cancel_order_ledger_ok sess order_id s :
  ledger_ok s -> ledger_ok (final (student_cancel_order sess order_id) s).
Proof.
  intros Hok. apply (final_inv _ _ ledger_ok); [done|]. intros u s' Hrun.
  by eapply student_cancel_order_ledger_step.
Qed.

Lemma student_cancel_order_ledger_ok_witness :
  ledger_ok (final (student_cancel_order (Some 2%nat) 1%nat) demo_store).
Proof. apply student_cancel_order_ledger_ok. decide_by_eval. Defined.

(** Returning the copies of an active order writes what the spec's
    capped [release] writes: the cap is never reached while the ledger
    holds and every claim is positive. *)
Lemma return_copies_is_release s order_id order b book :
  ledger_ok s -> holds_ok s -> orders s !! order_id = Some order ->
  active (Order.status order) = true ->
  Order.book_id order = Some b -> books s !! b = Some book ->
  return_copies book (Order.quantity order) = LedgerSpec.release book (Order.quantity order).
Proof.
  intros Hok Hh Ho Hact Hob Hb.
  pose proof (order_hold_le_reserved s b order_id order Hh Ho) as Hle.
  rewrite (order_hold_same b) in Hle by done. specialize (Hok b book Hb). simpl in Hok.
  unfold return_copies, LedgerSpec.release. f_equal. lia.
Qed.

(** C7: a student's cancel of their own order refines the spec's
    [release] on the order's book as read: a pending order is set to
    [canceled] and its book is written with
    [LedgerSpec.release book quantity] (the cap at [total_copies] is
    never reached under the ledger), and any other status fails with
    [InvalidState], nothing written. *)
Theorem student_cancel_order_refines_release sess uid cu order_id order b book s :
  ledger_ok s -> holds_ok s -> current_user s sess = Some (uid, cu) ->
  orders s !! order_id = Some order -> Order.user_id order = Some uid ->
  Order.book_id order = Some b -> books s !! b = Some book ->
  student_cancel_order sess order_id s =
    if bool_decide (Order.status order = Pending) then
      inr (tt, with_orders
                 (with_books s (<[b:=LedgerSpec.release book (Order.quantity order)]> (books s)))
                 (<[order_id:=Order.set_status order Canceled]> (orders s)))
    else inl InvalidState.
Proof.
  intros Hok Hh Hcu Ho Hu Hob Hb. case_bool_decide as Hst.
  - rewrite (student_cancel_order_ok sess uid cu order_id s order b book) by done.
    rewrite (return_copies_is_release s order_id order b book); [done..|by rewrite Hst|done|done].
  - unfold student_cancel_order, login_required, get_order_or_404. unfold_st.
    rewrite Hcu. cbn. rewrite Ho. cbn. rewrite bool_decide_eq_true_2 by done. cbn.
    by rewrite bool_decide_eq_false_2.
Qed.

(** Witness of C7: Alice cancels her pending order 1 (3 copies of
    SICP). *)
Lemma student_cancel_order_refines_release_witness :
  exists order book,
    orders demo_store !! 1%nat = Some order /\ books demo_store !! 2%nat = Some book /\
    student_cancel_order (Some 2%nat) 1%nat demo_store =
      if bool_decide (Order.status order = Pending) then
        inr (tt, with_orders
                   (with_books demo_store
                      (<[2%nat:=LedgerSpec.release book (Order.quantity order)]>
                         (books demo_store)))
                   (<[1%nat:=Order.set_status order Canceled]> (orders demo_store)))
      else inl InvalidState.
Proof.
  eexists _, _. split; [reflexivity|]. split; [reflexivity|].
  apply (student_cancel_order_refines_release _ 2%nat alice);
    solve [decide_by_eval | reflexivity].
Defined.

(** ** The admin routes *)

Lemma admin_approve_order_run sess order_id s u s' :
  admin_approve_order sess order_id s = inr (u, s') ->
  exists uid cu order,
    current_user s sess = Some (uid, cu) /\ is_role cu "admin" = true /\
    orders s !! order_id = Some order /\
    s' = with_orders s (<[order_id:=Order.set_status order Approved]> (orders s)).
Proof. intros H. unfold admin_approve_order in H. run_inv. eauto 10. Qed.

Lemma admin_cancel_order_run sess order_id s u s' :
  admin_cancel_order sess order_id s = inr (u, s') ->
  exists uid cu order b book,
    current_user s sess = Some (uid, cu) /\ is_role cu "admin" = true /\
    orders s !! order_id = Some order /\
    Order.book_id order = Some b /\ books s !! b = Some book /\
    s' = with_books (with_orders s (<[order_id:=Order.set_status order Canceled]> (orders s)))
           (<[b:=return_copies book (Order.quantity order)]> (books s)).
Proof. intros H. unfold admin_cancel_order in H. run_inv. eauto 15. Qed.

Lemma admin_approve_order_ok sess uid cu order_id s order :
  current_user s sess = Some (uid, cu) -> is_role cu "admin" = true ->
  orders s !! order_id = Some order ->
  admin_approve_order sess order_id s =
    inr (tt, with_orders s (<[order_id:=Order.set_status order Approved]> (orders s))).
Proof.
  intros Hcu Ha Ho. unfold admin_approve_order, login_required, get_order_or_404, save_order.
  unfold_st. rewrite Hcu. cbn. rewrite Ha. cbn. by rewrite Ho.
Qed.

Lemma admin_cancel_order_ok sess uid cu order_id s order b book :
  current_user s sess = Some (uid, cu) -> is_role cu "admin" = true ->
  orders s !! order_id = Some order -> Order.book_id order = Some b -> books s !! b = Some book ->
  admin_cancel_order sess order_id s =
    inr (tt, with_books (with_orders s (<[order_id:=Order.set_status order Canceled]> (orders s)))
               (<[b:=return_copies book (Order.quantity order)]> (books s))).
Proof.
  intros Hcu Ha Ho Hob Hb.
  unfold admin_cancel_order, login_required, get_order_or_404, save_order, order_book, save_book.
  unfold_st. rewrite Hcu. cbn. rewrite Ha. cbn. rewrite Ho. cbn. by rewrite Hob, Hb.
Qed.

Lemma Order_set_status_twice o st st' :
  Order.set_status (Order.set_status o st) st' = Order.set_status o st'.
Proof. by destruct o. Qed.

(** A successful approve of an active order keeps the ledger. *)
Lemma admin_approve_order_ledger_step sess order_id s u s' :
  admin_approve_order sess order_id s = inr (u, s') ->
  ledger_ok s ->
  (forall o, orders s !! order_id = Some o -> active (Order.status o) = true) ->
  ledger_ok s'.
Proof.
  intros Hrun Hok Hact.
  apply admin_approve_order_run in Hrun as (uid & cu & order & _ & _ & Ho & ->).
  apply (ledger_ok_transfer s); [done|]. intros b bk Hb. exists bk.
  split; [done|split; [done|]].
  rewrite (reserved_save_order s _ order_id order (Order.set_status order Approved)) by done.
  unfold order_hold. simpl. rewrite (Hact order Ho). destruct (Order.status order); simpl; lia.
Qed.

(** C8: approving an order keeps the ledger when the order holds its
    copies (pending or approved): approval moves no copies. *)
Theorem admin_approve_order_ledger_ok sess order_id s :
  ledger_ok s ->
  (forall o, orders s !! order_id = Some o -> active (Order.status o) = true) ->
  ledger_ok (final (admin_approve_order sess order_id) s).
Proof.
  intros Hok Hact. apply (final_inv _ _ ledger_ok); [done|]. intros u s' Hrun.
  by eapply admin_approve_order_ledger_step.
Qed.

Lemma admin_approve_order_ledger_ok_witness :
  ledger_ok (final (admin_approve_order (Some 1%nat) 1%nat) demo_store).
Proof.
  apply admin_approve_order_ledger_ok; [decide_by_eval|].
  intros o Ho. vm_compute in Ho. injection Ho as <-. reflexivity.
Defined.

(** A successful admin cancel of an active order keeps the ledger. *)
Lemma admin_cancel_order_ledger_step sess order_id s u s' :
  admin_cancel_order sess order_id s = inr (u, s') ->
  ledger_ok s ->
  (forall o, orders s !! order_id = Some o -> active (Order.status o) = true) ->
  ledger_ok s'.
Proof.
  intros Hrun Hok Hact.
  apply admin_cancel_order_run in Hrun
    as (uid & cu & order & b & book & _ & _ & Ho & Hob & Hb & ->).
  apply (ledger_ok_cancel s _ order_id order b book); eauto.
Qed.

(** C9: an admin's cancel keeps the ledger when the order is still
    active; the copies of the order are returned once. *)
Theorem admin_cancel_order_ledger_ok sess order_id s :
  ledger_ok s ->
  (forall o, orders s !! order_id = Some o -> active (Order.status o) = true) ->
  ledger_ok (final (admin_cancel_order sess order_id) s).
Proof.
  intros Hok Hact. apply (final_inv _ _ ledger_ok); [done|]. intros u s' Hrun.
  by eapply admin_cancel_order_ledger_step.
Qed.

Lemma admin_cancel_order_ledger_ok_witness :
  ledger_ok (final (admin_cancel_order (Some 1%nat) 2%nat) demo_store).
Proof.
  apply admin_cancel_order_ledger_ok; [decide_by_eval|].
  intros o Ho. vm_compute in Ho. injection Ho as <-. reflexivity.
Defined.

(** ** What the routes do without a status or quantity guard *)

(** C10: the admin-cancel scenario of spec section 8, for any order
    of an existing book.  The spec wants a second cancel to fail with
    [InvalidState]; the code (lines 311-323 check no status) accepts it
    and returns the order's copies once more, so the book gains twice
    the quantity.  Starting from an active order under the ledger, the
    first cancel keeps the ledger and the second breaks it whenever
    the quantity is not 0. *)
Theorem admin_cancel_order_twice sess uid cu order_id order b book s :
  current_user s sess = Some (uid, cu) -> is_role cu "admin" = true ->
  orders s !! order_id = Some order -> Order.book_id order = Some b -> books s !! b = Some book ->
  exists s1 s2,
    admin_cancel_order sess order_id s = inr (tt, s1) /\
    admin_cancel_order sess order_id s1 = inr (tt, s2) /\
    orders s2 !! order_id = Some (Order.set_status order Canceled) /\
    books s2 !! b =
      Some (Book.set_available_copies book
              (Book.available_copies book + 2 * Order.quantity order)) /\
    (ledger_ok s -> active (Order.status order) = true ->
       ledger_ok s1 /\ (Order.quantity order <> 0 -> ~ ledger_ok s2)).
Proof.
  intros Hcu Ha Ho Hob Hb.
  set (o1 := Order.set_status order Canceled).
  set (bk1 := return_copies book (Order.quantity order)).
  set (s1 := with_books (with_orders s (<[order_id:=o1]> (orders s))) (<[b:=bk1]> (books s))).
  assert (Ho1 : orders s1 !! order_id = Some o1) by apply lookup_insert_eq.
  assert (Hb1 : books s1 !! b = Some bk1) by apply lookup_insert_eq.
  assert (Hob1 : Order.book_id o1 = Some b) by (subst o1; by destruct order).
  exists s1. eexists. split; [by apply (admin_cancel_order_ok _ uid cu _ _ _ b book)|].
  split; [by apply (admin_cancel_order_ok _ uid cu _ s1 o1 b bk1)|]. simpl.
  rewrite !lookup_insert_eq. subst o1. rewrite Order_set_status_twice.
  split; [done|].
  split; [subst bk1; unfold return_copies, Book.set_available_copies; destruct book; cbn;
    do 2 f_equal; lia|]. intros Hok Hact.
  assert (Hok1 : ledger_ok s1) by (apply (ledger_ok_cancel s _ order_id order b book); done).
  split; [done|]. intros Hq.
  apply (ledger_broken s1 _ b bk1 (return_copies bk1 (Order.quantity order))
           (Order.quantity order));
    [done|done|apply lookup_insert_eq|done| |exact Hq].
  rewrite (reserved_save_order s1 _ order_id (Order.set_status order Canceled)
             (Order.set_status (Order.set_status order Canceled) Canceled)) by done.
  rewrite !order_hold_inactive by done. simpl. lia.
Qed.

(** Witness of C10: the admin cancels the approved order 2 (4 copies
    of TAOCP, 1 free of 10) twice: 9 copies show free. *)
Lemma admin_cancel_order_twice_witness :
  exists s1 s2,
    admin_cancel_order (Some 1%nat) 2%nat demo_store = inr (tt, s1) /\
    admin_cancel_order (Some 1%nat) 2%nat s1 = inr (tt, s2) /\
    fmap Book.available_copies (books s2 !! 3%nat) = Some 9 /\ ledger_ok s1 /\ ~ ledger_ok s2.
Proof.
  destruct (admin_cancel_order_twice (Some 1%nat) 1%nat admin_user 2%nat
              (Order.mk (Some 3%nat) (Some 3%nat) 4 Approved None "unpaid") 3%nat taocp demo_store)
    as (s1 & s2 & H1 & H2 & _ & Hb & Hl); [reflexivity..|].
  destruct Hl as [Hl1 Hl2]; [decide_by_eval|reflexivity|].
  exists s1, s2. split; [done|]. split; [done|]. split; [by rewrite Hb|]. split; [done|].
  apply Hl2. discriminate.
Defined.

(** C20: approving a canceled order (lines 299-309 check no status)
    makes it approved again without taking its copies back: for any
    canceled order, the admin's approve succeeds, writes no book, and
    under the ledger leaves [available + reserved] above
    [total_copies] by the order's quantity. *)
Theorem admin_approve_order_revives_canceled sess uid cu order_id order b book s :
  current_user s sess = Some (uid, cu) -> is_role cu "admin" = true ->
  orders s !! order_id = Some order -> Order.status order = Canceled ->
  Order.book_id order = Some b -> books s !! b = Some book ->
  exists s', admin_approve_order sess order_id s = inr (tt, s') /\
    orders s' !! order_id = Some (Order.set_status order Approved) /\ books s' = books s /\
    (ledger_ok s -> Order.quantity order <> 0 -> ~ ledger_ok s').
Proof.
  intros Hcu Ha Ho Hst Hob Hb. eexists.
  split; [by apply (admin_approve_order_ok _ uid cu)|]. simpl.
  split; [apply lookup_insert_eq|]. split; [done|]. intros Hok Hq.
  eapply (ledger_broken s _ b book book (Order.quantity order)); [done..| |done].
  rewrite (reserved_save_order s _ order_id order (Order.set_status order Approved)) by done.
  rewrite order_hold_inactive by (by rewrite Hst).
  rewrite (order_hold_same b) by (by destruct order). destruct order; simpl; lia.
Qed.

(** Witness of C20: Alice cancels her pending order 1 (3 copies of
    SICP); the admin then approves it. *)
Lemma admin_approve_order_revives_canceled_witness :
  let s1 := final (student_cancel_order (Some 2%nat) 1%nat) demo_store in
  ledger_ok s1 /\
  exists s2, admin_approve_order (Some 1%nat) 1%nat s1 = inr (tt, s2) /\
    fmap Order.status (orders s2 !! 1%nat) = Some Approved /\ ~ ledger_ok s2.
Proof.
  intros s1. assert (Hl : ledger_ok s1) by decide_by_eval. split; [done|].
  destruct (admin_approve_order_revives_canceled (Some 1%nat) 1%nat admin_user 1%nat
              (Order.mk (Some 2%nat) (Some 2%nat) 3 Canceled None "unpaid") 2%nat
              (Book.set_available_copies sicp 5) s1)
    as (s2 & H & Ho & _ & Hb); [vm_compute; reflexivity..|].
  exists s2. split; [done|]. split; [by rewrite Ho|]. apply Hb; [done|discriminate].
Defined.

Lemma place_order_ok sess uid cu book_id qty_field qty book s :
  current_user s sess = Some (uid, cu) -> is_role cu "student" = true ->
  form_int qty_field 1 = Some qty -> books s !! book_id = Some book ->
  qty <= Book.available_copies book ->
  place_order sess book_id qty_field s =
    inr (next_key (orders s),
         with_orders
           (with_books s (<[book_id:=Book.set_available_copies book
                                      (Book.available_copies book - qty)]> (books s)))
           (<[next_key (orders s):=new_order uid book_id qty]> (orders s))).
Proof.
  intros Hcu Hrole Hq Hb Hle.
  unfold place_order, login_required, get_book_or_404, save_book, add_order.
  unfold_st. rewrite Hcu. cbn. rewrite Hrole, Hq. cbn. rewrite Hb. cbn.
  by rewrite (proj2 (Z.ltb_ge _ _) Hle).
Qed.

(** C21: a quantity below 1 is not rejected (lines 214-219 never check
    [qty >= 1]): for any student and any book with copies not below 0,
    ordering [q < 1] copies succeeds, creates a pending order of [q]
    (so the quantities of spec section 3 fail) and adds [-q] copies to
    [available_copies], above [total_copies] when the book had all its
    copies free and [q < 0]. *)
Theorem place_order_negative_quantity sess uid cu book_id q book s :
  current_user s sess = Some (uid, cu) -> is_role cu "student" = true ->
  books s !! book_id = Some book -> 0 <= Book.available_copies book -> q < 1 ->
  exists s', place_order sess book_id (IntLit q) s = inr (next_key (orders s), s') /\
    orders s' !! next_key (orders s) = Some (new_order uid book_id q) /\
    books s' !! book_id =
      Some (Book.set_available_copies book (Book.available_copies book - q)) /\
    ~ holds_ok s' /\
    (Book.available_copies book = Book.total_copies book -> q < 0 -> ~ stock_ok s').
Proof.
  intros Hcu Hrole Hb Hav Hq. eexists.
  split; [apply (place_order_ok _ uid cu _ _ q book); done || lia|]. simpl.
  rewrite !lookup_insert_eq. split; [done|]. split; [done|]. split.
  - intros [_ Ho]. specialize (Ho _ _ (lookup_insert_eq _ _ _)). simpl in Ho. lia.
  - intros Ht Hneg Hs. specialize (Hs _ _ (lookup_insert_eq _ _ _)). simpl in Hs. lia.
Qed.

(** Witness of C21: Alice orders -3 copies of Dune (5 of 5 free): 8
    copies show free. *)
Lemma place_order_negative_quantity_witness :
  exists s', place_order (Some 2%nat) 1%nat (IntLit (-3)) demo_store =
               inr (next_key (orders demo_store), s') /\
    fmap Book.available_copies (books s' !! 1%nat) = Some 8 /\ ~ holds_ok s' /\ ~ stock_ok s'.
Proof.
  destruct (place_order_negative_quantity (Some 2%nat) 2%nat alice 1%nat (-3) dune demo_store)
    as (s' & H & _ & Hb & Hh & Hs); [reflexivity|reflexivity|reflexivity|simpl; lia|lia|].
  exists s'. split; [done|]. split; [by rewrite Hb|]. split; [done|]. by apply Hs.
Defined.

(** ** Place then cancel *)

(** The cancel scenario of spec section 8 in general: when a
    student's order succeeds, the same student canceling it at once
    gives every book back its [available_copies] (the order stays, as
    [canceled]). *)
Lemma place_then_cancel_restores sess book_id qty_field s oid s1 :
  place_order sess book_id qty_field s = inr (oid, s1) ->
  books (final (student_cancel_order sess oid) s1) = books s.
Proof.
  intros Hrun. pose proof Hrun as Hrun'.
  apply place_order_run in Hrun as (uid & cu & qty & book & Hcu & _ & _ & Hb & _ & -> & ->).
  erewrite final_ok.
  2:{ apply (student_cancel_order_ok _ uid cu _ _ (new_order uid book_id qty) book_id
               (Book.set_available_copies book (Book.available_copies book - qty))).
      - unfold current_user in *. destruct sess; [|done]. simpl. by destruct (users s !! n).
      - apply lookup_insert_eq.
      - done. - done. - done.
      - simpl. apply lookup_insert_eq. }
  simpl. rewrite insert_insert_eq, return_copies_set_available.
  replace (Book.available_copies book - qty + qty) with (Book.available_copies book) by lia.
  rewrite Book_set_available_id. by apply insert_id.
Qed.

Lemma place_then_cancel_restores_witness :
  books (final (student_cancel_order (Some 2%nat) (next_key (orders demo_store)))
           (final (place_order (Some 2%nat) 1%nat (IntLit 2)) demo_store)) =
    books demo_store.
Proof.
  apply (place_then_cancel_restores (Some 2%nat) 1%nat (IntLit 2) demo_store).
  vm_compute. reflexivity.
Defined.
