(* ===== verification/Cart.v ===== *)
(** * The cart routes of src/app.py

    [add_to_cart] (lines 462-480), [remove_from_cart] (482-494) and the
    cart listing ([cart], lines 456-460, and the [cart_count] of the
    student dashboard, line 249).  A cart line reserves copies: adding
    takes them from [available_copies], removing gives them back.  The
    line of a (user, book) pair is found with
    [Cart.query.filter_by(user_id=..., book_id=...).first()], a scan in
    row-id order ([min_key_where]). *)

From S2P Require Import Prelude Model Ledger.

Open Scope bookstore_scope.
Open Scope Z_scope.

(** ** Reads *)

(** The test of [filter_by(user_id=uid, book_id=book_id)]. *)
Definition line_of (uid book_id : nat) (_ : nat) (c : Cart.t) : bool :=
  Nat.eqb (Cart.user_id c) uid && Nat.eqb (Cart.book_id c) book_id.

(** [Cart.query.filter_by(user_id=uid, book_id=book_id).first()] *)
Definition first_cart_item (s : Store) (uid book_id : nat) : option (nat * Cart.t) :=
  first_row (line_of uid book_id) (carts s).

(** Rows ordered by their id. *)
Definition row_le : relation (nat * Cart.t) := fun p q => (p.1 <= q.1)%nat.

#[export] Instance row_le_dec : RelDecision row_le.
Proof. intros p q. unfold row_le. apply _. Defined.

(** [Cart.query.filter_by(user_id=uid).all()]: the user's lines in
    row-id order. *)
Definition user_cart_items (s : Store) (uid : nat) : list (nat * Cart.t) :=
  merge_sort row_le
    (map_to_list (filter (fun kv : nat * Cart.t => Cart.user_id kv.2 = uid) (carts s))).

(** [sum(item.quantity for item in current_user.cart_items)] *)
Definition cart_count (s : Store) (uid : nat) : Z :=
  foldr (fun p acc => Cart.quantity p.2 + acc) 0 (user_cart_items s uid).

(** The (user, book) pair a cart line is for. *)
Definition cart_key (c : Cart.t) : nat * nat := (Cart.user_id c, Cart.book_id c).

(** At most one line per (user, book) pair (spec section 3). *)
Definition keys_unique (m : gmap nat Cart.t) : Prop := map_inj cart_key m.

Definition cart_unique (s : Store) : Prop := keys_unique (carts s).

#[export] Instance cart_unique_dec s : Decision (cart_unique s).
Proof. unfold cart_unique, keys_unique. apply _. Defined.

#[export] Instance cart_unique_proper : Proper (same_inventory ==> iff) cart_unique.
Proof. intros s s' (_ & _ & Hc). unfold cart_unique. by rewrite Hc. Qed.

(** ** The routes *)

(** [POST /add_to_cart/<book_id>] *)
Definition add_to_cart (sess : option nat) (book_id : nat) (qty_field : FormInt) : handler unit :=
  user <- login_required sess ;; let '(uid, _) := user in
  qty <- someS (form_int qty_field 1) ServerError ;;
  book <- get_book_or_404 book_id ;;
  guardS (negb (Book.available_copies book <? qty)) InsufficientInventory ;;;
  s <- getS ;;
  match first_cart_item s uid book_id with
  | Some (cid, cart_item) =>
      save_cart cid (Cart.set_quantity cart_item (Cart.quantity cart_item + qty))
  | None => add_cart (Cart.mk uid book_id qty) ;;; retS tt
  end ;;;
  save_book book_id (Book.set_available_copies book (Book.available_copies book - qty)).

(** [POST /cart/remove/<item_id>] *)
Definition remove_from_cart (sess : option nat) (item_id : nat) : handler unit :=
  user <- login_required sess ;; let '(uid, _) := user in
  cart_item <- get_cart_or_404 item_id ;;
  guardS (Nat.eqb (Cart.user_id cart_item) uid) Unauthorized ;;;
  book <- cart_book cart_item ;;
  save_book (Cart.book_id cart_item) (return_copies book (Cart.quantity cart_item)) ;;;
  delete_cart item_id.

(** ** Lemmas on the reads *)

Lemma first_cart_item_Some s uid book_id cid c :
  first_cart_item s uid book_id = Some (cid, c) ->
  carts s !! cid = Some c /\ Cart.user_id c = uid /\ Cart.book_id c = book_id.
Proof.
  intros (Hc & Hp & _)%first_row_Some. unfold line_of in Hp.
  apply andb_true_iff in Hp as [H1 H2]. apply Nat.eqb_eq in H1, H2. auto.
Qed.

Lemma first_cart_item_None s uid book_id :
  first_cart_item s uid book_id = None ->
  forall k c, carts s !! k = Some c -> Cart.user_id c = uid -> Cart.book_id c <> book_id.
Proof.
  intros Hn k c Hc Hu Hb. pose proof (first_row_None _ _ Hn k c Hc) as Hf.
  unfold line_of in Hf. rewrite Hu, Hb, !Nat.eqb_refl in Hf. done.
Qed.

(** ** Inversion of the routes *)

Lemma add_to_cart_run sess book_id qty_field s u s' :
  add_to_cart sess book_id qty_field s = inr (u, s') ->
  exists uid cu qty book,
    current_user s sess = Some (uid, cu) /\ form_int qty_field 1 = Some qty /\
    books s !! book_id = Some book /\ qty <= Book.available_copies book /\
    let books' := <[book_id:=Book.set_available_copies book
                               (Book.available_copies book - qty)]> (books s) in
    match first_cart_item s uid book_id with
    | Some (cid, c) =>
        s' = with_books (with_carts s (<[cid:=Cart.set_quantity c (Cart.quantity c + qty)]>
                                         (carts s))) books'
    | None =>
        s' = with_books (with_carts s (<[next_key (carts s):=Cart.mk uid book_id qty]>
                                         (carts s))) books'
    end.
Proof.
  intros H. unfold add_to_cart in H. run_inv.
  destruct (first_cart_item _ _ _) as [[cid c]|] eqn:Hf; run_inv;
    do 4 eexists; rewrite Hf; repeat split; eauto.
Qed.

Lemma remove_from_cart_run sess item_id s u s' :
  remove_from_cart sess item_id s = inr (u, s') ->
  exists uid c book,
    sess = Some uid /\ carts s !! item_id = Some c /\ Cart.user_id c = uid /\
    books s !! Cart.book_id c = Some book /\
    s' = with_carts
           (with_books s (<[Cart.book_id c:=return_copies book (Cart.quantity c)]> (books s)))
           (delete item_id (carts s)).
Proof.
  intros H. unfold remove_from_cart in H. run_inv.
  apply Nat.eqb_eq in H2. eauto 10.
Qed.

(** ** The ledger *)

(** A successful [add_to_cart] keeps the ledger. *)
Lemma add_to_cart_ledger_step sess book_id qty_field s u s' :
  add_to_cart sess book_id qty_field s = inr (u, s') ->
  ledger_ok s -> ledger_ok s'.
Proof.
  intros Hrun Hok.
  apply add_to_cart_run in Hrun as (uid & cu & qty & book & _ & _ & Hb & _ & Hs').
  cbv zeta in Hs'.
  destruct (first_cart_item s uid book_id) as [[cid c]|] eqn:Hf; subst s';
    [apply first_cart_item_Some in Hf as (Hc & _ & Hcb)|];
    (apply (ledger_ok_one_book s _ book_id book (Book.available_copies book - qty));
       [done|done|done| |]).
  - rw_reserved reserved_save_cart s. rewrite !(cart_hold_same book_id) by done.
    simpl; lia.
  - intros b Hne. rw_reserved reserved_save_cart s.
    rewrite !cart_hold_other by (simpl; congruence). lia.
  - rw_reserved reserved_add_cart s. rewrite (cart_hold_same book_id) by done. simpl; lia.
  - intros b Hne. rw_reserved reserved_add_cart s.
    rewrite cart_hold_other by (simpl; congruence). lia.
Qed.

(** Adding to the cart keeps the ledger: the copies taken from the
    book are the copies added to the (merged or new) cart line. *)
Lemma add_to_cart_ledger_ok sess book_id qty_field s :
  ledger_ok s -> ledger_ok (final (add_to_cart sess book_id qty_field) s).
Proof.
  intros Hok. apply (final_inv _ _ ledger_ok); [done|]. intros u s' Hrun.
  by eapply add_to_cart_ledger_step.
Qed.

Lemma add_to_cart_ledger_ok_witness :
  ledger_ok (final (add_to_cart (Some 2%nat) 4%nat (IntLit 1)) demo_store).
Proof. apply add_to_cart_ledger_ok. decide_by_eval. Defined.

(** A successful [add_to_cart] keeps one line per (user, book). *)
Lemma add_to_cart_unique_step sess book_id qty_field s u s' :
  add_to_cart sess book_id qty_field s = inr (u, s') ->
  cart_unique s -> cart_unique s'.
Proof.
  intros Hrun Hu.
  apply add_to_cart_run in Hrun as (uid & cu & qty & book & _ & _ & _ & _ & Hs').
  cbv zeta in Hs'.
  destruct (first_cart_item s uid book_id) as [[cid c]|] eqn:Hf; subst s';
    unfold cart_unique, keys_unique; simpl; apply map_inj_insert; [done| |done|].
  - apply first_cart_item_Some in Hf as (Hc & _ & _).
    intros j cj Hj Hne Hkey. apply Hne, (Hu j cj Hj cid c Hc). done.
  - intros j cj Hj _ Hkey. injection Hkey as Hju Hjb.
    exact (first_cart_item_None s uid book_id Hf j cj Hj Hju Hjb).
Qed.

(** Adding to the cart keeps one line per (user, book): an existing
    line is merged into, and a new line is made only when the user has
    none for the book. *)
Lemma add_to_cart_unique sess book_id qty_field s :
  cart_unique s -> cart_unique (final (add_to_cart sess book_id qty_field) s).
Proof.
  intros Hu. apply (final_inv _ _ cart_unique); [done|]. intros u s' Hrun.
  by eapply add_to_cart_unique_step.
Qed.

Lemma add_to_cart_unique_witness :
  cart_unique (final (add_to_cart (Some 2%nat) 4%nat (IntLit 1)) demo_store).
Proof. apply add_to_cart_unique. decide_by_eval. Defined.

(** A successful [remove_from_cart] keeps the ledger. *)
Lemma remove_from_cart_ledger_step sess item_id s u s' :
  remove_from_cart sess item_id s = inr (u, s') ->
  ledger_ok s -> ledger_ok s'.
Proof.
  intros Hrun Hok.
  apply remove_from_cart_run in Hrun as (uid & c & book & _ & Hc & _ & Hb & ->).
  apply (ledger_ok_one_book s _ (Cart.book_id c) book
           (Book.available_copies book + Cart.quantity c)); [done|done|done| |].
  - rw_reserved reserved_delete_cart s. rewrite cart_hold_same by done. lia.
  - intros b Hne. rw_reserved reserved_delete_cart s.
    rewrite cart_hold_other by (simpl; congruence). lia.
Qed.

(** ** Add then remove *)

Lemma remove_from_cart_ok sess uid cu item_id s c book :
  current_user s sess = Some (uid, cu) -> carts s !! item_id = Some c ->
  Cart.user_id c = uid -> books s !! Cart.book_id c = Some book ->
  remove_from_cart sess item_id s =
    inr (tt, with_carts
               (with_books s (<[Cart.book_id c:=return_copies book (Cart.quantity c)]> (books s)))
               (delete item_id (carts s))).
Proof.
  intros Hcu Hc Hu Hb.
  unfold remove_from_cart, login_required, get_cart_or_404, cart_book, save_book, delete_cart.
  unfold_st. rewrite Hcu. cbn. rewrite Hc. cbn. rewrite Hu, Nat.eqb_refl. cbn.
  rewrite Hb. done.
Qed.

(** C22: a cart line made by [add_to_cart] and removed at once leaves
    the whole database as it was: the book gets its copies back and the
    new line is deleted. *)
Theorem add_then_remove_restores sess uid book_id qty_field s s1 :
  sess = Some uid -> first_cart_item s uid book_id = None ->
  add_to_cart sess book_id qty_field s = inr (tt, s1) ->
  final (remove_from_cart sess (next_key (carts s))) s1 = s.
Proof.
  intros -> Hnone Hrun.
  apply add_to_cart_run in Hrun as (uid' & cu & qty & book & Hcu & _ & Hb & _ & Hs').
  pose proof Hcu as [[= <-] _]%current_user_Some.
  cbv zeta in Hs'. rewrite Hnone in Hs'. subst s1.
  erewrite final_ok.
  2:{ apply (remove_from_cart_ok _ uid cu _ _ (Cart.mk uid book_id qty)
               (Book.set_available_copies book (Book.available_copies book - qty))); try done.
      - simpl. apply lookup_insert_eq.
      - simpl. apply lookup_insert_eq. }
  simpl. rewrite return_copies_set_available.
  replace (Book.available_copies book - qty + qty) with (Book.available_copies book) by lia.
  rewrite Book_set_available_id, delete_insert_id by apply next_key_fresh.
  destruct s; unfold with_carts, with_books; simpl in *. f_equal.
  rewrite insert_insert_eq. by apply insert_id.
Qed.

Lemma add_then_remove_restores_witness :
  final (remove_from_cart (Some 3%nat) (next_key (carts demo_store)))
    (final (add_to_cart (Some 3%nat) 1%nat (IntLit 2)) demo_store) = demo_store.
Proof.
  apply (add_then_remove_restores _ 3%nat 1%nat (IntLit 2)); [done|vm_compute; done|].
  vm_compute. reflexivity.
Defined.

(** ** What add_to_cart does not check *)

(** C23: [add_to_cart] has no role check and no quantity check (lines
    462-480): the spec wants [Unauthorized] for a non-student and
    [InvalidQuantity] for a quantity below 1, but for any logged-in
    user, whatever their role, and any quantity up to the free copies,
    the request succeeds: it takes the copies from [available_copies]
    and adds the quantity to the user's line for the book, or makes a
    new line; a new line of a quantity below 1 breaks the quantities of
    spec section 3. *)
Theorem add_to_cart_unchecked sess uid cu book_id q book s :
  current_user s sess = Some (uid, cu) -> books s !! book_id = Some book ->
  q <= Book.available_copies book ->
  exists s', add_to_cart sess book_id (IntLit q) s = inr (tt, s') /\
    books s' !! book_id =
      Some (Book.set_available_copies book (Book.available_copies book - q)) /\
    match first_cart_item s uid book_id with
    | Some (cid, c) => carts s' !! cid = Some (Cart.set_quantity c (Cart.quantity c + q))
    | None => carts s' !! next_key (carts s) = Some (Cart.mk uid book_id q) /\
              (q < 1 -> ~ holds_ok s')
    end.
Proof.
  intros Hcu Hb Hle.
  unfold add_to_cart, login_required, get_book_or_404, save_cart, add_cart, save_book.
  unfold_st. rewrite Hcu. cbn. rewrite Hb. cbn. rewrite (proj2 (Z.ltb_ge _ _) Hle). cbn.
  destruct (first_cart_item s uid book_id) as [[cid c]|]; cbn; eexists;
    (split; [reflexivity|]); simpl; rewrite !lookup_insert_eq; (split; [done|]); [done|].
  split; [done|]. intros Hq [Hc _]. specialize (Hc _ _ (lookup_insert_eq _ _ _)). simpl in Hc.
  lia.
Qed.

(** Witness of C23: the admin puts a copy of Dune in a cart, and Alice
    asks for 0 copies of Dune. *)
Lemma add_to_cart_unchecked_witness :
  is_role admin_user "student" = false /\
  (exists s', add_to_cart (Some 1%nat) 1%nat (IntLit 1) demo_store = inr (tt, s')) /\
  (exists s', add_to_cart (Some 2%nat) 1%nat (IntLit 0) demo_store = inr (tt, s') /\
     ~ holds_ok s').
Proof.
  split; [reflexivity|]. split.
  - destruct (add_to_cart_unchecked (Some 1%nat) 1%nat admin_user 1%nat 1 dune demo_store)
      as (s' & H & _); [reflexivity|reflexivity|simpl; lia|]. eauto.
  - destruct (add_to_cart_unchecked (Some 2%nat) 2%nat alice 1%nat 0 dune demo_store)
      as (s' & H & _ & Hc); [reflexivity|reflexivity|simpl; lia|].
    exists s'. split; [done|].
    assert (Hn : first_cart_item demo_store 2 1 = None) by reflexivity.
    rewrite Hn in Hc. apply (proj2 Hc). lia.
Defined.

