(* ===== verification/Checkout.v ===== *)
(** * The checkout route of src/app.py ([cart_checkout], lines 496-511)

    The route reads the user's cart lines ([user_cart_items], row-id
    order), fails with [EmptyCart] when there are none, and otherwise
    runs a loop: for each line it adds a pending order with the line's
    book and quantity and the payment method of the form, then deletes
    the line.  The whole loop is one transaction.  The ledger is not
    written: the copies were reserved when the line was added.  The loop
    is [checkout_lines], structural on the list of lines. *)

From S2P Require Import Prelude Model Ledger Cart.

Open Scope bookstore_scope.
Open Scope Z_scope.

(** [Order(user_id=..., book_id=item.book_id, quantity=item.quantity,
    status='pending', payment_method=payment_method)] *)
Definition checkout_order (uid : nat) (payment_method : string) (c : Cart.t) : Order.t :=
  Order.mk (Some uid) (Some (Cart.book_id c)) (Cart.quantity c) Pending
    (Some payment_method) "unpaid".

(** One iteration: [db.session.add(order); db.session.delete(item)]. *)
Definition checkout_line (uid : nat) (payment_method : string) (item : nat * Cart.t)
    : handler unit :=
  let '(cid, c) := item in
  add_order (checkout_order uid payment_method c) ;;; delete_cart cid.

(** [for item in cart_items: ...] *)
Fixpoint checkout_lines (uid : nat) (payment_method : string) (items : list (nat * Cart.t))
    : handler unit :=
  match items with
  | [] => retS tt
  | item :: rest => checkout_line uid payment_method item ;;; checkout_lines uid payment_method rest
  end.

(** [POST /cart/checkout] *)
Definition cart_checkout (sess : option nat) (payment_method_field : option string)
    : handler unit :=
  user <- login_required sess ;; let '(uid, _) := user in
  s <- getS ;;
  let cart_items := user_cart_items s uid in
  let payment_method := form_str payment_method_field "mock" in
  guardS (negb (bool_decide (cart_items = []))) EmptyCart ;;;
  checkout_lines uid payment_method cart_items.

(** ** The lines the loop runs over *)

Lemma user_cart_items_elem s uid cid c :
  (cid, c) ∈ user_cart_items s uid <-> carts s !! cid = Some c /\ Cart.user_id c = uid.
Proof.
  unfold user_cart_items. rewrite (merge_sort_Permutation _ _).
  rewrite elem_of_map_to_list, map_lookup_filter_Some. done.
Qed.

Lemma user_cart_items_NoDup s uid : NoDup (user_cart_items s uid).*1.
Proof.
  unfold user_cart_items. rewrite (merge_sort_Permutation _ _).
  apply NoDup_fst_map_to_list.
Qed.

(** A cart line and the order made from it hold the same copies. *)
Lemma order_hold_checkout_order b i j uid pm c :
  order_hold b j (checkout_order uid pm c) = cart_hold b i c.
Proof.
  unfold order_hold, cart_hold, checkout_order. simpl. rewrite andb_true_r.
  destruct (Nat.eqb_spec (Cart.book_id c) b) as [->|Hne].
  - by rewrite bool_decide_eq_true_2.
  - rewrite bool_decide_eq_false_2; [done|]. congruence.
Qed.

Lemma checkout_line_ok uid pm cid c s :
  checkout_line uid pm (cid, c) s =
    inr (tt, with_carts
               (with_orders s (<[next_key (orders s):=checkout_order uid pm c]> (orders s)))
               (delete cid (carts s))).
Proof. done. Qed.

(** What the whole loop does, when every line it runs over is in the
    cart and no line comes twice: it succeeds, leaves the books and the
    reserved totals alone, deletes exactly those lines and adds one new
    order per line. *)
Lemma checkout_lines_run uid pm items s :
  NoDup items.*1 ->
  (forall cid c, (cid, c) ∈ items -> carts s !! cid = Some c) ->
  exists s', checkout_lines uid pm items s = inr (tt, s') /\
    books s' = books s /\ users s' = users s /\
    (forall b, reserved s' b = reserved s b) /\
    (forall k, carts s' !! k = if decide (k ∈ items.*1) then None else carts s !! k) /\
    orders s ⊆ orders s' /\
    size (orders s') = (size (orders s) + length items)%nat /\
    (forall cid c, (cid, c) ∈ items ->
       exists k, orders s !! k = None /\ orders s' !! k = Some (checkout_order uid pm c)).
Proof.
  revert s. induction items as [|[cid c] rest IH]; intros s Hnd Hin; simpl.
  - exists s. split; [done|]. do 3 (split; [done|]). split.
    { done. }
    split; [done|]. split; [simpl; lia|]. intros ? ? Hc. set_solver.
  - simpl in Hnd. apply NoDup_cons in Hnd as [Hnotin Hnd].
    assert (Hc : carts s !! cid = Some c) by (apply Hin; set_solver).
    set (k0 := next_key (orders s)).
    set (s1 := with_carts (with_orders s (<[k0:=checkout_order uid pm c]> (orders s)))
                 (delete cid (carts s))).
    destruct (IH s1 Hnd) as (s' & Hrun & Hb & Hu & Hr & Hcarts & Hsub & Hsize & Hord).
    { intros cid' c' Hc'. simpl. rewrite lookup_delete_ne; [apply Hin; set_solver|].
      intros Heq. apply Hnotin, list_elem_of_fmap. exists (cid', c'). by split. }
    assert (Hfresh : orders s !! k0 = None) by apply next_key_fresh.
    exists s'. split; [simpl; by rewrite (bindS_inr _ _ _ tt s1)|].
    split; [done|]. split; [done|]. split.
    { intros b. rewrite Hr.
      set (o := checkout_order uid pm c).
      rewrite (reserved_delete_cart (with_orders s (<[k0:=o]> (orders s))) s1 cid c) by done.
      rewrite (reserved_add_order s (with_orders s (<[k0:=o]> (orders s))) k0 o) by done.
      unfold o. rewrite (order_hold_checkout_order b cid). lia. }
    split.
    { intros k. rewrite Hcarts. simpl.
      destruct (decide (k ∈ rest.*1)) as [H1|H1]; case_decide as H2;
        rewrite ?elem_of_cons in H2; try done.
      - exfalso. apply H2. by right.
      - destruct (decide (k = cid)) as [->|Hne]; [apply lookup_delete_eq|].
        exfalso. destruct H2; done.
      - rewrite lookup_delete_ne; [done|]. intros <-. apply H2. by left. }
    split; [etrans; [apply insert_subseteq, Hfresh|exact Hsub]|].
    split; [rewrite Hsize; simpl; rewrite map_size_insert_None by done; lia|].
    intros cid' c' Hc'. apply elem_of_cons in Hc' as [[= -> ->]|Hc'].
    + exists k0. split; [done|]. eapply lookup_weaken; [|exact Hsub]. apply lookup_insert_eq.
    + destruct (Hord cid' c' Hc') as (k & Hk1 & Hk2). exists k. split; [|done].
      simpl in Hk1. by apply lookup_insert_None in Hk1 as [? _].
Qed.

(** ** The route *)

Lemma cart_checkout_run sess pmf s u s' :
  cart_checkout sess pmf s = inr (u, s') ->
  exists uid cu,
    current_user s sess = Some (uid, cu) /\ user_cart_items s uid <> [] /\
    checkout_lines uid (form_str pmf "mock") (user_cart_items s uid) s = inr (tt, s').
Proof.
  intros H. unfold cart_checkout in H. run_inv.
  apply bool_decide_eq_false in H2. destruct u. eauto 6.
Qed.

(** The loop runs over the user's lines: each is in the cart, once. *)
Lemma checkout_user_lines uid pm s :
  exists s', checkout_lines uid pm (user_cart_items s uid) s = inr (tt, s') /\
    books s' = books s /\ users s' = users s /\
    (forall b, reserved s' b = reserved s b) /\
    (forall k, carts s' !! k =
       if decide (k ∈ (user_cart_items s uid).*1) then None else carts s !! k) /\
    orders s ⊆ orders s' /\
    size (orders s') = (size (orders s) + length (user_cart_items s uid))%nat /\
    (forall cid c, (cid, c) ∈ user_cart_items s uid ->
       exists k, orders s !! k = None /\ orders s' !! k = Some (checkout_order uid pm c)).
Proof.
  apply checkout_lines_run; [apply user_cart_items_NoDup|].
  intros cid c Hin. by apply user_cart_items_elem in Hin as [? _].
Qed.

(** The loop of [cart_checkout] always finishes without an error,
    for any list of lines: every iteration only adds an order and
    deletes a line. *)
Lemma checkout_lines_total uid pm items s :
  exists s', checkout_lines uid pm items s = inr (tt, s').
Proof.
  revert s. induction items as [|[cid c] rest IH]; intros s; [by exists s|].
  simpl. destruct (IH (with_carts
      (with_orders s (<[next_key (orders s):=checkout_order uid pm c]> (orders s)))
      (delete cid (carts s)))) as [s' Hs'].
  exists s'. by rewrite (bindS_inr _ _ _ tt _ (checkout_line_ok uid pm cid c s)).
Qed.

(** A successful checkout keeps the ledger. *)
Lemma cart_checkout_ledger_step sess pmf s u s' :
  cart_checkout sess pmf s = inr (u, s') ->
  ledger_ok s -> ledger_ok s'.
Proof.
  intros Hrun Hok.
  apply cart_checkout_run in Hrun as (uid & cu & _ & _ & Hrun).
  destruct (checkout_user_lines uid (form_str pmf "mock") s)
    as (s'' & Hrun' & Hb & _ & Hr & _). rewrite Hrun in Hrun'. injection Hrun' as <-.
  apply (ledger_ok_transfer s); [done|]. intros b bk Hbk. rewrite Hb in Hbk.
  exists bk. rewrite Hr. auto.
Qed.

(** C24: the checkout of spec section 4.4, on every branch: without a
    session it redirects to the login; with an empty cart it fails with
    [EmptyCart] and writes nothing; otherwise it always succeeds, leaves
    the books as they were, deletes every cart line of the user and no
    other line, and adds exactly one new pending order per deleted line,
    with its book, its quantity and the form's payment method ("mock" by
    default). *)
Theorem cart_checkout_spec sess pmf s :
  match current_user s sess with
  | None => cart_checkout sess pmf s = inl LoginRequired
  | Some (uid, _) =>
      if bool_decide (user_cart_items s uid = []) then cart_checkout sess pmf s = inl EmptyCart
      else exists s', cart_checkout sess pmf s = inr (tt, s') /\
        books s' = books s /\
        (forall k c, carts s' !! k = Some c -> Cart.user_id c <> uid) /\
        (forall k c, carts s !! k = Some c -> Cart.user_id c <> uid -> carts s' !! k = Some c) /\
        size (orders s') = (size (orders s) + length (user_cart_items s uid))%nat /\
        orders s ⊆ orders s' /\
        (forall k c, carts s !! k = Some c -> Cart.user_id c = uid ->
           exists j, orders s !! j = None /\
             orders s' !! j = Some (checkout_order uid (form_str pmf "mock") c))
  end.
Proof.
  unfold cart_checkout, login_required. unfold_st.
  destruct (current_user s sess) as [[uid cu]|]; [cbn|done].
  destruct (bool_decide (user_cart_items s uid = [])); [done|]. cbn.
  destruct (checkout_user_lines uid (form_str pmf "mock") s)
    as (s' & Hrun & Hb & _ & _ & Hc & Hsub & Hsize & Hord).
  exists s'. split; [exact Hrun|]. split; [done|].
  split; [|split; [|split; [done|split; [done|]]]].
  - intros k c Hk Hu. rewrite Hc in Hk. case_decide as Hin; [done|].
    apply Hin, list_elem_of_fmap. exists (k, c). split; [done|].
    by apply user_cart_items_elem.
  - intros k c Hk Hu. rewrite Hc. case_decide as Hin; [|done]. exfalso.
    apply list_elem_of_fmap in Hin as ([k' c'] & -> & Hin).
    apply user_cart_items_elem in Hin as [Hk' Hu']. simpl in Hk. congruence.
  - intros k c Hk Hu. apply (Hord k c). by apply user_cart_items_elem.
Qed.

(** Checking out an empty cart fails with [EmptyCart] and writes
    nothing (lines 501-503). *)
Lemma cart_checkout_empty sess uid cu pmf s :
  current_user s sess = Some (uid, cu) -> user_cart_items s uid = [] ->
  cart_checkout sess pmf s = inl EmptyCart.
Proof.
  intros Hcu Hnil. unfold cart_checkout, login_required. unfold_st.
  rewrite Hcu. cbn. rewrite Hnil. done.
Qed.

