(* ===== verification/Requests.v ===== *)
(** * The book-request workflow of src/app.py

    [request_book] (lines 390-411: a student submits a [RequestBookForm],
    which creates a pending [BookRequest]), [admin_approve_request]
    (422-432) and [admin_reject_request] (434-444), which set the status.
    None of them reads or writes a book, an order or a cart line.  The
    statuses the routes can move a request through are the relation
    [req_step]; the spec (section 4.5) only has pending -> approved and
    pending -> rejected. *)

From S2P Require Import Prelude Model Ledger Forms.

Open Scope bookstore_scope.

(** ** The routes *)

(** The request [request_book] creates (lines 399-405). *)
Definition new_request (uid : nat) (form : RequestBookForm) : BookRequest.t :=
  BookRequest.mk uid (default "" (rq_title form)) (default "" (rq_author form))
    (or_default (rq_genre form) "General") (rq_reason form) ReqPending.

(** [POST /request-book] *)
Definition request_book (sess : option nat) (form : RequestBookForm) : handler nat :=
  user <- login_required sess ;; let '(uid, cu) := user in
  guardS (is_role cu "student") Unauthorized ;;;
  guardS (request_form_valid form) InvalidForm ;;;
  add_request (new_request uid form).

(** [POST /admin/requests/<request_id>/approve] *)
Definition admin_approve_request (sess : option nat) (request_id : nat) : handler unit :=
  user <- login_required sess ;; let '(_, cu) := user in
  guardS (is_role cu "admin") Unauthorized ;;;
  book_request <- get_request_or_404 request_id ;;
  save_request request_id (BookRequest.set_status book_request ReqApproved).

(** [POST /admin/requests/<request_id>/reject] *)
Definition admin_reject_request (sess : option nat) (request_id : nat) : handler unit :=
  user <- login_required sess ;; let '(_, cu) := user in
  guardS (is_role cu "admin") Unauthorized ;;;
  book_request <- get_request_or_404 request_id ;;
  save_request request_id (BookRequest.set_status book_request ReqRejected).

(** ** The request state machine *)

(** The status changes the admin routes make: either route applies to a
    request in any status. *)
Inductive req_step : RequestStatus -> RequestStatus -> Prop :=
  | req_approve st : req_step st ReqApproved
  | req_reject st : req_step st ReqRejected.

(** The transitions of spec section 4.5. *)
Inductive spec_req_step : RequestStatus -> RequestStatus -> Prop :=
  | spec_approve : spec_req_step ReqPending ReqApproved
  | spec_reject : spec_req_step ReqPending ReqRejected.

(** ** Inversion *)

Lemma request_book_run sess form s rid s' :
  request_book sess form s = inr (rid, s') ->
  exists uid cu,
    current_user s sess = Some (uid, cu) /\ is_role cu "student" = true /\
    request_form_valid form = true /\ rid = next_key (requests s) /\
    s' = with_requests s (<[rid:=new_request uid form]> (requests s)).
Proof. intros H. unfold request_book in H. run_inv. eauto 10. Qed.

(** Both admin routes, with the status they write. *)
Lemma admin_request_run sess request_id s u s' st :
  (admin_approve_request sess request_id s = inr (u, s') /\ st = ReqApproved) \/
  (admin_reject_request sess request_id s = inr (u, s') /\ st = ReqRejected) ->
  exists uid cu r,
    current_user s sess = Some (uid, cu) /\ is_role cu "admin" = true /\
    requests s !! request_id = Some r /\
    s' = with_requests s (<[request_id:=BookRequest.set_status r st]> (requests s)).
Proof.
  intros [[H ->]|[H ->]];
    [unfold admin_approve_request in H|unfold admin_reject_request in H]; run_inv; eauto 10.
Qed.

(** ** Theorems *)



(** The request workflow has no inventory effect (spec section
    4.5): none of its three routes changes a book, an order or a cart
    line, so it keeps the ledger whatever it does. *)
Lemma requests_no_inventory sess form request_id s :
  let keeps s' := books s' = books s /\ orders s' = orders s /\ carts s' = carts s in
  keeps (final (request_book sess form) s) /\
  keeps (final (admin_approve_request sess request_id) s) /\
  keeps (final (admin_reject_request sess request_id) s).
Proof.
  intros keeps. split; [|split].
  - apply (final_inv _ _ keeps); [done|]. intros rid s' Hrun.
    apply request_book_run in Hrun as (? & ? & _ & _ & _ & _ & ->). done.
  - apply (final_inv _ _ keeps); [done|]. intros u s' Hrun.
    destruct (admin_request_run sess request_id s u s' ReqApproved (or_introl (conj Hrun eq_refl)))
      as (? & ? & ? & _ & _ & _ & ->). done.
  - apply (final_inv _ _ keeps); [done|]. intros u s' Hrun.
    destruct (admin_request_run sess request_id s u s' ReqRejected (or_intror (conj Hrun eq_refl)))
      as (? & ? & ? & _ & _ & _ & ->). done.
Qed.

Lemma admin_approve_request_ok sess uid cu request_id s r :
  current_user s sess = Some (uid, cu) -> is_role cu "admin" = true ->
  requests s !! request_id = Some r ->
  admin_approve_request sess request_id s =
    inr (tt, with_requests s (<[request_id:=BookRequest.set_status r ReqApproved]> (requests s))).
Proof.
  intros Hcu Hrole Hr. unfold admin_approve_request, login_required, get_request_or_404,
    save_request. unfold_st. rewrite Hcu. cbn. rewrite Hrole. cbn. by rewrite Hr.
Qed.

(** Approving a request is idempotent: a second approve of the
    same request leaves the database as the first left it, on every
    branch (also when the first fails). *)
Lemma admin_approve_request_idempotent sess request_id s :
  final (admin_approve_request sess request_id) (final (admin_approve_request sess request_id) s) =
  final (admin_approve_request sess request_id) s.
Proof.
  destruct (admin_approve_request sess request_id s) as [e|[u s1]] eqn:E.
  - rewrite (final_err _ _ _ E). by rewrite (final_err _ _ _ E).
  - rewrite (final_ok _ _ _ _ E).
    destruct (admin_request_run sess request_id s u s1 ReqApproved (or_introl (conj E eq_refl)))
      as (uid & cu & r & Hcu & Hrole & Hr & ->).
    erewrite final_ok; [|apply (admin_approve_request_ok _ uid cu _ _
                                   (BookRequest.set_status r ReqApproved))].
    + simpl. by rewrite insert_insert_eq.
    + done.
    + done.
    + apply lookup_insert_eq.
Qed.

(** A rejected request can be approved (lines 422-432 check no
    status): the move rejected -> approved is a step of the code and not
    of the spec, whose approve and reject start from pending only. *)
Lemma admin_approve_rejected_request :
  let s1 := final (admin_reject_request (Some 1%nat) 1%nat) demo_store in
  fmap BookRequest.status (requests s1 !! 1%nat) = Some ReqRejected /\
  fmap BookRequest.status
    (requests (final (admin_approve_request (Some 1%nat) 1%nat) s1) !! 1%nat) = Some ReqApproved /\
  req_step ReqRejected ReqApproved /\ ~ spec_req_step ReqRejected ReqApproved.
Proof.
  simpl. split; [reflexivity|]. split; [reflexivity|].
  split; [constructor|inversion 1].
Qed.
