(* ===== verification/Catalog.v ===== *)
(** * Catalog administration and the wishlist (src/app.py)

    [admin_add_book] (lines 184-197), [admin_edit_book] (352-365),
    [admin_delete_book] (367-377) and [toggle_wishlist] (227-239).  The
    book routes write whole [Book] rows from a [BookForm]; deleting a
    book also runs what the ORM does on [db.session.delete(book)] given
    the relationships of src/models.py: the book's orders get
    [book_id = NULL] ([Book.orders], line 52), its wishlist pairs are
    deleted ([secondary=wishlist_table], line 53), and a cart line of the
    book makes the flush set a [nullable=False] column to NULL ([Cart.book]
    backref, lines 77 and 82), an [IntegrityError].  A new book gets the
    next row id, which after a delete can be the id of the deleted book;
    [refs_ok] (every reference names an existing book) is what keeps the
    new book from inheriting the claims of a deleted one. *)

From S2P Require Import Prelude Model Forms Ledger Orders.
From Stdlib Require Import QArith_base.
Close Scope Q_scope.

Open Scope bookstore_scope.
Open Scope Z_scope.

(** ** Referential integrity *)

(** An order's [book_id] is null or names a book. *)
Definition order_ref_ok (bs : gmap nat Book.t) (o : Order.t) : Prop :=
  match Order.book_id o with Some b => is_Some (bs !! b) | None => True end.

#[export] Instance order_ref_ok_dec bs o : Decision (order_ref_ok bs o).
Proof. unfold order_ref_ok. case_match; apply _. Defined.

(** Every cart line and every order names a book of the table. *)
Definition refs_ok (s : Store) : Prop :=
  map_Forall (fun _ c => is_Some (books s !! Cart.book_id c)) (carts s) /\
  map_Forall (fun _ o => order_ref_ok (books s) o) (orders s).

#[export] Instance refs_ok_dec s : Decision (refs_ok s).
Proof. unfold refs_ok. apply _. Defined.

#[export] Instance refs_ok_proper : Proper (same_inventory ==> iff) refs_ok.
Proof. intros s s' (Hb & Ho & Hc). unfold refs_ok. by rewrite Hb, Ho, Hc. Qed.

(** ** Adding a book *)

(** Python's [x or d] on an integer: [0] is false. *)
Definition int_or (z d : Z) : Z := if Z.eqb z 0 then d else z.

(** The row [admin_add_book] creates (line 191): [genre or 'General'],
    [price.data or 0.0] (the falsy [0.0] gives [0.0] back),
    [total_copies = available_copies = total_copies.data or 1]. *)
Definition new_book (form : BookForm) : Book.t :=
  let copies := int_or (default 1 (book_form_total form)) 1 in
  Book.mk (default "" (bf_title form)) (default "" (bf_author form))
    (or_default (bf_genre form) "General") (bf_isbn form) (default 0%Q (book_form_price form))
    copies copies.

(** [POST /admin/books/new] *)
Definition admin_add_book (sess : option nat) (form : BookForm) : handler nat :=
  user <- login_required sess ;; let '(_, cu) := user in
  guardS (is_role cu "admin") Unauthorized ;;;
  guardS (book_form_valid form) InvalidForm ;;;
  add_book (new_book form).

(** ** Editing a book *)

(** [BookForm(obj=book)] on a POST: a field the request does not carry
    keeps the value read from the book (WTForms' [process] with both
    [formdata] and [obj]). *)
Definition prefill_book_form (form : BookForm) (book : Book.t) : BookForm :=
  mkBookForm (bf_csrf_ok form)
    (Some (default (Book.title book) (bf_title form)))
    (Some (default (Book.author book) (bf_author form)))
    (Some (default (Book.genre book) (bf_genre form)))
    (match bf_isbn form with Some v => Some v | None => Book.isbn book end)
    (match bf_price form with FAbsent => FloatLit (Book.price book) | v => v end)
    (match bf_total_copies form with Absent => IntLit (Book.total_copies book) | v => v end).

(** [form.populate_obj(book)]: each field is written to the column of
    its name; [available_copies] is not a field of the form and keeps
    its value. *)
Definition populate_book (form : BookForm) (book : Book.t) : Book.t :=
  Book.mk (default (Book.title book) (bf_title form)) (default (Book.author book) (bf_author form))
    (default (Book.genre book) (bf_genre form)) (bf_isbn form)
    (default (Book.price book) (book_form_price form))
    (default (Book.total_copies book) (book_form_total form)) (Book.available_copies book).

(** [POST /admin/books/<book_id>/edit] *)
Definition admin_edit_book (sess : option nat) (book_id : nat) (form : BookForm) : handler unit :=
  user <- login_required sess ;; let '(_, cu) := user in
  guardS (is_role cu "admin") Unauthorized ;;;
  book <- get_book_or_404 book_id ;;
  let form' := prefill_book_form form book in
  guardS (book_form_valid form') InvalidForm ;;;
  save_book book_id (populate_book form' book).

(** ** Deleting a book *)

(** What the flush writes into an order of the deleted book [i]. *)
Definition unlink_book (i : nat) (o : Order.t) : Order.t :=
  if bool_decide (Order.book_id o = Some i) then Order.set_book_id o None else o.

(** [db.session.delete(book); db.session.commit()] with the relationships
    of models.py: a cart line of the book fails the flush; otherwise the
    book's orders are unlinked and its wishlist pairs deleted. *)
Definition delete_book (i : nat) : handler unit :=
  s <- getS ;;
  guardS (bool_decide (map_Forall (fun _ c => Cart.book_id c <> i) (carts s))) ServerError ;;;
  putS (mkStore (users s) (delete i (books s)) (unlink_book i <$> orders s) (carts s)
          (requests s) (filter (fun p : nat * nat => p.2 <> i) (wishlist s)) (uploads s)).

(** [POST /admin/books/<book_id>/delete] *)
Definition admin_delete_book (sess : option nat) (book_id : nat) : handler unit :=
  user <- login_required sess ;; let '(_, cu) := user in
  guardS (is_role cu "admin") Unauthorized ;;;
  book <- get_book_or_404 book_id ;;
  delete_book book_id.

(** ** The wishlist *)

(** [POST /wishlist/toggle/<book_id>]: [current_user.wishlist.remove(book)]
    when the pair is there, [.append(book)] otherwise. *)
Definition toggle_wishlist (sess : option nat) (book_id : nat) : handler unit :=
  user <- login_required sess ;; let '(uid, _) := user in
  book <- get_book_or_404 book_id ;;
  s <- getS ;;
  if bool_decide ((uid, book_id) ∈ wishlist s)
  then putS (with_wishlist s (wishlist s ∖ {[(uid, book_id)]}))
  else putS (with_wishlist s (wishlist s ∪ {[(uid, book_id)]})).

(** ** Lemmas *)

(** A book id that no row of the table has holds no claim. *)
Lemma reserved_unused s b : refs_ok s -> books s !! b = None -> reserved s b = 0.
Proof.
  intros [Hc Ho] Hb. unfold reserved, cart_reserved, order_reserved.
  rewrite (map_sum_zero (cart_hold b)), (map_sum_zero (order_hold b)); [done| |].
  - intros k o Hk. specialize (Ho k o Hk). simpl in Ho. unfold order_hold, order_ref_ok in *.
    destruct (Order.book_id o) as [b'|]; [|done].
    rewrite bool_decide_eq_false_2; [done|]. intros [= ->]. rewrite Hb in Ho. by destruct Ho.
  - intros k c Hk. specialize (Hc k c Hk). simpl in Hc. apply cart_hold_other.
    intros Heq. rewrite Heq, Hb in Hc. by destruct Hc.
Qed.

Lemma order_hold_unlink b i k o : b <> i -> order_hold b k (unlink_book i o) = order_hold b k o.
Proof.
  intros Hne. unfold unlink_book. case_bool_decide as H; [|done].
  unfold order_hold. simpl. rewrite H. by repeat case_bool_decide; simplify_eq.
Qed.

(** Unlinking the orders of book [i] keeps the claims on every other book. *)
Lemma reserved_unlink s s' i b :
  carts s' = carts s -> orders s' = unlink_book i <$> orders s -> b <> i ->
  reserved s' b = reserved s b.
Proof.
  intros Hc Ho Hne. unfold reserved, cart_reserved, order_reserved.
  rewrite Hc, Ho, map_sum_fmap. f_equal. apply map_sum_ext. intros k o _.
  by apply order_hold_unlink.
Qed.

Lemma admin_add_book_run sess form s bid s' :
  admin_add_book sess form s = inr (bid, s') ->
  exists uid cu,
    current_user s sess = Some (uid, cu) /\ is_role cu "admin" = true /\
    book_form_valid form = true /\ bid = next_key (books s) /\
    s' = with_books s (<[bid:=new_book form]> (books s)).
Proof. intros H. unfold admin_add_book in H. run_inv. eauto 10. Qed.

Lemma admin_edit_book_run sess book_id form s u s' :
  admin_edit_book sess book_id form s = inr (u, s') ->
  exists uid cu book,
    current_user s sess = Some (uid, cu) /\ is_role cu "admin" = true /\
    books s !! book_id = Some book /\ book_form_valid (prefill_book_form form book) = true /\
    s' = with_books s (<[book_id:=populate_book (prefill_book_form form book) book]> (books s)).
Proof. intros H. unfold admin_edit_book in H. run_inv. eauto 10. Qed.

Lemma admin_delete_book_run sess book_id s u s' :
  admin_delete_book sess book_id s = inr (u, s') ->
  exists uid cu book,
    current_user s sess = Some (uid, cu) /\ is_role cu "admin" = true /\
    books s !! book_id = Some book /\
    map_Forall (fun _ c => Cart.book_id c <> book_id) (carts s) /\
    s' = mkStore (users s) (delete book_id (books s)) (unlink_book book_id <$> orders s)
           (carts s) (requests s) (filter (fun p : nat * nat => p.2 <> book_id) (wishlist s))
           (uploads s).
Proof.
  intros H. unfold admin_delete_book, delete_book in H. run_inv.
  unfold putS in H. injection H as <- <-. eauto 10.
Qed.

Lemma toggle_wishlist_ok sess book_id s uid cu book :
  current_user s sess = Some (uid, cu) -> books s !! book_id = Some book ->
  toggle_wishlist sess book_id s =
    inr (tt, with_wishlist s (if bool_decide ((uid, book_id) ∈ wishlist s)
                              then wishlist s ∖ {[(uid, book_id)]}
                              else wishlist s ∪ {[(uid, book_id)]})).
Proof.
  intros Hcu Hb. unfold toggle_wishlist, login_required, get_book_or_404.
  unfold_st. rewrite Hcu. cbn. rewrite Hb. cbn. by case_bool_decide.
Qed.

Lemma toggle_wishlist_run sess book_id s u s' :
  toggle_wishlist sess book_id s = inr (u, s') ->
  exists uid cu book, current_user s sess = Some (uid, cu) /\ books s !! book_id = Some book.
Proof. intros H. unfold toggle_wishlist in H. run_inv. eauto. Qed.

(** Removing the pair and adding it back, or adding it and removing it,
    gives the set back. *)
Lemma toggle_pair_involutive (w w' : gset (nat * nat)) x :
  w' = (if bool_decide (x ∈ w) then w ∖ {[x]} else w ∪ {[x]}) ->
  (if bool_decide (x ∈ w') then w' ∖ {[x]} else w' ∪ {[x]}) = w.
Proof.
  intros ->. destruct (decide (x ∈ w)) as [Hx|Hx].
  - rewrite (bool_decide_eq_true_2 (x ∈ w)) by done. rewrite bool_decide_eq_false_2 by set_solver.
    apply set_eq. intros y. rewrite elem_of_union, elem_of_difference, elem_of_singleton.
    destruct (decide (y = x)) as [->|]; naive_solver.
  - rewrite (bool_decide_eq_false_2 (x ∈ w)) by done. rewrite bool_decide_eq_true_2 by set_solver.
    set_solver.
Qed.

(** ** Theorems *)

(** For a logged-in admin, [admin_add_book] adds the book the form
    describes under the next row id exactly when the form validates, with
    [available_copies = total_copies = total or 1] and the genre
    "General" when it is left empty; otherwise nothing is written. *)
Lemma admin_add_book_spec sess uid cu form s :
  current_user s sess = Some (uid, cu) -> is_role cu "admin" = true ->
  admin_add_book sess form s =
    if book_form_valid form
    then inr (next_key (books s), with_books s (<[next_key (books s):=new_book form]> (books s)))
    else inl InvalidForm.
Proof.
  intros Hcu Hrole. unfold admin_add_book, login_required, add_book.
  unfold_st. rewrite Hcu. cbn. rewrite Hrole. cbn. by destruct (book_form_valid form).
Qed.

(** A successful book add keeps the ledger under [refs_ok]. *)
Lemma admin_add_book_ledger_step sess form s bid s' :
  admin_add_book sess form s = inr (bid, s') ->
  ledger_ok s -> refs_ok s -> ledger_ok s'.
Proof.
  intros Hrun Hok Hr.
  apply admin_add_book_run in Hrun as (uid & cu & _ & _ & _ & -> & ->).
  intros b bk Hb. rewrite reserved_with_books. simpl in Hb.
  destruct (decide (b = next_key (books s))) as [->|Hne].
  - rewrite lookup_insert_eq in Hb. injection Hb as <-.
    rewrite reserved_unused by auto with bookstore. simpl. lia.
  - rewrite lookup_insert_ne in Hb by congruence. exact (Hok b bk Hb).
Qed.

(** Adding a book keeps the ledger when every cart line and order
    names an existing book: the new row id holds no claim, and the new
    book starts with all its copies available. *)
Lemma admin_add_book_ledger_ok sess form s :
  ledger_ok s -> refs_ok s -> ledger_ok (final (admin_add_book sess form) s).
Proof.
  intros Hok Hr. apply (final_inv _ _ ledger_ok); [done|]. intros bid s' Hrun.
  by eapply admin_add_book_ledger_step.
Qed.

(** [total_copies] is an [IntegerField] without a range check, so
    an admin can add a book with a negative number of copies: the ledger
    holds but [0 <= available_copies] (spec section 3) does not. *)
Lemma admin_add_book_negative_total :
  let f := mkBookForm true (Some "SICM") (Some "Sussman") None None FAbsent (IntLit (-3)) in
  stock_ok demo_store /\ ledger_ok (final (admin_add_book (Some 1%nat) f) demo_store) /\
  ~ stock_ok (final (admin_add_book (Some 1%nat) f) demo_store).
Proof. intros f. split; [decide_by_eval|]. split; decide_by_eval. Qed.

(** A book edit that keeps the total keeps the ledger. *)
Lemma admin_edit_book_ledger_step sess book_id form s u s' :
  admin_edit_book sess book_id form s = inr (u, s') -> ledger_ok s ->
  (forall book, books s !! book_id = Some book ->
     Book.total_copies (populate_book (prefill_book_form form book) book) =
     Book.total_copies book) ->
  ledger_ok s'.
Proof.
  intros Hrun Hok Ht.
  apply admin_edit_book_run in Hrun as (uid & cu & book & _ & _ & Hb & _ & ->).
  apply (ledger_ok_transfer s); [done|]. intros b bk Hbk. simpl in Hbk.
  rewrite reserved_with_books. destruct (decide (b = book_id)) as [->|Hne].
  - rewrite lookup_insert_eq in Hbk. injection Hbk as <-. exists book.
    split; [done|]. split; [by apply Ht|done].
  - rewrite lookup_insert_ne in Hbk by congruence. eauto.
Qed.

(** C26: editing a book writes the form's [total_copies] and keeps
    [available_copies], so after a successful edit the ledger holds
    exactly when the total is unchanged: any other total breaks
    [available + reserved = total] for that book (spec section 3 makes
    it hold after every operation). *)
Theorem admin_edit_book_ledger_iff sess book_id form s s' book :
  ledger_ok s -> books s !! book_id = Some book ->
  admin_edit_book sess book_id form s = inr (tt, s') ->
  ledger_ok s' <->
  Book.total_copies (populate_book (prefill_book_form form book) book) = Book.total_copies book.
Proof.
  intros Hok Hb Hrun. pose proof Hrun as Hrun0.
  apply admin_edit_book_run in Hrun as (uid & cu & book' & _ & _ & Hb' & _ & ->).
  rewrite Hb in Hb'. injection Hb' as <-.
  pose proof (Hok book_id book Hb) as Hbk. simpl in Hbk.
  split.
  - intros Hok'. specialize (Hok' book_id _ (lookup_insert_eq _ _ _)).
    cbv beta in Hok'. rewrite reserved_with_books in Hok'. simpl in Hok' |- *. lia.
  - intros Ht. apply (admin_edit_book_ledger_step _ _ _ _ _ _ Hrun0 Hok).
    intros bk Hbk'. rewrite Hb in Hbk'. by injection Hbk' as <-.
Qed.

(** Witness of C26: retitling SICP keeps the ledger; raising its total
    from 5 to 7 breaks it. *)
Lemma admin_edit_book_ledger_iff_witness :
  let f5 := mkBookForm true (Some "SICP 2e") None None None FAbsent Absent in
  let f7 := mkBookForm true None None None None FAbsent (IntLit 7) in
  ledger_ok (final (admin_edit_book (Some 1%nat) 2%nat f5) demo_store) /\
  ~ ledger_ok (final (admin_edit_book (Some 1%nat) 2%nat f7) demo_store).
Proof.
  intros f5 f7. assert (Hok : ledger_ok demo_store) by decide_by_eval. split.
  - apply (admin_edit_book_ledger_iff (Some 1%nat) 2%nat f5 demo_store _ sicp Hok);
      reflexivity.
  - rewrite (admin_edit_book_ledger_iff (Some 1%nat) 2%nat f7 demo_store _ sicp Hok);
      [simpl; lia|reflexivity|reflexivity].
Defined.

(** A successful book delete keeps the ledger. *)
Lemma admin_delete_book_ledger_step sess book_id s u s' :
  admin_delete_book sess book_id s = inr (u, s') ->
  ledger_ok s -> ledger_ok s'.
Proof.
  intros Hrun Hok.
  apply admin_delete_book_run in Hrun as (? & ? & ? & _ & _ & _ & _ & ->).
  intros b bk Hb. simpl in Hb. apply lookup_delete_Some in Hb as [Hne Hb].
  rewrite (reserved_unlink s _ book_id b); [exact (Hok b bk Hb)|done|done|congruence].
Qed.

(** A successful book delete keeps [refs_ok]. *)
Lemma admin_delete_book_refs_step sess book_id s u s' :
  admin_delete_book sess book_id s = inr (u, s') ->
  refs_ok s -> refs_ok s'.
Proof.
  intros Hrun Hr.
  apply admin_delete_book_run in Hrun as (? & ? & ? & _ & _ & _ & Hcarts & ->).
  destruct Hr as [Hc Ho]. split; simpl.
  - intros k c Hk. rewrite lookup_delete_ne by exact (not_eq_sym (Hcarts k c Hk)).
    exact (Hc k c Hk).
  - intros k o' Hk. rewrite lookup_fmap in Hk.
    destruct (orders s !! k) as [o|] eqn:Hk'; simplify_eq/=.
    specialize (Ho k o Hk'). unfold unlink_book, order_ref_ok in *.
    case_bool_decide as E; [done|].
    destruct (Order.book_id o) as [b|]; [|done].
    rewrite lookup_delete_ne; [done|congruence].
Qed.

(** An order whose book was unlinked can be canceled by no route: both
    cancels need [order.book]. *)
Lemma cancel_unlinked_fails s i o :
  orders s !! i = Some o -> Order.book_id o = None ->
  (forall sess r, student_cancel_order sess i s <> inr r) /\
  (forall sess r, admin_cancel_order sess i s <> inr r).
Proof.
  intros Ho Hb. split; intros sess [u s'] Hrun.
  - apply student_cancel_order_run in Hrun as (? & ? & ? & ? & _ & Ho' & _ & _ & Hb' & _).
    congruence.
  - apply admin_cancel_order_run in Hrun as (? & ? & ? & ? & ? & _ & _ & Ho' & Hb' & _).
    congruence.
Qed.

(** C27: deleting a book that is in a cart fails with a server error
    (the flush nulls [cart.book_id], declared [nullable=False]);
    otherwise the book is deleted and each of its orders stays, with
    its status, but with no book: an active order's copies are no
    longer claimed by anything, and neither cancel route can ever
    succeed on it ([order.book] is [None]). *)
Theorem admin_delete_book_orphans sess uid cu book_id book s :
  current_user s sess = Some (uid, cu) -> is_role cu "admin" = true ->
  books s !! book_id = Some book ->
  ((exists k c, carts s !! k = Some c /\ Cart.book_id c = book_id) ->
     admin_delete_book sess book_id s = inl ServerError) /\
  (map_Forall (fun _ c => Cart.book_id c <> book_id) (carts s) ->
     exists s', admin_delete_book sess book_id s = inr (tt, s') /\ books s' !! book_id = None /\
       forall i o, orders s !! i = Some o -> Order.book_id o = Some book_id ->
         orders s' !! i = Some (Order.set_book_id o None) /\
         (forall sess' r, student_cancel_order sess' i s' <> inr r) /\
         (forall sess' r, admin_cancel_order sess' i s' <> inr r)).
Proof.
  intros Hcu Ha Hb.
  assert (Hrun : admin_delete_book sess book_id s =
            if bool_decide (map_Forall (fun _ c => Cart.book_id c <> book_id) (carts s))
            then inr (tt, mkStore (users s) (delete book_id (books s))
                            (unlink_book book_id <$> orders s) (carts s) (requests s)
                            (filter (fun p : nat * nat => p.2 <> book_id) (wishlist s))
                            (uploads s))
            else inl ServerError).
  { unfold admin_delete_book, delete_book, login_required, get_book_or_404. unfold_st.
    rewrite Hcu. cbn. rewrite Ha. cbn. rewrite Hb. cbn. by case_bool_decide. }
  rewrite Hrun. split.
  - intros (k & c & Hk & Hc). rewrite bool_decide_eq_false_2; [done|].
    intros Hall. exact (Hall k c Hk Hc).
  - intros Hall. rewrite bool_decide_eq_true_2 by done. eexists. split; [done|].
    split; [apply lookup_delete_eq|]. intros i o Ho Hob.
    assert (Ho' : orders (mkStore (users s) (delete book_id (books s))
                    (unlink_book book_id <$> orders s) (carts s) (requests s)
                    (filter (fun p : nat * nat => p.2 <> book_id) (wishlist s)) (uploads s))
                  !! i = Some (Order.set_book_id o None)).
    { simpl. rewrite lookup_fmap, Ho. simpl. unfold unlink_book. by rewrite bool_decide_eq_true_2. }
    split; [exact Ho'|]. apply (cancel_unlinked_fails _ _ _ Ho'). by destruct o.
Qed.

(** Witness of C27: the admin deletes K&R (in Alice's cart) and SICP
    (Alice's pending order 1). *)
Lemma admin_delete_book_orphans_witness :
  admin_delete_book (Some 1%nat) 4%nat demo_store = inl ServerError /\
  exists s', admin_delete_book (Some 1%nat) 2%nat demo_store = inr (tt, s') /\
    fmap Order.status (orders s' !! 1%nat) = Some Pending /\
    forall r, student_cancel_order (Some 2%nat) 1%nat s' <> inr r.
Proof.
  destruct (admin_delete_book_orphans (Some 1%nat) 1%nat admin_user 4%nat kr demo_store)
    as [Hcart _]; [reflexivity..|].
  split; [apply Hcart; exists 1%nat; eexists; split; reflexivity|].
  destruct (admin_delete_book_orphans (Some 1%nat) 1%nat admin_user 2%nat sicp demo_store)
    as [_ Hdel]; [reflexivity..|].
  destruct Hdel as (s' & H & _ & Hos); [decide_by_eval|].
  destruct (Hos 1%nat (Order.mk (Some 2%nat) (Some 2%nat) 3 Pending None "unpaid"))
    as (Ho & Hst & _); [reflexivity|reflexivity|].
  exists s'. split; [done|]. split; [by rewrite Ho|]. apply Hst.
Defined.


(** Toggling the same book twice gives the database back, on every
    branch: the second toggle removes the pair the first added, or adds
    back the pair the first removed, and when the first fails so does
    the second. *)
Lemma toggle_wishlist_involutive sess book_id s :
  final (toggle_wishlist sess book_id) (final (toggle_wishlist sess book_id) s) = s.
Proof.
  destruct (toggle_wishlist sess book_id s) as [e|[u s1]] eqn:E.
  - by rewrite !(final_err _ _ _ E).
  - rewrite (final_ok _ _ _ _ E).
    destruct (toggle_wishlist_run _ _ _ _ _ E) as (uid & cu & book & Hcu & Hb).
    rewrite (toggle_wishlist_ok _ _ _ uid cu book Hcu Hb) in E. injection E as <- <-.
    erewrite final_ok; [|apply (toggle_wishlist_ok _ _ _ uid cu book); [exact Hcu|exact Hb]].
    simpl. rewrite (toggle_pair_involutive (wishlist s) _ (uid, book_id) eq_refl). by destruct s.
Qed.
