(* ===== verification/Search.v ===== *)
(** * The catalog search and the upload filter (src/app.py)

    [catalog] (lines 199-207) filters the books with
    [Book.title.ilike(f"%{q}%") | Book.author.ilike(...) |
    Book.genre.ilike(...)].  On SQLite, SQLAlchemy compiles [ilike] to
    [lower(x) LIKE lower(pattern)], and [q] goes into the pattern as
    typed: its [%] and [_] are wildcards too.  [like_match] is SQLite's
    LIKE on ASCII text (no escape character is declared); the reference
    it is compared with is Python's substring test [q in s] on lowered
    text ([contains]).  [allowed_file] (lines 42-43) checks the extension
    of an uploaded picture's file name. *)

From Stdlib Require Import Ascii.
From S2P Require Import Prelude Model Forms.

Open Scope bookstore_scope.

(** ** LIKE patterns *)

(** [f s'] for some suffix [s'] of [s] (the empty suffix included). *)
Fixpoint any_suffix (f : string -> bool) (s : string) : bool :=
  f s || match s with EmptyString => false | String _ rest => any_suffix f rest end.

(** [lower(s) LIKE lower(p)]: [%] matches any run of characters, [_]
    any one character, any other character itself up to ASCII case. *)
Fixpoint like_match (p s : string) : bool :=
  match p with
  | EmptyString => match s with EmptyString => true | String _ _ => false end
  | String c p' =>
      if Ascii.eqb c "%"%char then any_suffix (like_match p') s
      else match s with
           | EmptyString => false
           | String d s' =>
               (Ascii.eqb c "_"%char || Ascii.eqb (lower_char c) (lower_char d)) && like_match p' s'
           end
  end.

(** [f"%{q}%"] *)
Definition contains_pattern (q : string) : string := String "%" (q ++ "%").

(** Python's [q in s]. *)
Definition contains (q s : string) : bool := any_suffix (String.prefix q) s.

(** [q] has no LIKE wildcard. *)
Fixpoint wildcard_free (q : string) : bool :=
  match q with
  | EmptyString => true
  | String c rest =>
      negb (Ascii.eqb c "%"%char) && negb (Ascii.eqb c "_"%char) && wildcard_free rest
  end.

(** ** The catalog *)

Definition book_matches (q : string) (b : Book.t) : bool :=
  let pat := contains_pattern q in
  like_match pat (Book.title b) || like_match pat (Book.author b) || like_match pat (Book.genre b).

(** [GET /catalog?q=...]: the books shown ([.all()] has no [ORDER BY],
    so the result is a set of rows). *)
Definition catalog (sess : option nat) (q_arg : option string) : handler (gmap nat Book.t) :=
  user <- login_required sess ;;
  s <- getS ;;
  let q := form_str q_arg "" in
  if String.eqb q "" then retS (books s)
  else retS (filter (fun kv : nat * Book.t => book_matches q kv.2 = true) (books s)).

(** ** Uploads *)

Definition ALLOWED_EXTENSIONS : list string := ["png"; "jpg"; "jpeg"; "gif"].

(** [filename.rsplit('.', 1)] when ['.' in filename]: the text before
    and after the last dot. *)
Fixpoint rsplit_dot (s : string) : option (string * string) :=
  match s with
  | EmptyString => None
  | String c rest =>
      match rsplit_dot rest with
      | Some (b, e) => Some (String c b, e)
      | None => if Ascii.eqb c "."%char then Some (EmptyString, rest) else None
      end
  end.

(** [allowed_file(filename)] *)
Definition allowed_file (filename : string) : bool :=
  match rsplit_dot filename with
  | Some (_, ext) => bool_decide (py_lower ext ∈ ALLOWED_EXTENSIONS)
  | None => false
  end.

Fixpoint has_dot (s : string) : bool :=
  match s with
  | EmptyString => false
  | String c rest => Ascii.eqb c "."%char || has_dot rest
  end.

(** Book fields that contain [q], ignoring ASCII case. *)
Definition book_contains (q : string) (b : Book.t) : bool :=
  contains (py_lower q) (py_lower (Book.title b)) ||
  contains (py_lower q) (py_lower (Book.author b)) ||
  contains (py_lower q) (py_lower (Book.genre b)).

(** ** Lemmas on patterns *)

Lemma any_suffix_ext f g s : (forall t, f t = g t) -> any_suffix f s = any_suffix g s.
Proof. intros Hfg. induction s as [|c s IH]; simpl; by rewrite Hfg, ?IH. Qed.

Lemma any_suffix_py_lower f s :
  any_suffix f (py_lower s) = any_suffix (fun t => f (py_lower t)) s.
Proof. induction s as [|c s IH]; simpl; [done|]. by rewrite IH. Qed.

(** A trailing [%] matches the empty rest. *)
Lemma like_match_percent s : any_suffix (like_match "") s = true.
Proof. induction s as [|c s IH]; simpl; [done|]. done. Qed.

Lemma prefix_cons a b p s :
  String.prefix (String a p) (String b s) = Ascii.eqb a b && String.prefix p s.
Proof.
  simpl. destruct (ascii_dec a b) as [->|Hne]; [by rewrite Ascii.eqb_refl|].
  destruct (Ascii.eqb_spec a b); [congruence|done].
Qed.

(** A wildcard-free [q] followed by [%] is a case-insensitive prefix test. *)
Lemma like_match_prefix q s :
  wildcard_free q = true -> like_match (q ++ "%") s = String.prefix (py_lower q) (py_lower s).
Proof.
  revert s. induction q as [|c q IH]; intros s Hq.
  - transitivity true; [apply like_match_percent|by destruct (py_lower s)].
  - simpl in Hq. apply andb_true_iff in Hq as [Hc Hq]. apply andb_true_iff in Hc as [H1 H2].
    apply negb_true_iff in H1, H2. simpl. rewrite H1.
    destruct s as [|d s]; [done|]. cbn [py_lower]. rewrite prefix_cons. simpl.
    by rewrite H2, IH.
Qed.

(** ** Theorems *)

(** For a search text without [%] or [_], the LIKE pattern [%q%] is
    Python's case-insensitive substring test. *)
Lemma like_match_contains q s :
  wildcard_free q = true -> like_match (contains_pattern q) s = contains (py_lower q) (py_lower s).
Proof.
  intros Hq. unfold contains_pattern, contains. simpl.
  rewrite any_suffix_py_lower. apply any_suffix_ext. intros t. by apply like_match_prefix.
Qed.

Lemma has_dot_rsplit_None s : rsplit_dot s = None <-> has_dot s = false.
Proof.
  induction s as [|c s IH]; simpl; [done|].
  destruct (rsplit_dot s) as [[b e]|]; destruct (Ascii.eqb c "."%char); simpl.
  - split; [done|]. intros; exfalso; done.
  - split; [done|]. intros H. by apply IH in H.
  - split; done.
  - by rewrite <- IH.
Qed.

(** [rsplit('.', 1)] splits at the last dot. *)
Lemma rsplit_dot_spec s b e :
  rsplit_dot s = Some (b, e) <-> s = (b ++ String "." e)%string /\ has_dot e = false.
Proof.
  split.
  - revert b. induction s as [|c s IH]; intros b; simpl; [done|].
    destruct (rsplit_dot s) as [[b' e']|] eqn:Hs.
    + intros [= <- <-]. destruct (IH b' eq_refl) as [-> He]. done.
    + destruct (Ascii.eqb_spec c "."%char) as [->|]; [|done]. intros [= <- <-].
      split; [done|]. by apply has_dot_rsplit_None.
  - intros [-> He]. induction b as [|c b IH]; simpl.
    + apply has_dot_rsplit_None in He. by rewrite He.
    + by rewrite IH.
Qed.

(** C38: a logged-in user's search with a text [q] that is not empty
    and has no [%] or [_] shows exactly the books whose title, author or
    genre contains [q], ignoring ASCII case. *)
Theorem catalog_search_spec sess uid cu q s :
  current_user s sess = Some (uid, cu) -> q <> "" -> wildcard_free q = true ->
  catalog sess (Some q) s =
    inr (filter (fun kv : nat * Book.t => book_contains q kv.2 = true) (books s), s).
Proof.
  intros Hcu Hq Hw. unfold catalog, login_required. unfold_st. rewrite Hcu. cbn.
  destruct (String.eqb_spec q "") as [->|_]; [done|].
  do 3 f_equal. apply map_filter_strong_ext. intros i x. simpl.
  unfold book_matches, book_contains. by rewrite !like_match_contains.
Qed.

Lemma catalog_search_spec_witness :
  catalog (Some 2%nat) (Some "KNUTH") demo_store =
    inr (<[3%nat:=taocp]> ∅, demo_store).
Proof. rewrite (catalog_search_spec _ 2%nat alice); [vm_compute; reflexivity|done..]. Defined.

Lemma any_suffix_self f s : f s = true -> any_suffix f s = true.
Proof. intros H. destruct s; simpl; by rewrite H. Qed.

(** The pattern of a search for [%] is [%%%]: it matches every text. *)
Lemma like_match_percent_all s : like_match (contains_pattern "%") s = true.
Proof.
  change (any_suffix (like_match "%%") s = true). apply any_suffix_self.
  change (any_suffix (like_match "%") s = true). apply any_suffix_self.
  apply like_match_percent.
Qed.

(** The pattern of a search for [_] is [%_%]: it matches every
    non-empty text. *)
Lemma like_match_underscore s : like_match (contains_pattern "_") s = negb (String.eqb s "").
Proof.
  destruct s as [|c s]; [done|]. transitivity true; [|done].
  change (any_suffix (like_match "_%") (String c s) = true). apply any_suffix_self.
  apply like_match_percent.
Qed.

(** C39: the search text goes into the LIKE pattern unescaped: for any
    logged-in user and any catalog, a search for "%" shows every book
    and a search for "_" every book with a non-empty title, author or
    genre, whether or not any of them contains the character. *)
Theorem catalog_search_wildcards sess uid cu s :
  current_user s sess = Some (uid, cu) ->
  catalog sess (Some "%") s = inr (books s, s) /\
  catalog sess (Some "_") s =
    inr (filter (fun kv : nat * Book.t =>
                   negb (String.eqb (Book.title kv.2) "") ||
                   negb (String.eqb (Book.author kv.2) "") ||
                   negb (String.eqb (Book.genre kv.2) "") = true) (books s), s).
Proof.
  intros Hcu. unfold catalog, login_required. unfold_st. rewrite Hcu. cbn. split.
  - do 2 f_equal. apply map_filter_id. intros i b _. simpl.
    unfold book_matches. by rewrite like_match_percent_all.
  - do 2 f_equal. apply map_filter_ext. intros i b _. simpl.
    unfold book_matches. by rewrite !like_match_underscore.
Qed.

(** Witness of C39: on the demo catalog both searches show all four
    books, none of which has [%] or [_] in its title, author or genre. *)
Lemma catalog_search_wildcards_witness :
  catalog (Some 2%nat) (Some "_") demo_store = inr (books demo_store, demo_store) /\
  catalog (Some 2%nat) (Some "%") demo_store = inr (books demo_store, demo_store) /\
  map_Forall (fun _ b => book_contains "_" b = false /\ book_contains "%" b = false)
    (books demo_store).
Proof.
  destruct (catalog_search_wildcards (Some 2%nat) 2%nat alice demo_store) as [Hp Hu];
    [reflexivity|].
  split; [rewrite Hu; vm_compute; reflexivity|]. split; [exact Hp|decide_by_eval].
Defined.


(** A file name passes [allowed_file] exactly when it has a dot
    and the text after its last dot, lowercased, is png, jpg, jpeg or
    gif. *)
Lemma allowed_file_spec f :
  allowed_file f = true <->
  exists b e, f = (b ++ String "." e)%string /\ has_dot e = false /\
    py_lower e ∈ ALLOWED_EXTENSIONS.
Proof.
  unfold allowed_file. split.
  - destruct (rsplit_dot f) as [[b e]|] eqn:Hf; [|done]. intros Hin%bool_decide_eq_true_1.
    apply rsplit_dot_spec in Hf as [-> He]. eauto.
  - intros (b & e & Hf & He & Hin). rewrite (proj2 (rsplit_dot_spec f b e) (conj Hf He)).
    by apply bool_decide_eq_true_2.
Qed.
