(* ===== verification/Users.v ===== *)
(** * Accounts (src/app.py)

    [register] (lines 93-110), [login] (77-91), [profile] (120-135, the
    name and the picture upload), [admin_edit_student] (325-338), [admin_delete_student]
    (340-350) and the start-up code that creates the default admin
    (51-58).  Register and login normalise the e-mail with
    [.strip().lower()] and look the user up with
    [User.query.filter_by(email=...).first()] ([first_user_by_email]);
    the admin edit writes the form's e-mail as typed, and the column is
    [unique=True] (models.py line 17), so an edit onto another user's
    e-mail fails at the flush.  Deleting a user runs the ORM's flush for
    the relationships of models.py: the user's orders get
    [user_id = NULL] ([User.orders], line 24), the wishlist pairs go
    ([secondary], line 25), and a cart line or a book request of the user
    sets a [nullable=False] column to NULL (the [cart_items] and
    [book_requests] backrefs, lines 76/81 and 87/95): an
    [IntegrityError].  Passwords go through the [Bcrypt] interface of
    [Libraries] ([User.set_password] and [User.check_password], models.py
    lines 27-38) and uploaded file names through [secure_filename]: the
    definitions and theorems of Section [Accounts] hold for every
    implementation of them, and the concrete runs at the end of the file
    use the symbolic ones.  An uploaded picture is written to the upload
    folder ([uploads] of the store) under its secured name, replacing
    any file of that name, whoever uploaded it. *)

From S2P Require Import Prelude Model Forms Libraries Ledger Search.

Open Scope bookstore_scope.

(** ** Lookup and normalisation *)

(** [email.strip().lower()] *)
Definition normalize_email (e : string) : string := py_lower (py_strip e).

Definition email_is (e : string) (_ : nat) (u : User.t) : bool := String.eqb (User.email u) e.

(** [User.query.filter_by(email=e).first()] *)
Definition first_user_by_email (s : Store) (e : string) : option (nat * User.t) :=
  first_row (email_is e) (users s).

(** The [unique=True] constraint of [User.email]. *)
Definition emails_unique (s : Store) : Prop := map_inj User.email (users s).

#[export] Instance emails_unique_dec s : Decision (emails_unique s).
Proof. unfold emails_unique. apply _. Defined.

(** ** Register and login *)

Section Accounts.
Context {bcrypt : Bcrypt} {sfn : SecureFilename}.

(** The row [register] creates: [User(name=..., email=email)], then
    [user.set_password(form.password.data)] with the salt [gensalt()]
    drew; [role] and [profile_pic] take their column defaults
    (models.py lines 20-21). *)
Definition new_user (form : RegisterForm) (salt : string) : User.t :=
  User.mk (default "" (rf_name form)) (normalize_email (default "" (rf_email form)))
    (hashpw (default "" (rf_password form)) salt) "student" "default.png".

(** [POST /register] *)
Definition register (sess : option nat) (form : RegisterForm) (salt : string) : handler nat :=
  s <- getS ;;
  guardS (bool_decide (current_user s sess = None)) AlreadyAuthenticated ;;;
  guardS (register_form_valid form) InvalidForm ;;;
  let email := normalize_email (default "" (rf_email form)) in
  guardS (bool_decide (first_user_by_email s email = None)) DuplicateEmail ;;;
  add_user (new_user form salt).

(** What a route answers: a redirect, or a rendered template. *)
Inductive Response := Redirect (url : string) | Render (template : string).

(** [url_for('index')]: the route of [index] (line 68). *)
Definition INDEX_URL : string := "/".

(** [redirect(next_page) if next_page else redirect(url_for('index'))]
    with [next_page = request.args.get('next')] as sent. *)
Definition next_target (next : option string) : string :=
  match next with
  | Some n => if String.eqb n "" then INDEX_URL else n
  | None => INDEX_URL
  end.

(** [POST /login?next=...]: the session after the request
    ([login_user(user)] on success; the database is not written) and
    the response.  [user.check_password] is [checkpw] against the row's
    hash. *)
Definition login (s : Store) (sess : option nat) (form : LoginForm) (next : option string)
    : option nat * Response :=
  if bool_decide (is_Some (current_user s sess)) then (sess, Redirect INDEX_URL)
  else if login_form_valid form then
    match first_user_by_email s (normalize_email (default "" (lf_email form))) with
    | Some (uid, u) =>
        if checkpw (default "" (lf_password form)) (User.password_hash u)
        then (Some uid, Redirect (next_target next))
        else (sess, Render "login.html")
    | None => (sess, Render "login.html")
    end
  else (sess, Render "login.html").

(** [request.files['profile_pic']]: the submitted file name and bytes. *)
Record Upload := mkUpload { up_filename : string; up_content : string }.

(** [if file and allowed_file(file.filename)]: a [FileStorage] is false
    when its file name is empty. *)
Definition upload_ok (f : Upload) : bool :=
  negb (String.eqb (up_filename f) "") && allowed_file (up_filename f).

(** [POST /profile] (lines 120-135): [current_user.name =
    request.form.get('name', current_user.name)]; an accepted file is
    saved as [UPLOAD_FOLDER/secure_filename(file.filename)], replacing
    any file of that name, and becomes [current_user.profile_pic]; one
    commit writes the row. *)
Definition profile (sess : option nat) (name_field : option string) (file : option Upload)
    : handler unit :=
  user <- login_required sess ;; let '(uid, cu) := user in
  let cu' := User.set_name cu (form_str name_field (User.name cu)) in
  match file with
  | Some f =>
      if upload_ok f then
        let filename := secure_filename (up_filename f) in
        modifyS (fun s => with_uploads s (<[filename:=up_content f]> (uploads s))) ;;;
        save_user uid (User.set_profile_pic cu' filename)
      else save_user uid cu'
  | None => save_user uid cu'
  end.

(** ** Administration of students *)

(** [StudentForm(obj=user)] on a POST: absent fields keep the row's
    value. *)
Definition prefill_student_form (form : StudentForm) (u : User.t) : StudentForm :=
  mkStudentForm (sf_csrf_ok form) (Some (default (User.name u) (sf_name form)))
    (Some (default (User.email u) (sf_email form))) (sf_email_ok form).

(** [form.populate_obj(user)]: [name] and [email] as submitted. *)
Definition populate_user (form : StudentForm) (u : User.t) : User.t :=
  User.mk (default (User.name u) (sf_name form)) (default (User.email u) (sf_email form))
    (User.password_hash u) (User.role u) (User.profile_pic u).

(** The flush of [users[i] = u]: the unique index on [email]. *)
Definition update_user (i : nat) (u : User.t) : handler unit :=
  s <- getS ;;
  guardS (bool_decide (map_Forall (fun j v => j = i \/ User.email v <> User.email u) (users s)))
    ServerError ;;;
  save_user i u.

(** [POST /admin/students/<user_id>/edit] *)
Definition admin_edit_student (sess : option nat) (user_id : nat) (form : StudentForm)
    : handler unit :=
  user <- login_required sess ;; let '(_, cu) := user in
  guardS (is_role cu "admin") Unauthorized ;;;
  u <- get_user_or_404 user_id ;;
  let form' := prefill_student_form form u in
  guardS (student_form_valid form') InvalidForm ;;;
  update_user user_id (populate_user form' u).

(** What the flush writes into an order of the deleted user [i]. *)
Definition unlink_user (i : nat) (o : Order.t) : Order.t :=
  if bool_decide (Order.user_id o = Some i) then Order.set_user_id o None else o.

(** [db.session.delete(user); db.session.commit()] *)
Definition delete_user (i : nat) : handler unit :=
  s <- getS ;;
  guardS (bool_decide (map_Forall (fun _ c => Cart.user_id c <> i) (carts s))) ServerError ;;;
  guardS (bool_decide (map_Forall (fun _ r => BookRequest.user_id r <> i) (requests s)))
    ServerError ;;;
  putS (mkStore (delete i (users s)) (books s) (unlink_user i <$> orders s) (carts s)
          (requests s) (filter (fun p : nat * nat => p.1 <> i) (wishlist s)) (uploads s)).

(** [POST /admin/students/<user_id>/delete]: any user id, the admin's
    own included. *)
Definition admin_delete_student (sess : option nat) (user_id : nat) : handler unit :=
  user <- login_required sess ;; let '(_, cu) := user in
  guardS (is_role cu "admin") Unauthorized ;;;
  u <- get_user_or_404 user_id ;;
  delete_user user_id.

(** ** Start-up *)

(** The account created at start-up (lines 54-56): [User(name='Admin',
    email='admin@bookstore.com')], [set_password('admin123')] and
    [role = 'admin']. *)
Definition default_admin (salt : string) : User.t :=
  User.mk "Admin" "admin@bookstore.com" (hashpw "admin123" salt) "admin" "default.png".

Definition is_admin_row (_ : nat) (u : User.t) : bool := is_role u "admin".

(** [with app.app_context(): db.create_all(); if not
    User.query.filter_by(role='admin').first(): ... db.session.commit()]:
    the commit fails on the unique index when another user already has
    the e-mail. *)
Definition startup (salt : string) : handler unit :=
  s <- getS ;;
  match first_row is_admin_row (users s) with
  | Some _ => retS tt
  | None =>
      guardS (bool_decide (first_user_by_email s (User.email (default_admin salt)) = None))
        ServerError ;;;
      add_user (default_admin salt) ;;; retS tt
  end.

(** ** Lemmas *)

Lemma first_user_by_email_None s e :
  first_user_by_email s e = None -> forall j v, users s !! j = Some v -> User.email v <> e.
Proof.
  intros Hn j v Hj He. pose proof (first_row_None _ _ Hn j v Hj) as Hf.
  unfold email_is in Hf. rewrite He, String.eqb_refl in Hf. done.
Qed.

Lemma first_user_by_email_Some s e uid u :
  first_user_by_email s e = Some (uid, u) -> users s !! uid = Some u /\ User.email u = e.
Proof.
  intros (Hu & He & _)%first_row_Some. unfold email_is in He.
  by apply String.eqb_eq in He.
Qed.

(** Under [emails_unique] the lookup by e-mail finds the one user that
    has it. *)
Lemma first_user_by_email_unique s e uid u :
  emails_unique s -> users s !! uid = Some u -> User.email u = e ->
  first_user_by_email s e = Some (uid, u).
Proof.
  intros Hu Hk He. destruct (first_user_by_email s e) as [[k v]|] eqn:Hf.
  - apply first_user_by_email_Some in Hf as [Hk' He'].
    assert (k = uid) as -> by (apply (Hu k v Hk' uid u Hk); congruence). congruence.
  - by destruct (first_user_by_email_None _ _ Hf uid u Hk).
Qed.

Lemma order_hold_unlink_user b i k o : order_hold b k (unlink_user i o) = order_hold b k o.
Proof. unfold unlink_user. by case_bool_decide. Qed.

Lemma register_run sess form salt s uid s' :
  register sess form salt s = inr (uid, s') ->
  current_user s sess = None /\ register_form_valid form = true /\
  first_user_by_email s (normalize_email (default "" (rf_email form))) = None /\
  uid = next_key (users s) /\ s' = with_users s (<[uid:=new_user form salt]> (users s)).
Proof. intros H. unfold register in H. run_inv. auto 10. Qed.

Lemma profile_run sess name_field file s u s' :
  profile sess name_field file s = inr (u, s') ->
  exists uid cu, current_user s sess = Some (uid, cu) /\
    let cu' := User.set_name cu (form_str name_field (User.name cu)) in
    (s' = with_users s (<[uid:=cu']> (users s)) /\
       forall f, file = Some f -> upload_ok f = false) \/
    (exists f, file = Some f /\ upload_ok f = true /\
       s' = with_users
              (with_uploads s (<[secure_filename (up_filename f):=up_content f]> (uploads s)))
              (<[uid:=User.set_profile_pic cu' (secure_filename (up_filename f))]> (users s))).
Proof.
  intros H. unfold profile in H.
  apply bindS_ok_inv in H as ([uid cu] & s1 & Hl & H). cbn beta iota in H.
  apply login_required_ok in Hl as [-> Hcu]. exists uid, cu. split; [done|].
  destruct file as [f|]; [destruct (upload_ok f) eqn:Hok|]; run_inv.
  - right. eauto.
  - left. split; [done|]. by intros ? [= <-].
  - by left.
Qed.

(** What [profile] writes into the users table: the user's own row,
    with the same e-mail. *)
Lemma profile_run_users sess name_field file s u s' :
  profile sess name_field file s = inr (u, s') ->
  exists uid cu cu', current_user s sess = Some (uid, cu) /\ User.email cu' = User.email cu /\
    users s' = <[uid:=cu']> (users s) /\
    books s' = books s /\ orders s' = orders s /\ carts s' = carts s.
Proof.
  intros (uid & cu & Hcu & [[-> _]|(f & _ & _ & ->)])%profile_run.
  - exists uid, cu, (User.set_name cu (form_str name_field (User.name cu))). done.
  - exists uid, cu, (User.set_profile_pic (User.set_name cu (form_str name_field (User.name cu)))
                      (secure_filename (up_filename f))). done.
Qed.
Lemma admin_edit_student_run sess user_id form s u s' :
  admin_edit_student sess user_id form s = inr (u, s') ->
  exists uid cu v,
    current_user s sess = Some (uid, cu) /\ is_role cu "admin" = true /\
    users s !! user_id = Some v /\
    student_form_valid (prefill_student_form form v) = true /\
    map_Forall (fun j w => j = user_id \/ User.email w <> User.email
                  (populate_user (prefill_student_form form v) v)) (users s) /\
    s' = with_users s (<[user_id:=populate_user (prefill_student_form form v) v]> (users s)).
Proof. intros H. unfold admin_edit_student, update_user in H. run_inv. eauto 10. Qed.

Lemma admin_delete_student_run sess user_id s u s' :
  admin_delete_student sess user_id s = inr (u, s') ->
  exists uid cu v,
    current_user s sess = Some (uid, cu) /\ is_role cu "admin" = true /\
    users s !! user_id = Some v /\
    map_Forall (fun _ c => Cart.user_id c <> user_id) (carts s) /\
    map_Forall (fun _ r => BookRequest.user_id r <> user_id) (requests s) /\
    s' = mkStore (delete user_id (users s)) (books s) (unlink_user user_id <$> orders s)
           (carts s) (requests s) (filter (fun p : nat * nat => p.1 <> user_id) (wishlist s))
           (uploads s).
Proof.
  intros H. unfold admin_delete_student, delete_user in H. run_inv.
  unfold putS in H. injection H as <- <-. eauto 10.
Qed.

(** ** Theorems *)

(** Each route that writes a user keeps the e-mails unique on success. *)
Lemma register_emails_step sess form salt s uid s' :
  register sess form salt s = inr (uid, s') -> emails_unique s -> emails_unique s'.
Proof.
  intros (_ & _ & Hn & -> & ->)%register_run Hu.
  apply map_inj_insert; [done|]. intros j v Hj _.
  exact (first_user_by_email_None _ _ Hn j v Hj).
Qed.

Lemma admin_edit_student_emails_step sess user_id form s u s' :
  admin_edit_student sess user_id form s = inr (u, s') -> emails_unique s -> emails_unique s'.
Proof.
  intros (? & ? & v & _ & _ & _ & _ & Hfree & ->)%admin_edit_student_run Hu.
  apply map_inj_insert; [done|]. intros j w Hj Hne. by destruct (Hfree j w Hj).
Qed.

Lemma profile_emails_step sess name_field file s u s' :
  profile sess name_field file s = inr (u, s') -> emails_unique s -> emails_unique s'.
Proof.
  intros (uid & cu & cu' & Hcu & He & Hus & _)%profile_run_users Hu.
  apply current_user_Some in Hcu as [-> Hcu]. unfold emails_unique. rewrite Hus.
  apply map_inj_insert; [done|]. intros j w Hj Hne Heq. rewrite He in Heq.
  apply Hne, (Hu j w Hj uid cu Hcu Heq).
Qed.

Lemma admin_delete_student_emails_step sess user_id s u s' :
  admin_delete_student sess user_id s = inr (u, s') -> emails_unique s -> emails_unique s'.
Proof.
  intros (? & ? & ? & _ & _ & _ & _ & _ & ->)%admin_delete_student_run Hu.
  by apply map_inj_delete.
Qed.

(** C28: the routes that write users keep [User.email] unique:
    [register] adds an e-mail that [first_user_by_email] did not find,
    [admin_edit_student] fails at the flush on another user's e-mail,
    [profile] keeps the e-mail and [admin_delete_student] removes a row. *)
Theorem users_emails_unique s :
  emails_unique s ->
  (forall sess form salt, emails_unique (final (register sess form salt) s)) /\
  (forall sess user_id form, emails_unique (final (admin_edit_student sess user_id form) s)) /\
  (forall sess name_field file, emails_unique (final (profile sess name_field file) s)) /\
  (forall sess user_id, emails_unique (final (admin_delete_student sess user_id) s)).
Proof.
  intros Hu. split; [|split; [|split]]; intros *; apply (final_inv _ _ emails_unique);
    try done; intros ? ? Hrun.
  - by eapply register_emails_step.
  - by eapply admin_edit_student_emails_step.
  - by eapply profile_emails_step.
  - by eapply admin_delete_student_emails_step.
Qed.

(** C29: login lowercases the typed e-mail before the exact-match
    lookup, so a user whose stored e-mail has a capital letter can never
    log in, whatever is typed and whatever the password check says.  Such
    e-mails are written by [admin_edit_student], which stores the form's
    e-mail as typed (lines 331-333); [register] stores it lowercased. *)
Theorem login_uppercase_email_locked s sess form next uid u :
  current_user s sess = None -> users s !! uid = Some u -> has_upper (User.email u) = true ->
  (login s sess form next).1 <> Some uid.
Proof.
  intros Hcu Hu Hup. unfold login. rewrite Hcu. simpl.
  assert (Hsess : sess <> Some uid) by (intros ->; simpl in Hcu; by rewrite Hu in Hcu).
  destruct (login_form_valid form); [|done].
  destruct (first_user_by_email _ _) as [[uid' u']|] eqn:Hf; [|done].
  apply first_user_by_email_Some in Hf as [Hu' He].
  destruct (checkpw _ _); [|done]. intros [= <-].
  rewrite Hu in Hu'. injection Hu' as <-. rewrite He in Hup.
  unfold normalize_email in Hup. by rewrite has_upper_py_lower in Hup.
Qed.

(** C30: the login redirects to the [next] query argument as it was
    sent: after a successful login the browser goes to whatever URL the
    link carried, on another site as well (an open redirect, which lets
    a phishing link pass through the genuine login page). *)
Theorem login_open_redirect s form next uid u :
  login_form_valid form = true ->
  first_user_by_email s (normalize_email (default "" (lf_email form))) = Some (uid, u) ->
  checkpw (default "" (lf_password form)) (User.password_hash u) = true ->
  next <> "" ->
  login s None form (Some next) = (Some uid, Redirect next).
Proof.
  intros Hv Hf Hc Hn. unfold login. simpl. rewrite Hv, Hf, Hc. unfold next_target.
  by rewrite (proj2 (String.eqb_neq _ _) Hn).
Qed.

(** A successful user delete keeps the ledger. *)
Lemma admin_delete_student_ledger_step sess user_id s u s' :
  admin_delete_student sess user_id s = inr (u, s') ->
  ledger_ok s -> ledger_ok s'.
Proof.
  intros Hrun Hok.
  apply admin_delete_student_run in Hrun as (? & ? & ? & _ & _ & _ & _ & _ & ->).
  intros b bk Hb. simpl in Hb. rewrite <- (Hok b bk Hb).
  unfold reserved, order_reserved, cart_reserved. simpl. rewrite map_sum_fmap.
  do 2 f_equal. apply map_sum_ext. intros. apply order_hold_unlink_user.
Qed.
(** C31: the upload folder is shared by all users and [file.save]
    replaces a file of the same name: when a user uploads a picture under
    the name another user's [profile_pic] already has, that user's row
    is unchanged but the picture it shows is now the new upload.  Since
    [secure_filename] is a function, this holds whatever it computes. *)
Theorem profile_upload_overwrites sess name_field f s uid cu v w :
  current_user s sess = Some (uid, cu) -> v <> uid -> users s !! v = Some w ->
  upload_ok f = true -> User.profile_pic w = secure_filename (up_filename f) ->
  users (final (profile sess name_field (Some f)) s) !! v = Some w /\
  uploads (final (profile sess name_field (Some f)) s) !! User.profile_pic w = Some (up_content f).
Proof.
  intros Hcu Hne Hv Hok Hpic. unfold final, profile, login_required. unfold_st.
  rewrite Hcu. cbn. rewrite Hok. cbn. split.
  - rewrite lookup_insert_ne by congruence. exact Hv.
  - rewrite Hpic. apply lookup_insert_eq.
Qed.
End Accounts.

(** ** Concrete runs, with the symbolic bcrypt *)

#[local] Existing Instance sym_bcrypt.
#[local] Existing Instance sym_secure_filename.

Lemma users_emails_unique_witness :
  let f := mkRegisterForm true (Some "Carol") (Some " Carol@Campus.edu ") true
             (Some "pw") (Some "pw") in
  let sf := mkStudentForm true None (Some "bob@campus.edu") true in
  emails_unique demo_store /\
  emails_unique (final (register None f "salt") demo_store) /\
  emails_unique (final (admin_edit_student (Some 1%nat) 2%nat sf) demo_store) /\
  emails_unique
    (final (profile (Some 2%nat) (Some "Al") (Some (mkUpload "al.png" "..."))) demo_store) /\
  emails_unique (final (admin_delete_student (Some 1%nat) 3%nat) demo_store).
Proof.
  intros f sf. assert (Hu : emails_unique demo_store) by decide_by_eval.
  destruct (users_emails_unique demo_store Hu) as (H1 & H2 & H3 & H4).
  split; [exact Hu|]. split; [apply H1|]. split; [apply H2|]. split; [apply H3|apply H4].
Defined.

(** Witness of C29: Alice logs in with her e-mail typed in capitals and
    padded; after an admin retypes her e-mail as "Alice@campus.edu", no
    login reaches her account. *)
Lemma login_uppercase_email_locked_witness :
  let lf := mkLoginForm true (Some " ALICE@campus.edu ") true (Some "alice-pw") in
  let s1 := final (admin_edit_student (Some 1%nat) 2%nat
                     (mkStudentForm true None (Some "Alice@campus.edu") true)) demo_store in
  (login demo_store None lf None).1 = Some 2%nat /\
  users s1 !! 2%nat =
    Some (User.mk "Alice" "Alice@campus.edu" "$2b$alice-pw" "student" "default.png") /\
  (login s1 None (mkLoginForm true (Some "Alice@campus.edu") true (Some "alice-pw")) None).1
    <> Some 2%nat.
Proof.
  intros lf s1. split; [vm_compute; reflexivity|]. split; [vm_compute; reflexivity|].
  apply (login_uppercase_email_locked s1 None _ None 2%nat
           (User.mk "Alice" "Alice@campus.edu" "$2b$alice-pw" "student" "default.png"));
    vm_compute; reflexivity.
Defined.

(** [admin_delete_student] deletes any user: an admin can delete
    their own account, after which the session is logged out and no
    admin is left to reach the admin routes; a student with a cart line
    or a book request cannot be deleted (the flush fails).  A restart
    would create the default admin again (lines 51-58), unless someone
    registered admin@bookstore.com in the meantime: then the start-up
    commit fails on the unique e-mail and the application cannot start. *)
Lemma admin_delete_student_any_user :
  let s1 := final (admin_delete_student (Some 1%nat) 1%nat) demo_store in
  let reg := mkRegisterForm true (Some "Eve") (Some " Admin@Bookstore.com") true
               (Some "pw") (Some "pw") in
  let s2 := final (register None reg "salt") s1 in
  admin_delete_student (Some 1%nat) 2%nat demo_store = inl ServerError /\
  users s1 !! 1%nat = None /\ current_user s1 (Some 1%nat) = None /\
  map_Forall (fun _ u => is_role u "admin" = false) (users s1) /\
  admin_delete_student (Some 1%nat) 3%nat s1 = inl LoginRequired /\
  (exists s1', startup "salt" s1 = inr (tt, s1') /\
     first_user_by_email s1' "admin@bookstore.com" <> None) /\
  users s2 !! 4%nat = Some (User.mk "Eve" "admin@bookstore.com" "$2b$pw" "student" "default.png") /\
  startup "salt" s2 = inl ServerError.
Proof.
  cbv zeta. split; [vm_compute; reflexivity|]. split; [vm_compute; reflexivity|].
  split; [vm_compute; reflexivity|]. split; [decide_by_eval|].
  split; [vm_compute; reflexivity|]. split; [|split; vm_compute; reflexivity].
  eexists. split; [vm_compute; reflexivity|]. vm_compute. discriminate.
Qed.

(** Witness of C31: Alice uploads "me.png", then Bob uploads his own
    "me.png": Alice's row still names "me.png", which is now Bob's
    picture. *)
Lemma profile_upload_overwrites_witness :
  let s1 := final (profile (Some 2%nat) None (Some (mkUpload "me.png" "alice-face"))) demo_store in
  let s2 := final (profile (Some 3%nat) None (Some (mkUpload "me.png" "bob-face"))) s1 in
  users s2 !! 2%nat = Some (User.mk "Alice" "alice@campus.edu" "$2b$alice-pw" "student" "me.png") /\
  uploads s2 !! "me.png" = Some "bob-face".
Proof.
  intros s1 s2.
  apply (profile_upload_overwrites (Some 3%nat) None (mkUpload "me.png" "bob-face") s1 3%nat bob
           2%nat (User.mk "Alice" "alice@campus.edu" "$2b$alice-pw" "student" "me.png"));
    [vm_compute; reflexivity|lia|vm_compute; reflexivity..].
Defined.

(** Witness of C30: Alice follows a link to the login page whose [next]
    names another site, and logs in with her own password. *)
Lemma login_open_redirect_witness :
  let lf := mkLoginForm true (Some "alice@campus.edu") true (Some "alice-pw") in
  login demo_store None lf (Some "https://phish.example/login") =
    (Some 2%nat, Redirect "https://phish.example/login").
Proof.
  intros lf. apply (login_open_redirect demo_store lf _ 2%nat alice);
    [vm_compute; reflexivity..|discriminate].
Defined.
