(* ===== verification/Recovery.v ===== *)
(** * Password recovery (src/app.py lines 137-169)

    [forgot_password] (lines 138-153) normalises the typed e-mail, looks
    the user up and, when there is one, mails a link with the token
    [s.dumps(email, salt='recover-key')]; the model returns the token
    the mail carries (the mail itself is I/O).  [reset_password]
    (lines 155-169) reads the e-mail back with [s.loads(token, ...,
    max_age=1800)] and, on a POST, sets the password of
    [User.query.filter_by(email=email).first()].

    The token names an e-mail, not an account, and nothing records that
    it was used: whoever holds the e-mail when the link is opened gets
    the new password, the link works again until it expires, and a
    valid link for an e-mail that no longer has an account fails with
    [AttributeError] on [None.set_password] (a 500).

    Everything in Section [Recovery] holds for every [Bcrypt] and
    [TimedSerializer] of [Libraries]; the concrete runs at the end use the
    symbolic ones, with times in seconds. *)

From S2P Require Import Prelude Model Forms Libraries Users.

Open Scope bookstore_scope.

Section Recovery.
Context {bcrypt : Bcrypt} {serializer : TimedSerializer}.

(** [max_age=1800] (line 158): thirty minutes. *)
Definition RESET_MAX_AGE : Z := 1800.

(** [POST /forgot-password] at time [now]: [request.form['email']] is a
    400 when the field is absent; an unknown e-mail is flashed and
    redirected. *)
Definition forgot_password (email_field : option string) (now : Z) : handler token :=
  s <- getS ;;
  match email_field with
  | None => failS BadRequest
  | Some typed =>
      let email := normalize_email typed in
      match first_user_by_email s email with
      | None => failS UnknownEmail
      | Some _ => retS (dumps email now)
      end
  end.

(** [POST /reset-password/<token>] at time [now]: a token that [loads]
    rejects is flashed and redirected before the form is read;
    [request.form['password']] is a 400 when absent; the password is set
    on the first user with the e-mail, and [None.set_password] raises. *)
Definition reset_password (tok : token) (now : Z) (password_field : option string)
    (salt : string) : handler unit :=
  match loads tok RESET_MAX_AGE now with
  | None => failS InvalidLink
  | Some email =>
      match password_field with
      | None => failS BadRequest
      | Some new_pw =>
          s <- getS ;;
          match first_user_by_email s email with
          | None => failS ServerError
          | Some (uid, u) => save_user uid (User.set_password_hash u (hashpw new_pw salt))
          end
      end
  end.

(** ** Lemmas *)

Lemma reset_password_run tok now pw salt s u s' :
  reset_password tok now pw salt s = inr (u, s') ->
  exists email new_pw uid v,
    loads tok RESET_MAX_AGE now = Some email /\ pw = Some new_pw /\
    first_user_by_email s email = Some (uid, v) /\
    s' = with_users s (<[uid:=User.set_password_hash v (hashpw new_pw salt)]> (users s)).
Proof.
  unfold reset_password. destruct (loads tok RESET_MAX_AGE now) as [email|]; [|done].
  destruct pw as [new_pw|]; [|done]. unfold_st.
  destruct (first_user_by_email s email) as [[uid v]|] eqn:Hf; [|done].
  intros [= _ <-]. eauto 10.
Qed.

(** A reset keeps every e-mail, so it keeps them unique. *)
Lemma reset_password_emails_step tok now pw salt s u s' :
  reset_password tok now pw salt s = inr (u, s') -> emails_unique s -> emails_unique s'.
Proof.
  intros (? & ? & uid & v & _ & _ & Hf & ->)%reset_password_run Hu.
  apply first_user_by_email_Some in Hf as [Hk _].
  apply map_inj_insert; [done|]. intros j w Hj Hne Heq. apply Hne, (Hu j w Hj uid v Hk Heq).
Qed.

(** ** Theorems *)

(** C32: [forgot_password] writes nothing; for an e-mail typed as
    [typed] it gives a token exactly when a user has
    [typed.strip().lower()], and that token carries this e-mail for the
    next [RESET_MAX_AGE] seconds and is refused after; otherwise the
    request ends with the "Email not found" redirect. *)
Theorem forgot_password_token typed now s :
  match forgot_password (Some typed) now s with
  | inr (tok, s') =>
      s' = s /\ is_Some (first_user_by_email s (normalize_email typed)) /\
      (forall now', (now <= now' <= now + RESET_MAX_AGE)%Z ->
         loads tok RESET_MAX_AGE now' = Some (normalize_email typed)) /\
      (forall now', (now + RESET_MAX_AGE < now')%Z -> loads tok RESET_MAX_AGE now' = None)
  | inl err => err = UnknownEmail /\ first_user_by_email s (normalize_email typed) = None
  end.
Proof.
  unfold forgot_password. unfold_st.
  destruct (first_user_by_email s (normalize_email typed)) as [[uid v]|]; [|done].
  split; [done|]. split; [eauto|]. split; intros now' ?.
  - apply loads_dumps. lia.
  - apply loads_dumps_expired. lia.
Qed.

(** C33: a reset with a valid token sets the password of the user who
    has the token's e-mail when the link is opened, and nothing else;
    afterwards a login with that e-mail succeeds exactly with the
    passwords whose first 72 bytes are those of the new password: the
    new password, and every longer password that bcrypt truncates to
    the same bytes. *)
Theorem reset_password_then_login tok now p salt s e uid u :
  loads tok RESET_MAX_AGE now = Some e -> first_user_by_email s e = Some (uid, u) ->
  emails_unique s -> normalize_email e = e -> data_required (Some e) = true ->
  let s' := with_users s (<[uid:=User.set_password_hash u (hashpw p salt)]> (users s)) in
  reset_password tok now (Some p) salt s = inr (tt, s') /\
  (forall q next, data_required (Some q) = true ->
     (login s' None (mkLoginForm true (Some e) true (Some q)) next).1 =
       if String.eqb (bcrypt_key q) (bcrypt_key p) then Some uid else None).
Proof.
  intros Hl Hf Hu Hn He s'.
  assert (Hrun : reset_password tok now (Some p) salt s = inr (tt, s')).
  { unfold reset_password. rewrite Hl. unfold_st. by rewrite Hf. }
  split; [exact Hrun|]. intros q next Hq.
  pose proof (first_user_by_email_Some _ _ _ _ Hf) as [_ Hue].
  assert (Hfind : first_user_by_email s' e = Some (uid, User.set_password_hash u (hashpw p salt))).
  { apply first_user_by_email_unique; [by eapply reset_password_emails_step|
      apply lookup_insert_eq|done]. }
  unfold login, login_form_valid. cbn -[data_required normalize_email first_user_by_email].
  rewrite He, Hq, Hn, Hfind. cbn -[checkpw]. rewrite checkpw_hashpw_eqb.
  by destruct (String.eqb _ _).
Qed.

(** C34: the failures of a reset with a token signed at [t] for [e]:
    after [RESET_MAX_AGE] seconds the link is refused without reading
    the form; within them, when no user has [e] any more (deleted, or
    its e-mail edited), the request raises on [None.set_password]: an
    unhandled 500 where spec section 7 wants typed results. *)
Theorem reset_password_rejects e t now pw salt s :
  ((t + RESET_MAX_AGE < now)%Z -> reset_password (dumps e t) now pw salt s = inl InvalidLink) /\
  ((t <= now <= t + RESET_MAX_AGE)%Z -> pw <> None -> first_user_by_email s e = None ->
     reset_password (dumps e t) now pw salt s = inl ServerError).
Proof.
  unfold reset_password. split.
  - intros Hexp. by rewrite loads_dumps_expired.
  - intros Hin Hpw Hf. rewrite loads_dumps by done.
    destruct pw as [p|]; [|done]. unfold_st. by rewrite Hf.
Qed.
End Recovery.

(** ** Concrete runs, with the symbolic bcrypt and serializer *)

#[local] Existing Instance sym_bcrypt.
#[local] Existing Instance sym_serializer.

(** Witness of C33: Eve registers and resets her password to 72
    bytes of "a" followed by "1"; afterwards her old password fails and
    72 bytes of "a" followed by "2" logs her in. *)
Lemma reset_password_then_login_witness :
  let s1 := final (register None (mkRegisterForm true (Some "Eve") (Some "eve@campus.edu") true
                                   (Some "eve-pw") (Some "eve-pw")) "salt") demo_store in
  let eve := User.mk "Eve" "eve@campus.edu" "$2b$eve-pw" "student" "default.png" in
  let a72 := String.concat "" (repeat "a" 72) in
  let pw1 := (a72 ++ "1")%string in
  let s2 := with_users s1 (<[4%nat:=User.set_password_hash eve (hashpw pw1 "salt")]> (users s1)) in
  emails_unique s1 /\
  reset_password (dumps "eve@campus.edu" 0) 600 (Some pw1) "salt" s1 = inr (tt, s2) /\
  (login s2 None (mkLoginForm true (Some "eve@campus.edu") true (Some "eve-pw")) None).1 = None /\
  (login s2 None (mkLoginForm true (Some "eve@campus.edu") true (Some (a72 ++ "2")%string))
     None).1 = Some 4%nat.
Proof.
  intros s1 eve a72 pw1 s2. assert (Hu : emails_unique s1) by decide_by_eval. split; [exact Hu|].
  destruct (reset_password_then_login (dumps "eve@campus.edu" 0) 600 pw1 "salt" s1
              "eve@campus.edu" 4%nat eve)
    as [Hrun Hlogin]; [vm_compute; reflexivity|vm_compute; reflexivity|exact Hu|
      vm_compute; reflexivity|vm_compute; reflexivity|].
  split; [exact Hrun|]. split.
  - refine (eq_trans (Hlogin "eve-pw" None _) _); vm_compute; reflexivity.
  - refine (eq_trans (Hlogin (a72 ++ "2")%string None _) _); vm_compute; reflexivity.
Defined.

Lemma reset_password_rejects_witness :
  reset_password (dumps "alice@campus.edu" 0) 1801 (Some "pw") "salt" demo_store =
    inl InvalidLink /\
  reset_password (dumps "carol@campus.edu" 0) 60 (Some "pw") "salt" demo_store = inl ServerError.
Proof.
  destruct (reset_password_rejects "alice@campus.edu" 0 1801 (Some "pw") "salt" demo_store)
    as [H1 _].
  destruct (reset_password_rejects "carol@campus.edu" 0 60 (Some "pw") "salt" demo_store)
    as [_ H2].
  split; [apply H1; vm_compute; reflexivity|].
  apply H2; [vm_compute; split; discriminate|discriminate|vm_compute; reflexivity].
Defined.

(** The reset link outlives the account it was sent for.  Eve
    registers (user 4) and asks for a reset link; an admin deletes her
    account and Victor registers with the same e-mail, getting the
    freed row id 4 back.  Ten minutes later Eve's link sets Victor's
    password: Eve logs in to Victor's account and Victor's own password
    no longer works.  The same link works again ten minutes after. *)
Lemma reset_token_outlives_account :
  let eve := mkRegisterForm true (Some "Eve") (Some "eve@campus.edu") true
               (Some "eve-pw") (Some "eve-pw") in
  let victor := mkRegisterForm true (Some "Victor") (Some "eve@campus.edu") true
                  (Some "victor-pw") (Some "victor-pw") in
  let s1 := final (register None eve "salt") demo_store in
  let tok := dumps "eve@campus.edu" 0 in
  let s2 := final (admin_delete_student (Some 1%nat) 4%nat) s1 in
  let s3 := final (register None victor "salt") s2 in
  let s4 := final (reset_password tok 600 (Some "eve-again") "salt") s3 in
  let s5 := final (reset_password tok 1200 (Some "once-more") "salt") s4 in
  forgot_password (Some "eve@campus.edu") 0 s1 = inr (tok, s1) /\
  users s2 !! 4%nat = None /\
  users s3 !! 4%nat =
    Some (User.mk "Victor" "eve@campus.edu" "$2b$victor-pw" "student" "default.png") /\
  reset_password tok 600 (Some "eve-again") "salt" s3 = inr (tt, s4) /\
  fmap User.name (users s4 !! 4%nat) = Some "Victor" /\
  (login s4 None (mkLoginForm true (Some "eve@campus.edu") true (Some "eve-again")) None).1 =
    Some 4%nat /\
  (login s4 None (mkLoginForm true (Some "eve@campus.edu") true (Some "victor-pw")) None).1 =
    None /\
  reset_password tok 1200 (Some "once-more") "salt" s4 = inr (tt, s5).
Proof. cbv zeta. repeat split; vm_compute; reflexivity. Qed.
