(* ===== verification/Stats.v ===== *)
(** * The statistics endpoint (src/app.py lines 379-388)

    [GET /api/stats] runs
    [db.session.query(Book.title, func.sum(Order.quantity)).join(Order)
       .group_by(Book.id).order_by(func.sum(Order.quantity).desc()).limit(5)]
    and returns the titles and the sums as JSON.  The model computes the
    groups of the inner join (one per book that some order names, with
    the sum of the quantities of all its orders, whatever their status),
    sorts them by [merge_sort] on the sum, descending, and takes five.

    [stats_spec] is what the query means in SQL: rows that are groups of
    the join, one per book, in descending order of the sum, at most five,
    and no book left out with a larger sum than a row kept (ties may come
    in any order, which SQLite leaves open).  [api_stats_spec] proves
    that the endpoint's result meets it.  The sum counts canceled
    orders: cancelling changes no total ([cancel_keeps_ordered_total]). *)

From S2P Require Import Prelude Model Orders.

Open Scope bookstore_scope.

(** ** The query *)

(** A row of the query, with the group's key [Book.id]. *)
Record stat_row := mkStatRow {
  sr_book : nat;
  sr_title : string;
  sr_total : Z;
}.

(** The share of order [o] in [func.sum(Order.quantity)] for book [b]. *)
Definition order_qty_of (b : nat) (_ : nat) (o : Order.t) : Z :=
  if bool_decide (Order.book_id o = Some b) then Order.quantity o else 0.

Definition ordered_total (s : Store) (b : nat) : Z := map_sum (order_qty_of b) (orders s).

(** The inner join has a group for book [b] when an order names it. *)
Definition has_orders (s : Store) (b : nat) : Prop :=
  Exists (fun io => Order.book_id io.2 = Some b) (map_to_list (orders s)).

#[export] Instance has_orders_dec s b : Decision (has_orders s b).
Proof. unfold has_orders. apply _. Defined.

(** The groups of [join(Order).group_by(Book.id)]. *)
Definition stats_groups (s : Store) : list stat_row :=
  (fun bb : nat * Book.t => mkStatRow bb.1 (Book.title bb.2) (ordered_total s bb.1)) <$>
    filter (fun bb : nat * Book.t => has_orders s bb.1) (map_to_list (books s)).

(** [order_by(func.sum(Order.quantity).desc())] *)
Definition total_ge (r1 r2 : stat_row) : Prop := (sr_total r2 <= sr_total r1)%Z.

#[export] Instance total_ge_dec : RelDecision total_ge.
Proof. intros r1 r2. unfold total_ge. apply _. Defined.

Definition top_rows (s : Store) : list stat_row := take 5 (merge_sort total_ge (stats_groups s)).

(** [GET /api/stats]: a 403 for a user who is not an admin. *)
Definition api_stats (sess : option nat) : handler (list string * list Z) :=
  user <- login_required sess ;; let '(_, cu) := user in
  guardS (is_role cu "admin") Unauthorized ;;;
  s <- getS ;;
  let rows := top_rows s in
  retS (sr_title <$> rows, sr_total <$> rows).

(** ** What the query means *)

(** A row of the join's groups. *)
Definition group_ok (s : Store) (r : stat_row) : Prop :=
  exists bk, books s !! sr_book r = Some bk /\ sr_title r = Book.title bk /\
    sr_total r = ordered_total s (sr_book r) /\ has_orders s (sr_book r).

(** Groups, one per book, by descending sum, at most five, and a book
    left out has a sum no larger than any row's, there being five. *)
Definition stats_spec (s : Store) (rows : list stat_row) : Prop :=
  Forall (group_ok s) rows /\ NoDup (sr_book <$> rows) /\
  StronglySorted total_ge rows /\ (length rows <= 5)%nat /\
  (forall b bk, books s !! b = Some bk -> has_orders s b -> b ∉ sr_book <$> rows ->
     length rows = 5%nat /\ Forall (fun r => (ordered_total s b <= sr_total r)%Z) rows).

(** ** Lemmas *)

#[local] Instance total_ge_trans : Transitive total_ge.
Proof. intros r1 r2 r3. unfold total_ge. lia. Qed.

#[local] Instance total_ge_total : Total total_ge.
Proof. intros r1 r2. unfold total_ge. lia. Qed.

Lemma elem_of_stats_groups s r :
  r ∈ stats_groups s <->
  exists bk, books s !! sr_book r = Some bk /\
    r = mkStatRow (sr_book r) (Book.title bk) (ordered_total s (sr_book r)) /\
    has_orders s (sr_book r).
Proof.
  unfold stats_groups. rewrite list_elem_of_fmap. split.
  - intros ([b bk] & -> & Hin). apply list_elem_of_filter in Hin as [Hh Hin].
    apply elem_of_map_to_list in Hin. eauto.
  - intros (bk & Hb & Hr & Hh). exists (sr_book r, bk). split; [done|].
    apply list_elem_of_filter. split; [done|]. by apply elem_of_map_to_list.
Qed.

Lemma stats_groups_NoDup s : NoDup (sr_book <$> stats_groups s).
Proof.
  unfold stats_groups. rewrite <- list_fmap_compose.
  apply (sublist_NoDup _ (map_to_list (books s)).*1); [apply NoDup_fst_map_to_list|].
  apply fmap_sublist, sublist_filter.
Qed.

Lemma order_qty_of_set_status b i o st :
  order_qty_of b i (Order.set_status o st) = order_qty_of b i o.
Proof. done. Qed.

Lemma group_ok_of_groups s r : r ∈ stats_groups s -> group_ok s r.
Proof.
  intros (bk & Hb & Hr & Hh)%elem_of_stats_groups. exists bk.
  rewrite Hr at 2 3. auto.
Qed.

(** The sorted groups: a permutation of the groups, sorted by
    descending sum, with distinct books. *)
Section Sorted.
Context (s : Store).
Let l := merge_sort total_ge (stats_groups s).

Lemma sorted_groups_perm : l ≡ₚ stats_groups s.
Proof. apply merge_sort_Permutation. Qed.

Lemma sorted_groups_NoDup : NoDup (sr_book <$> l).
Proof. rewrite sorted_groups_perm. apply stats_groups_NoDup. Qed.

Lemma sorted_groups_split :
  (forall x1 x2, x1 ∈ take 5 l -> x2 ∈ drop 5 l -> total_ge x1 x2) /\
  StronglySorted total_ge (take 5 l).
Proof.
  assert (Hss : StronglySorted total_ge l) by (apply StronglySorted_merge_sort; apply _).
  rewrite <- (take_drop 5 l) in Hss. by apply StronglySorted_app in Hss as (? & ? & _).
Qed.
End Sorted.

(** The rows of [top_rows] meet the SQL meaning of the query. *)
Lemma top_rows_spec s : stats_spec s (top_rows s).
Proof.
  unfold top_rows. destruct (sorted_groups_split s) as [Hlt Hsorted].
  set (l := merge_sort total_ge (stats_groups s)) in *.
  pose proof (sorted_groups_perm s) as Hperm. fold l in Hperm.
  split; [|split; [|split; [done|split]]].
  - apply Forall_forall. intros r Hr. apply group_ok_of_groups.
    rewrite <- Hperm. by apply (sublist_subseteq _ _ (sublist_take l 5)).
  - apply (sublist_NoDup _ (sr_book <$> l)); [apply sorted_groups_NoDup|].
    apply fmap_sublist, sublist_take.
  - rewrite length_take. lia.
  - intros b bk Hb Hh Hnot.
    set (r' := mkStatRow b (Book.title bk) (ordered_total s b)).
    assert (Hin : r' ∈ l) by (rewrite Hperm; apply elem_of_stats_groups; eauto).
    assert (Hdrop : r' ∈ drop 5 l).
    { rewrite <- (take_drop 5 l) in Hin. apply elem_of_app in Hin as [Hin|]; [|done].
      contradict Hnot. apply list_elem_of_fmap. by exists r'. }
    split.
    + rewrite length_take. apply list_elem_of_lookup_1 in Hdrop as [j Hj].
      apply lookup_lt_Some in Hj. rewrite length_drop in Hj. lia.
    + apply Forall_forall. intros r Hr. exact (Hlt r r' Hr Hdrop).
Qed.

(** ** Theorems *)

(** C40: [GET /api/stats] writes nothing, answers a user who is not an
    admin with the 403, and otherwise returns the titles and the sums of
    rows that meet the SQL meaning of the query: the five (or fewer)
    books with the largest total ordered quantity, by descending total,
    one row per book. *)
Theorem api_stats_spec sess s :
  match api_stats sess s with
  | inr ((labels, values), s') =>
      s' = s /\ exists rows, stats_spec s rows /\
        labels = sr_title <$> rows /\ values = sr_total <$> rows
  | inl e => e = LoginRequired \/ e = Unauthorized
  end.
Proof.
  unfold api_stats, login_required. unfold_st.
  destruct (current_user s sess) as [[uid cu]|]; [cbn|by left].
  destruct (is_role cu "admin"); [cbn|by right].
  split; [done|]. exists (top_rows s). split; [apply top_rows_spec|done].
Qed.

(** The totals of [/api/stats] count canceled orders: cancelling
    an order, by its student or by an admin, leaves the ordered total of
    every book as it was, so the "most ordered" chart does not follow
    cancellations. *)
Lemma cancel_keeps_ordered_total sess order_id s b :
  ordered_total (final (student_cancel_order sess order_id) s) b = ordered_total s b /\
  ordered_total (final (admin_cancel_order sess order_id) s) b = ordered_total s b.
Proof.
  split; apply (final_inv _ _ (fun s' => ordered_total s' b = ordered_total s b)); try done;
    intros u s' Hrun.
  - apply student_cancel_order_run in Hrun as (? & o & ? & ? & _ & Hi & _ & _ & _ & _ & ->).
    unfold ordered_total. simpl. rewrite (map_sum_insert _ _ _ o) by done.
    rewrite order_qty_of_set_status. lia.
  - apply admin_cancel_order_run in Hrun as (? & ? & o & ? & ? & _ & _ & Hi & _ & _ & ->).
    unfold ordered_total. simpl. rewrite (map_sum_insert _ _ _ o) by done.
    rewrite order_qty_of_set_status. lia.
Qed.

(** On [demo_store], TAOCP leads the chart with 9 copies; after an admin
    cancels order 3 (5 of those copies) it still shows 9. *)
Lemma api_stats_cancel_demo :
  api_stats (Some 1%nat) demo_store = inr ((["TAOCP"; "SICP"], [9; 3]%Z), demo_store) /\
  match api_stats (Some 1%nat) (final (admin_cancel_order (Some 1%nat) 3%nat) demo_store) with
  | inr (r, _) => r = (["TAOCP"; "SICP"], [9; 3]%Z)
  | inl _ => False
  end.
Proof. split; vm_compute; reflexivity. Qed.
