(* ===== verification/System.v ===== *)
(** * The application as a transition system

    Each POST route of src/app.py that writes the database is one
    constructor of [request], with the session and the form data it
    reads; [serve] runs the route's handler as one transaction (the
    database after it, rolled back on an error), which is what Flask's
    dispatch of [@app.route] and the per-request session do.  [step] is
    one request of any user; the database evolves by any sequence of
    requests, in any interleaving of users ([rtc step]).  The routes that
    only read ([catalog], [forgot_password]) or only set the session
    ([login]) leave the database as it was.  The whole file is a Section
    over the [Bcrypt] and [TimedSerializer] of [Libraries]: the theorems hold
    for every implementation of them, and the concrete runs at its end
    use the symbolic ones.

    Two invariants are proved by rule induction on the trace:
    - [struct_ok] (every cart line and order names an existing book, one
      cart line per (user, book), unique e-mails) holds after any
      sequence of requests whatsoever;
    - [ledger_ok], [stock_ok] and [holds_ok] (spec section 3) hold after
      any sequence of [admissible] requests: the requests the code serves
      without a check that the spec has, namely an order or cart line of
      fewer than one copy, a new book with a negative total, an admin
      approve or cancel of an order that is no longer active and a book
      edit that changes [total_copies], are the only ones excluded, and
      each of them does break an invariant (the concrete runs of
      [Orders], [Cart] and [Catalog]);
    - along admissible requests the orders refine the state machine of
      spec section 4.3 ([spec_order_step], from the spec): each request
      moves an order by at most one of its transitions ([orders_evolve]),
      so every reached status is reachable in the spec's machine. *)

From S2P Require Import Prelude Model Forms Libraries Ledger Orders Cart Checkout Requests.
From S2P Require Import Catalog Users Recovery Search.

Open Scope bookstore_scope.

Section Application.
Context {bcrypt : Bcrypt} {serializer : TimedSerializer} {sfn : SecureFilename}.

(** ** Requests and their dispatch *)

Inductive request :=
  | RPlaceOrder (sess : option nat) (book_id : nat) (qty : FormInt)
  | REditOrder (sess : option nat) (order_id : nat) (quantity : FormInt)
  | RCancelOrder (sess : option nat) (order_id : nat)
  | RApproveOrder (sess : option nat) (order_id : nat)
  | RAdminCancelOrder (sess : option nat) (order_id : nat)
  | RAddToCart (sess : option nat) (book_id : nat) (qty : FormInt)
  | RRemoveFromCart (sess : option nat) (item_id : nat)
  | RCheckout (sess : option nat) (payment_method : option string)
  | RRequestBook (sess : option nat) (form : RequestBookForm)
  | RApproveRequest (sess : option nat) (request_id : nat)
  | RRejectRequest (sess : option nat) (request_id : nat)
  | RAddBook (sess : option nat) (form : BookForm)
  | REditBook (sess : option nat) (book_id : nat) (form : BookForm)
  | RDeleteBook (sess : option nat) (book_id : nat)
  | RToggleWishlist (sess : option nat) (book_id : nat)
  | RRegister (sess : option nat) (form : RegisterForm) (salt : string)
  | RResetPassword (tok : token) (now : Z) (password : option string) (salt : string)
  | RProfile (sess : option nat) (name : option string) (file : option Upload)
  | REditStudent (sess : option nat) (user_id : nat) (form : StudentForm)
  | RDeleteStudent (sess : option nat) (user_id : nat)
  | RCatalog (sess : option nat) (q : option string).

(** The database after serving one request. *)
Definition serve (r : request) (s : Store) : Store :=
  match r with
  | RPlaceOrder sess b q => final (place_order sess b q) s
  | REditOrder sess o q => final (student_edit_order sess o q) s
  | RCancelOrder sess o => final (student_cancel_order sess o) s
  | RApproveOrder sess o => final (admin_approve_order sess o) s
  | RAdminCancelOrder sess o => final (admin_cancel_order sess o) s
  | RAddToCart sess b q => final (add_to_cart sess b q) s
  | RRemoveFromCart sess i => final (remove_from_cart sess i) s
  | RCheckout sess pm => final (cart_checkout sess pm) s
  | RRequestBook sess f => final (request_book sess f) s
  | RApproveRequest sess i => final (admin_approve_request sess i) s
  | RRejectRequest sess i => final (admin_reject_request sess i) s
  | RAddBook sess f => final (admin_add_book sess f) s
  | REditBook sess b f => final (admin_edit_book sess b f) s
  | RDeleteBook sess b => final (admin_delete_book sess b) s
  | RToggleWishlist sess b => final (toggle_wishlist sess b) s
  | RRegister sess f salt => final (register sess f salt) s
  | RResetPassword tok now p salt => final (reset_password tok now p salt) s
  | RProfile sess n f => final (profile sess n f) s
  | REditStudent sess u f => final (admin_edit_student sess u f) s
  | RDeleteStudent sess u => final (admin_delete_student sess u) s
  | RCatalog sess q => final (catalog sess q) s
  end.

(** The requests the spec allows: orders and cart lines of at least one
    copy (spec section 3), new books with a non-negative total, the admin
    order routes on an active order, and book edits that keep the total. *)
Definition admissible (r : request) (s : Store) : Prop :=
  match r with
  | RPlaceOrder _ _ q | RAddToCart _ _ q => forall n, form_int q 1 = Some n -> 1 <= n
  | RAddBook _ f => forall n, book_form_total f = Some n -> 0 <= n
  | RApproveOrder _ o | RAdminCancelOrder _ o =>
      forall order, orders s !! o = Some order -> active (Order.status order) = true
  | REditBook _ b f =>
      forall book, books s !! b = Some book ->
        Book.total_copies (populate_book (prefill_book_form f book) book) = Book.total_copies book
  | _ => True
  end.

(** One request of any user. *)
Inductive step : Store -> Store -> Prop :=
  | step_serve r s : step s (serve r s).

(** One admissible request. *)
Inductive safe_step : Store -> Store -> Prop :=
  | safe_step_serve r s : admissible r s -> safe_step s (serve r s).

(** The structural invariants of the database. *)
Definition struct_ok (s : Store) : Prop := refs_ok s /\ cart_unique s /\ emails_unique s.

#[export] Instance struct_ok_dec s : Decision (struct_ok s).
Proof. unfold struct_ok. apply _. Defined.

(** ** The structural invariants, route by route *)

(** A request that keeps the users, drops no book, writes no new cart
    line and whose orders name books of the old table keeps [struct_ok]. *)
Lemma struct_ok_frame s s' :
  struct_ok s -> users s' = users s -> carts s' ⊆ carts s ->
  (forall b, is_Some (books s !! b) -> is_Some (books s' !! b)) ->
  map_Forall (fun _ o => order_ref_ok (books s) o) (orders s') ->
  struct_ok s'.
Proof.
  intros [[Hc Ho] [Hu He]] Husers Hsub Hbooks Hord. split; [split|split].
  - intros k c Hk. apply Hbooks, (Hc k c (lookup_weaken _ _ _ _ Hk Hsub)).
  - intros k o Hk. specialize (Hord k o Hk). unfold order_ref_ok in *.
    destruct (Order.book_id o); [by apply Hbooks|done].
  - by apply (map_inj_subseteq _ (carts s)).
  - unfold emails_unique. by rewrite Husers.
Qed.

(** Writing a row drops no row id of the table. *)
Lemma is_Some_insert_mono {A} (m : gmap nat A) i x :
  forall b, is_Some (m !! b) -> is_Some (<[i:=x]> m !! b).
Proof. intros b Hb. rewrite lookup_insert_is_Some'. auto. Qed.

Lemma refs_orders_insert (bs : gmap nat Book.t) (m : gmap nat Order.t) k o :
  map_Forall (fun _ o => order_ref_ok bs o) m -> order_ref_ok bs o ->
  map_Forall (fun _ o => order_ref_ok bs o) (<[k:=o]> m).
Proof. intros Hm Ho. by apply map_Forall_insert_2. Qed.

(** The loop of [cart_checkout] keeps the books and the users, only
    deletes cart lines, and every order it writes is the order of one of
    its lines: a property of all orders that the new orders have still
    holds after it. *)
Lemma checkout_lines_orders (P : nat -> Order.t -> Prop) uid pm items s s' :
  checkout_lines uid pm items s = inr (tt, s') ->
  (forall k cid c, (cid, c) ∈ items -> P k (checkout_order uid pm c)) ->
  map_Forall P (orders s) ->
  books s' = books s /\ users s' = users s /\ carts s' ⊆ carts s /\ map_Forall P (orders s').
Proof.
  revert s. induction items as [|[cid c] rest IH]; intros s Hrun Hin Ho; simpl in Hrun.
  - injection Hrun as <-. done.
  - rewrite (bindS_inr _ _ _ tt _ (checkout_line_ok uid pm cid c s)) in Hrun.
    destruct (IH _ Hrun) as (Hb & Hu & Hc & Ho').
    + intros k cid' c' Hc'. apply (Hin k cid' c'). set_solver.
    + apply map_Forall_insert_2; [|done]. apply (Hin _ cid c). set_solver.
    + split; [done|]. split; [done|]. split; [|exact Ho'].
      etrans; [exact Hc|apply delete_subseteq].
Qed.

(** ** Routes that write none of the inventory tables *)

Definition keeps_tables (s s' : Store) : Prop := same_inventory s s'.

Lemma request_book_keeps sess form s rid s' :
  request_book sess form s = inr (rid, s') -> keeps_tables s s' /\ users s' = users s.
Proof. by intros (? & ? & _ & _ & _ & _ & ->)%request_book_run. Qed.

Lemma admin_approve_request_keeps sess request_id s u s' :
  admin_approve_request sess request_id s = inr (u, s') -> keeps_tables s s' /\ users s' = users s.
Proof.
  intros Hrun. by destruct (admin_request_run _ _ _ _ _ ReqApproved (or_introl (conj Hrun eq_refl)))
    as (? & ? & ? & _ & _ & _ & ->).
Qed.

Lemma admin_reject_request_keeps sess request_id s u s' :
  admin_reject_request sess request_id s = inr (u, s') -> keeps_tables s s' /\ users s' = users s.
Proof.
  intros Hrun. by destruct (admin_request_run _ _ _ _ _ ReqRejected (or_intror (conj Hrun eq_refl)))
    as (? & ? & ? & _ & _ & _ & ->).
Qed.

Lemma toggle_wishlist_keeps sess book_id s u s' :
  toggle_wishlist sess book_id s = inr (u, s') -> keeps_tables s s' /\ users s' = users s.
Proof.
  intros Hrun. unfold toggle_wishlist in Hrun. run_inv.
  case_bool_decide; unfold putS in Hrun; by injection Hrun as <- <-.
Qed.

Lemma register_keeps sess form salt s uid s' :
  register sess form salt s = inr (uid, s') -> keeps_tables s s'.
Proof. by intros (_ & _ & _ & _ & ->)%register_run. Qed.

Lemma reset_password_keeps tok now pw salt s u s' :
  reset_password tok now pw salt s = inr (u, s') -> keeps_tables s s'.
Proof. by intros (? & ? & ? & ? & _ & _ & _ & ->)%reset_password_run. Qed.

Lemma profile_keeps sess name_field file s u s' :
  profile sess name_field file s = inr (u, s') -> keeps_tables s s'.
Proof. by intros (? & ? & ? & _ & _ & _ & ? & ? & ?)%profile_run_users. Qed.
Lemma admin_edit_student_keeps sess user_id form s u s' :
  admin_edit_student sess user_id form s = inr (u, s') -> keeps_tables s s'.
Proof. by intros (? & ? & ? & _ & _ & _ & _ & _ & ->)%admin_edit_student_run. Qed.

Lemma catalog_keeps sess q s r s' :
  catalog sess q s = inr (r, s') -> keeps_tables s s' /\ users s' = users s.
Proof. intros Hrun. unfold catalog in Hrun. run_inv. destruct (String.eqb _ _); by run_inv. Qed.

Lemma ledger_keeps s s' : keeps_tables s s' -> ledger_ok s -> ledger_ok s'.
Proof. intros Hk. by rewrite Hk. Qed.

(** Each route keeps [struct_ok] on success. *)
Section StructSteps.
Context (s : Store) (Hs : struct_ok s).

Local Ltac struct_hyps := pose proof Hs as [[?Hc ?Ho] [?Hu ?He]].

Lemma place_order_struct_step sess book_id qty_field oid s' :
  place_order sess book_id qty_field s = inr (oid, s') -> struct_ok s'.
Proof.
  struct_hyps. intros (? & ? & ? & bk & _ & _ & _ & Hb & _ & -> & ->)%place_order_run.
  apply (struct_ok_frame s); try done; [apply is_Some_insert_mono|].
  apply refs_orders_insert; [done|]. unfold order_ref_ok. simpl. by rewrite Hb.
Qed.

Lemma student_edit_order_struct_step sess order_id quantity_field u s' :
  student_edit_order sess order_id quantity_field s = inr (u, s') -> struct_ok s'.
Proof.
  struct_hyps.
  intros (? & o & ? & b & bk & _ & Hk & _ & _ & _ & _ & _ & _ & ->)%student_edit_order_run.
  apply (struct_ok_frame s); try done; [apply is_Some_insert_mono|].
  apply refs_orders_insert; [done|]. exact (Ho _ o Hk).
Qed.

Lemma student_cancel_order_struct_step sess order_id u s' :
  student_cancel_order sess order_id s = inr (u, s') -> struct_ok s'.
Proof.
  struct_hyps. intros (? & o & b & bk & _ & Hk & _ & _ & _ & _ & ->)%student_cancel_order_run.
  apply (struct_ok_frame s); try done; [apply is_Some_insert_mono|].
  apply refs_orders_insert; [done|]. exact (Ho _ o Hk).
Qed.

Lemma admin_approve_order_struct_step sess order_id u s' :
  admin_approve_order sess order_id s = inr (u, s') -> struct_ok s'.
Proof.
  struct_hyps. intros (? & ? & o & _ & _ & Hk & ->)%admin_approve_order_run.
  apply (struct_ok_frame s); try done.
  apply refs_orders_insert; [done|]. exact (Ho _ o Hk).
Qed.

Lemma admin_cancel_order_struct_step sess order_id u s' :
  admin_cancel_order sess order_id s = inr (u, s') -> struct_ok s'.
Proof.
  struct_hyps. intros (? & ? & o & b & bk & _ & _ & Hk & _ & _ & ->)%admin_cancel_order_run.
  apply (struct_ok_frame s); try done; [apply is_Some_insert_mono|].
  apply refs_orders_insert; [done|]. exact (Ho _ o Hk).
Qed.

Lemma add_to_cart_struct_step sess book_id qty_field u s' :
  add_to_cart sess book_id qty_field s = inr (u, s') -> struct_ok s'.
Proof.
  struct_hyps. intros Hrun. pose proof (add_to_cart_unique_step _ _ _ _ _ _ Hrun Hu) as Hu'.
  apply add_to_cart_run in Hrun as (uid & ? & q & bk & _ & _ & Hb & _ & Hs').
  cbv zeta in Hs'. split; [split|split; [done|]].
  - destruct (first_cart_item s uid book_id) as [[cid c]|] eqn:Hf; subst s'; simpl;
      (apply map_Forall_insert_2; [|intros k c' Hk; apply is_Some_insert_mono, (Hc k c' Hk)]);
      simpl; rewrite ?lookup_insert_is_Some'; auto.
    apply first_cart_item_Some in Hf as (_ & _ & ->). auto.
  - destruct (first_cart_item s uid book_id) as [[cid c]|]; subst s'; simpl;
      intros k o Hk; specialize (Ho k o Hk); unfold order_ref_ok in *;
      (destruct (Order.book_id o); [by apply is_Some_insert_mono|done]).
  - destruct (first_cart_item s uid book_id) as [[cid c]|]; by subst s'.
Qed.

Lemma remove_from_cart_struct_step sess item_id u s' :
  remove_from_cart sess item_id s = inr (u, s') -> struct_ok s'.
Proof.
  intros (? & c & bk & _ & _ & _ & _ & ->)%remove_from_cart_run.
  apply (struct_ok_frame s); try done; [apply delete_subseteq|apply is_Some_insert_mono|].
  apply Hs.
Qed.

Lemma cart_checkout_struct_step sess pmf u s' :
  cart_checkout sess pmf s = inr (u, s') -> struct_ok s'.
Proof.
  struct_hyps. intros (uid & ? & _ & _ & Hrun)%cart_checkout_run.
  destruct (checkout_lines_orders (fun _ => order_ref_ok (books s)) _ _ _ _ _ Hrun)
    as (Hb & Hus & Hsub & Hord); [|done|].
  - intros _ cid c (Hk & _)%user_cart_items_elem. exact (Hc cid c Hk).
  - apply (struct_ok_frame s); try done. intros b. by rewrite Hb.
Qed.

Lemma admin_add_book_struct_step sess form bid s' :
  admin_add_book sess form s = inr (bid, s') -> struct_ok s'.
Proof.
  intros (? & ? & _ & _ & _ & -> & ->)%admin_add_book_run.
  apply (struct_ok_frame s); try done; [apply is_Some_insert_mono|apply Hs].
Qed.

Lemma admin_edit_book_struct_step sess book_id form u s' :
  admin_edit_book sess book_id form s = inr (u, s') -> struct_ok s'.
Proof.
  intros (? & ? & bk & _ & _ & _ & _ & ->)%admin_edit_book_run.
  apply (struct_ok_frame s); try done; [apply is_Some_insert_mono|apply Hs].
Qed.

Lemma admin_delete_book_struct_step sess book_id u s' :
  admin_delete_book sess book_id s = inr (u, s') -> struct_ok s'.
Proof.
  struct_hyps. intros Hrun. pose proof (admin_delete_book_refs_step _ _ _ _ _ Hrun (conj Hc Ho)).
  by apply admin_delete_book_run in Hrun as (? & ? & ? & _ & _ & _ & _ & ->).
Qed.

Lemma admin_delete_student_struct_step sess user_id u s' :
  admin_delete_student sess user_id s = inr (u, s') -> struct_ok s'.
Proof.
  struct_hyps. intros Hrun. pose proof (admin_delete_student_emails_step _ _ _ _ _ Hrun He).
  apply admin_delete_student_run in Hrun as (? & ? & ? & _ & _ & _ & _ & _ & ->).
  split; [split|split]; try done. simpl. intros k o' Hk.
  rewrite lookup_fmap in Hk. destruct (orders s !! k) as [o|] eqn:Hk'; simplify_eq/=.
  unfold unlink_user. case_bool_decide; exact (Ho k o Hk').
Qed.

(** The routes that write only requests, the wishlist or a user row. *)
Lemma struct_ok_keeps s' : keeps_tables s s' -> emails_unique s' -> struct_ok s'.
Proof.
  intros Hk He'. split; [|split; [|done]]; rewrite <- Hk; apply Hs.
Qed.
Lemma struct_ok_keeps_users s' : keeps_tables s s' /\ users s' = users s -> struct_ok s'.
Proof.
  intros [Hk Hu']. apply struct_ok_keeps; [done|]. unfold emails_unique. rewrite Hu'. apply Hs.
Qed.
End StructSteps.

Lemma serve_struct_ok r s : struct_ok s -> struct_ok (serve r s).
Proof.
  intros Hs. pose proof Hs as (_ & _ & He).
  destruct r; simpl; apply (final_inv _ _ struct_ok); try done; intros u s' Hrun.
  - by eapply place_order_struct_step.
  - by eapply student_edit_order_struct_step.
  - by eapply student_cancel_order_struct_step.
  - by eapply admin_approve_order_struct_step.
  - by eapply admin_cancel_order_struct_step.
  - by eapply add_to_cart_struct_step.
  - by eapply remove_from_cart_struct_step.
  - by eapply cart_checkout_struct_step.
  - by eapply struct_ok_keeps_users, request_book_keeps.
  - by eapply struct_ok_keeps_users, admin_approve_request_keeps.
  - by eapply struct_ok_keeps_users, admin_reject_request_keeps.
  - by eapply admin_add_book_struct_step.
  - by eapply admin_edit_book_struct_step.
  - by eapply admin_delete_book_struct_step.
  - by eapply struct_ok_keeps_users, toggle_wishlist_keeps.
  - eapply struct_ok_keeps; [done|by eapply register_keeps|by eapply register_emails_step].
  - eapply struct_ok_keeps; [done|by eapply reset_password_keeps|].
    by eapply reset_password_emails_step.
  - eapply struct_ok_keeps; [done|by eapply profile_keeps|by eapply profile_emails_step].
  - eapply struct_ok_keeps; [done|by eapply admin_edit_student_keeps|].
    by eapply admin_edit_student_emails_step.
  - by eapply admin_delete_student_struct_step.
  - by eapply struct_ok_keeps_users, catalog_keeps.
Qed.

(** Close an invariant of [s'] with its frame lemma [K] for a route that
    keeps the inventory tables. *)
Local Ltac keeps K L :=
  match goal with
  | Hrun : _ = inr _ |- _ =>
      eapply K; [first [eapply L; exact Hrun | eapply proj1, L; exact Hrun]|..]
  end.

Lemma serve_ledger_ok r s :
  admissible r s -> struct_ok s -> ledger_ok s -> ledger_ok (serve r s).
Proof.
  intros Hadm [Hr _] Hok.
  destruct r; simpl in *; apply (final_inv _ _ ledger_ok); try done; intros u s' Hrun.
  - by eapply place_order_ledger_step.
  - by eapply student_edit_order_ledger_step.
  - by eapply student_cancel_order_ledger_step.
  - by eapply admin_approve_order_ledger_step.
  - by eapply admin_cancel_order_ledger_step.
  - by eapply add_to_cart_ledger_step.
  - by eapply remove_from_cart_ledger_step.
  - by eapply cart_checkout_ledger_step.
  - by keeps ledger_keeps request_book_keeps.
  - by keeps ledger_keeps admin_approve_request_keeps.
  - by keeps ledger_keeps admin_reject_request_keeps.
  - by eapply admin_add_book_ledger_step.
  - by eapply admin_edit_book_ledger_step.
  - by eapply admin_delete_book_ledger_step.
  - by keeps ledger_keeps toggle_wishlist_keeps.
  - by keeps ledger_keeps register_keeps.
  - by keeps ledger_keeps reset_password_keeps.
  - by keeps ledger_keeps profile_keeps.
  - by keeps ledger_keeps admin_edit_student_keeps.
  - by eapply admin_delete_student_ledger_step.
  - by keeps ledger_keeps catalog_keeps.
Qed.

(** ** The bounds of spec section 3, route by route *)

(** [0 <= available_copies <= total_copies] and quantities of at least 1. *)
Definition bounds_ok (s : Store) : Prop := stock_ok s /\ holds_ok s.

#[export] Instance bounds_ok_dec s : Decision (bounds_ok s).
Proof. unfold bounds_ok. apply _. Defined.

(** Writing one order of quantity at least 1 keeps [holds_ok]. *)
Lemma holds_insert_order s i o :
  holds_ok s -> 1 <= Order.quantity o ->
  map_Forall (fun _ o => 1 <= Order.quantity o) (<[i:=o]> (orders s)).
Proof. intros [_ Ho] Hq. by apply map_Forall_insert_2. Qed.

Lemma holds_insert_cart s i c :
  holds_ok s -> 1 <= Cart.quantity c ->
  map_Forall (fun _ c => 1 <= Cart.quantity c) (<[i:=c]> (carts s)).
Proof. intros [Hc _] Hq. by apply map_Forall_insert_2. Qed.

Lemma bounds_keeps s s' : keeps_tables s s' -> bounds_ok s -> bounds_ok s'.
Proof. intros Hk. unfold bounds_ok. by rewrite Hk. Qed.
Section BoundsSteps.
Context (s : Store) (Hl : ledger_ok s) (Hst : stock_ok s) (Hh : holds_ok s).

(** An active order holds between 1 and all of the reserved copies. *)
Lemma active_order_hold i o b :
  orders s !! i = Some o -> Order.book_id o = Some b -> active (Order.status o) = true ->
  1 <= Order.quantity o <= reserved s b.
Proof.
  intros Hi Hb Ha. pose proof (order_hold_le_reserved s b i o Hh Hi) as Hr.
  rewrite order_hold_same in Hr by done. split; [exact (proj2 Hh i o Hi)|exact Hr].
Qed.

Lemma place_order_bounds_step sess book_id qty_field oid s' :
  (forall n, form_int qty_field 1 = Some n -> 1 <= n) ->
  place_order sess book_id qty_field s = inr (oid, s') -> bounds_ok s'.
Proof.
  intros Hq (? & ? & q & bk & _ & _ & Hf & Hb & Hle & -> & ->)%place_order_run.
  specialize (Hq q Hf). pose proof (Hst _ _ Hb). simpl in *. split.
  - eapply (stock_ok_one_book s); [done|reflexivity|lia].
  - split; [apply Hh|]. apply holds_insert_order; [done|simpl; lia].
Qed.

Lemma student_edit_order_bounds_step sess order_id quantity_field u s' :
  student_edit_order sess order_id quantity_field s = inr (u, s') -> bounds_ok s'.
Proof.
  intros (? & o & q & b & bk & _ & Hi & _ & Hp & _ & Hob & Hb & Hq & ->)%student_edit_order_run.
  pose proof (active_order_hold order_id o b Hi Hob ltac:(by rewrite Hp)).
  pose proof (Hl _ _ Hb). pose proof (Hst _ _ Hb). simpl in *. split.
  - eapply (stock_ok_one_book s); [done|reflexivity|lia].
  - split; [apply Hh|]. apply holds_insert_order; [done|simpl; lia].
Qed.

(** Cancelling an active order: its copies go back to the shelf. *)
Lemma cancel_bounds s' order_id o b bk :
  orders s !! order_id = Some o -> Order.book_id o = Some b -> active (Order.status o) = true ->
  books s !! b = Some bk ->
  books s' = <[b:=return_copies bk (Order.quantity o)]> (books s) ->
  orders s' = <[order_id:=Order.set_status o Canceled]> (orders s) -> carts s' = carts s ->
  bounds_ok s'.
Proof.
  intros Hi Hob Ha Hb Hbooks Hord Hcarts.
  pose proof (active_order_hold order_id o b Hi Hob Ha). split.
  - apply (stock_return s s' b bk (Order.quantity o)); [done|done|exact Hb|lia|lia|exact Hbooks].
  - unfold holds_ok. rewrite Hord, Hcarts. split; [apply Hh|].
    apply holds_insert_order; [done|simpl; lia].
Qed.

Lemma student_cancel_order_bounds_step sess order_id u s' :
  student_cancel_order sess order_id s = inr (u, s') -> bounds_ok s'.
Proof.
  intros (? & o & b & bk & _ & Hi & _ & Hp & Hob & Hb & ->)%student_cancel_order_run.
  by apply (cancel_bounds _ order_id o b bk); [| |rewrite Hp|..].
Qed.

Lemma admin_cancel_order_bounds_step sess order_id u s' :
  (forall o, orders s !! order_id = Some o -> active (Order.status o) = true) ->
  admin_cancel_order sess order_id s = inr (u, s') -> bounds_ok s'.
Proof.
  intros Hadm (? & ? & o & b & bk & _ & _ & Hi & Hob & Hb & ->)%admin_cancel_order_run.
  by apply (cancel_bounds _ order_id o b bk); [| |apply Hadm|..].
Qed.

Lemma admin_approve_order_bounds_step sess order_id u s' :
  admin_approve_order sess order_id s = inr (u, s') -> bounds_ok s'.
Proof.
  intros (? & ? & o & _ & _ & Hi & ->)%admin_approve_order_run. split; [done|].
  split; [apply Hh|]. apply holds_insert_order; [done|exact (proj2 Hh _ _ Hi)].
Qed.

Lemma add_to_cart_bounds_step sess book_id qty_field u s' :
  (forall n, form_int qty_field 1 = Some n -> 1 <= n) ->
  add_to_cart sess book_id qty_field s = inr (u, s') -> bounds_ok s'.
Proof.
  intros Hq (uid & ? & q & bk & _ & Hf & Hb & Hle & Hs')%add_to_cart_run.
  specialize (Hq q Hf). pose proof (Hst _ _ Hb). cbv zeta in Hs'. simpl in *.
  destruct (first_cart_item s uid book_id) as [[cid c]|] eqn:Hfc; subst s'; split;
    try (eapply (stock_ok_one_book s); [done|reflexivity|lia]); split; try apply Hh.
  - apply first_cart_item_Some in Hfc as (Hk & _). pose proof (proj1 Hh _ _ Hk).
    apply holds_insert_cart; [done|cbn in *; lia].
  - apply holds_insert_cart; [done|simpl; lia].
Qed.

Lemma remove_from_cart_bounds_step sess item_id u s' :
  remove_from_cart sess item_id s = inr (u, s') -> bounds_ok s'.
Proof.
  intros (? & c & bk & _ & Hi & _ & Hb & ->)%remove_from_cart_run.
  pose proof (cart_hold_le_reserved s (Cart.book_id c) item_id c Hh Hi) as Hr.
  rewrite cart_hold_same in Hr by done. pose proof (proj1 Hh _ _ Hi). simpl in *. split.
  - apply (stock_return s _ (Cart.book_id c) bk (Cart.quantity c)); [done|done|done|lia|lia|done].
  - split; [apply map_Forall_delete, Hh|apply Hh].
Qed.

Lemma cart_checkout_bounds_step sess pmf u s' :
  cart_checkout sess pmf s = inr (u, s') -> bounds_ok s'.
Proof.
  intros (uid & ? & _ & _ & Hrun)%cart_checkout_run.
  destruct (checkout_lines_orders (fun _ o => 1 <= Order.quantity o) _ _ _ _ _ Hrun)
    as (Hb & _ & Hsub & Hord); [|apply Hh|].
  - intros _ cid c (Hk & _)%user_cart_items_elem. exact (proj1 Hh cid c Hk).
  - split; [by eapply stock_ok_ext|]. split; [|exact Hord].
    intros k c Hk. exact (proj1 Hh k c (lookup_weaken _ _ _ _ Hk Hsub)).
Qed.

Lemma admin_add_book_bounds_step sess form bid s' :
  (forall n, book_form_total form = Some n -> 0 <= n) ->
  admin_add_book sess form s = inr (bid, s') -> bounds_ok s'.
Proof.
  intros Hpos (? & ? & _ & _ & _ & -> & ->)%admin_add_book_run. split; [|apply Hh].
  apply map_Forall_insert_2; [|apply Hst]. unfold new_book, int_or. cbn.
  destruct (book_form_total form) as [n|]; [specialize (Hpos n eq_refl)|]; cbn;
    [destruct (n =? 0)|]; lia.
Qed.

Lemma admin_edit_book_bounds_step sess book_id form u s' :
  (forall book, books s !! book_id = Some book ->
     Book.total_copies (populate_book (prefill_book_form form book) book) =
     Book.total_copies book) ->
  admin_edit_book sess book_id form s = inr (u, s') -> bounds_ok s'.
Proof.
  intros Hadm (? & ? & bk & _ & _ & Hb & _ & ->)%admin_edit_book_run. split; [|apply Hh].
  specialize (Hadm bk Hb). pose proof (Hst _ _ Hb).
  apply map_Forall_insert_2; [|apply Hst]. simpl in *. lia.
Qed.

(** Unlinking orders keeps their quantities. *)
Lemma holds_fmap_orders (f : Order.t -> Order.t) :
  (forall o, Order.quantity (f o) = Order.quantity o) ->
  map_Forall (fun _ o => 1 <= Order.quantity o) (f <$> orders s).
Proof.
  intros Hf k o Hk. rewrite lookup_fmap in Hk.
  destruct (orders s !! k) as [o0|] eqn:Hk0; simplify_eq/=. rewrite Hf. exact (proj2 Hh k o0 Hk0).
Qed.

Lemma admin_delete_book_bounds_step sess book_id u s' :
  admin_delete_book sess book_id s = inr (u, s') -> bounds_ok s'.
Proof.
  intros (? & ? & ? & _ & _ & _ & _ & ->)%admin_delete_book_run.
  split; [apply map_Forall_delete, Hst|]. split; [apply Hh|].
  apply holds_fmap_orders. intros o. unfold unlink_book. by case_bool_decide.
Qed.

Lemma admin_delete_student_bounds_step sess user_id u s' :
  admin_delete_student sess user_id s = inr (u, s') -> bounds_ok s'.
Proof.
  intros (? & ? & ? & _ & _ & _ & _ & _ & ->)%admin_delete_student_run.
  split; [done|]. split; [apply Hh|].
  apply holds_fmap_orders. intros o. unfold unlink_user. by case_bool_decide.
Qed.
End BoundsSteps.

Lemma serve_bounds_ok r s :
  admissible r s -> ledger_ok s -> bounds_ok s -> bounds_ok (serve r s).
Proof.
  intros Hadm Hl Hb. pose proof Hb as [Hst Hh].
  destruct r; simpl in *; apply (final_inv _ _ bounds_ok); try done; intros u s' Hrun.
  - by eapply place_order_bounds_step.
  - by eapply student_edit_order_bounds_step.
  - by eapply student_cancel_order_bounds_step.
  - by eapply admin_approve_order_bounds_step.
  - by eapply admin_cancel_order_bounds_step.
  - by eapply add_to_cart_bounds_step.
  - by eapply remove_from_cart_bounds_step.
  - by eapply cart_checkout_bounds_step.
  - by keeps bounds_keeps request_book_keeps.
  - by keeps bounds_keeps admin_approve_request_keeps.
  - by keeps bounds_keeps admin_reject_request_keeps.
  - by eapply admin_add_book_bounds_step.
  - eapply admin_edit_book_bounds_step; [done..| |exact Hrun]. exact Hadm.
  - by eapply admin_delete_book_bounds_step.
  - by keeps bounds_keeps toggle_wishlist_keeps.
  - by keeps bounds_keeps register_keeps.
  - by keeps bounds_keeps reset_password_keeps.
  - by keeps bounds_keeps profile_keeps.
  - by keeps bounds_keeps admin_edit_student_keeps.
  - by eapply admin_delete_student_bounds_step.
  - by keeps bounds_keeps catalog_keeps.
Qed.

(** ** The order state machine of spec section 4.3 *)

(** The transitions of spec section 4.3 (modelled from the spec):
    approve a pending order, cancel a pending or an approved one (an
    edit keeps the order pending). *)
Inductive spec_order_step : OrderStatus -> OrderStatus -> Prop :=
  | spec_approve : spec_order_step Pending Approved
  | spec_cancel_pending : spec_order_step Pending Canceled
  | spec_cancel_approved : spec_order_step Approved Canceled.

(** What one request may do to the orders: every order stays, with its
    status unchanged or moved by one transition of the spec, and a new
    order is pending. *)
Definition orders_evolve (s s' : Store) : Prop :=
  (forall i o, orders s !! i = Some o -> exists o', orders s' !! i = Some o' /\
     (Order.status o' = Order.status o \/ spec_order_step (Order.status o) (Order.status o'))) /\
  (forall i o', orders s !! i = None -> orders s' !! i = Some o' -> Order.status o' = Pending).

Lemma evolve_same s s' : orders s' = orders s -> orders_evolve s s'.
Proof.
  intros Ho. unfold orders_evolve. rewrite Ho. split; [|congruence].
  intros i o Hi. exists o. auto.
Qed.

Lemma evolve_keeps s s' : keeps_tables s s' -> orders_evolve s s'.
Proof. intros (_ & Ho & _). by apply evolve_same. Qed.

Lemma evolve_insert s s' k o' :
  orders s' = <[k:=o']> (orders s) ->
  (forall o, orders s !! k = Some o ->
     Order.status o' = Order.status o \/ spec_order_step (Order.status o) (Order.status o')) ->
  (orders s !! k = None -> Order.status o' = Pending) ->
  orders_evolve s s'.
Proof.
  intros Ho Hex Hnew. unfold orders_evolve. rewrite Ho. split.
  - intros i o Hi. destruct (decide (i = k)) as [->|Hne].
    + exists o'. rewrite lookup_insert_eq. auto.
    + exists o. rewrite lookup_insert_ne by congruence. auto.
  - intros i o'' Hi Hs. destruct (decide (i = k)) as [->|Hne].
    + rewrite lookup_insert_eq in Hs. injection Hs as <-. auto.
    + rewrite lookup_insert_ne in Hs by congruence. congruence.
Qed.

Lemma evolve_fmap s s' (f : Order.t -> Order.t) :
  orders s' = f <$> orders s -> (forall o, Order.status (f o) = Order.status o) ->
  orders_evolve s s'.
Proof.
  intros Ho Hf. unfold orders_evolve. rewrite Ho. split.
  - intros i o Hi. exists (f o). rewrite lookup_fmap, Hi. auto.
  - intros i o' Hi Hs. rewrite lookup_fmap, Hi in Hs. discriminate.
Qed.

(** An active order moves to [Approved] or [Canceled] by the spec's
    steps, or stays. *)
Lemma active_moves st st' :
  active st = true -> st' = Approved \/ st' = Canceled ->
  st' = st \/ spec_order_step st st'.
Proof. destruct st; simpl; try discriminate; intros _ [-> | ->]; auto using spec_order_step. Qed.

Section OrderSteps.
Context (s : Store).

Lemma place_order_evolve sess book_id qty_field oid s' :
  place_order sess book_id qty_field s = inr (oid, s') -> orders_evolve s s'.
Proof.
  intros (? & ? & ? & ? & _ & _ & _ & _ & _ & -> & ->)%place_order_run.
  eapply evolve_insert; [reflexivity| |done]. intros o Ho. by rewrite next_key_fresh in Ho.
Qed.

Lemma student_edit_order_evolve sess order_id quantity_field u s' :
  student_edit_order sess order_id quantity_field s = inr (u, s') -> orders_evolve s s'.
Proof.
  intros (? & o & ? & ? & ? & _ & Hk & _ & _ & _ & _ & _ & _ & ->)%student_edit_order_run.
  eapply evolve_insert; [reflexivity| |by rewrite Hk].
  intros o1 Ho1. rewrite Hk in Ho1. injection Ho1 as <-. by left.
Qed.

Lemma student_cancel_order_evolve sess order_id u s' :
  student_cancel_order sess order_id s = inr (u, s') -> orders_evolve s s'.
Proof.
  intros (? & o & ? & ? & _ & Hk & _ & Hp & _ & _ & ->)%student_cancel_order_run.
  eapply evolve_insert; [reflexivity| |by rewrite Hk].
  intros o1 Ho1. rewrite Hk in Ho1. injection Ho1 as <-. apply active_moves; [by rewrite Hp|auto].
Qed.

Lemma admin_approve_order_evolve sess order_id u s' :
  (forall o, orders s !! order_id = Some o -> active (Order.status o) = true) ->
  admin_approve_order sess order_id s = inr (u, s') -> orders_evolve s s'.
Proof.
  intros Hadm (? & ? & o & _ & _ & Hk & ->)%admin_approve_order_run.
  eapply evolve_insert; [reflexivity| |by rewrite Hk].
  intros o1 Ho1. rewrite Hk in Ho1. injection Ho1 as <-. apply active_moves; [by apply Hadm|auto].
Qed.

Lemma admin_cancel_order_evolve sess order_id u s' :
  (forall o, orders s !! order_id = Some o -> active (Order.status o) = true) ->
  admin_cancel_order sess order_id s = inr (u, s') -> orders_evolve s s'.
Proof.
  intros Hadm (? & ? & o & ? & ? & _ & _ & Hk & _ & _ & ->)%admin_cancel_order_run.
  eapply evolve_insert; [reflexivity| |by rewrite Hk].
  intros o1 Ho1. rewrite Hk in Ho1. injection Ho1 as <-. apply active_moves; [by apply Hadm|auto].
Qed.

Lemma add_to_cart_evolve sess book_id qty_field u s' :
  add_to_cart sess book_id qty_field s = inr (u, s') -> orders_evolve s s'.
Proof.
  intros (uid & ? & ? & ? & _ & _ & _ & _ & Hs')%add_to_cart_run. cbv zeta in Hs'.
  apply evolve_same. by destruct (first_cart_item s uid book_id) as [[? ?]|]; subst s'.
Qed.

Lemma cart_checkout_evolve sess pmf u s' :
  cart_checkout sess pmf s = inr (u, s') -> orders_evolve s s'.
Proof.
  intros (uid & ? & _ & _ & Hrun)%cart_checkout_run.
  destruct (checkout_user_lines uid (form_str pmf "mock") s)
    as (s'' & Hrun' & _ & _ & _ & _ & Hsub & _).
  rewrite Hrun in Hrun'. injection Hrun' as <-.
  destruct (checkout_lines_orders
              (fun k o => orders s !! k = Some o \/ Order.status o = Pending) _ _ _ _ _ Hrun)
    as (_ & _ & _ & Hord); [auto|intros k o; auto|].
  split.
  - intros i o Hi. exists o. split; [exact (lookup_weaken _ _ _ _ Hi Hsub)|auto].
  - intros i o' Hn Hs. by destruct (Hord i o' Hs) as [Hi|Hp]; [congruence|].
Qed.
End OrderSteps.

Lemma serve_orders_evolve r s : admissible r s -> orders_evolve s (serve r s).
Proof.
  intros Hadm. assert (Hrefl : orders_evolve s s) by by apply evolve_same.
  destruct r; simpl in *; apply (final_inv _ _ (orders_evolve s)); try done; intros u s' Hrun.
  - by eapply place_order_evolve.
  - by eapply student_edit_order_evolve.
  - by eapply student_cancel_order_evolve.
  - by eapply admin_approve_order_evolve.
  - by eapply admin_cancel_order_evolve.
  - by eapply add_to_cart_evolve.
  - apply evolve_same. by apply remove_from_cart_run in Hrun as (? & ? & ? & _ & _ & _ & _ & ->).
  - by eapply cart_checkout_evolve.
  - by keeps evolve_keeps request_book_keeps.
  - by keeps evolve_keeps admin_approve_request_keeps.
  - by keeps evolve_keeps admin_reject_request_keeps.
  - apply evolve_same. by apply admin_add_book_run in Hrun as (? & ? & _ & _ & _ & _ & ->).
  - apply evolve_same. by apply admin_edit_book_run in Hrun as (? & ? & ? & _ & _ & _ & _ & ->).
  - apply admin_delete_book_run in Hrun as (? & ? & ? & _ & _ & _ & _ & ->).
    eapply evolve_fmap; [reflexivity|]. intros o. unfold unlink_book. by case_bool_decide.
  - by keeps evolve_keeps toggle_wishlist_keeps.
  - by keeps evolve_keeps register_keeps.
  - by keeps evolve_keeps reset_password_keeps.
  - by keeps evolve_keeps profile_keeps.
  - by keeps evolve_keeps admin_edit_student_keeps.
  - apply admin_delete_student_run in Hrun as (? & ? & ? & _ & _ & _ & _ & _ & ->).
    eapply evolve_fmap; [reflexivity|]. intros o. unfold unlink_user. by case_bool_decide.
  - by keeps evolve_keeps catalog_keeps.
Qed.

(** The statuses an order of [s0] can have reached in [s]. *)
Definition lifecycle (s0 s : Store) : Prop :=
  (forall i o, orders s0 !! i = Some o ->
     exists o', orders s !! i = Some o' /\
       rtc spec_order_step (Order.status o) (Order.status o')) /\
  (forall i o', orders s0 !! i = None -> orders s !! i = Some o' ->
     rtc spec_order_step Pending (Order.status o')).

Lemma lifecycle_step s0 s1 s2 : lifecycle s0 s1 -> orders_evolve s1 s2 -> lifecycle s0 s2.
Proof.
  intros [L1 L2] [E1 E2]. split.
  - intros i o Hi. destruct (L1 i o Hi) as (o1 & H1 & R1).
    destruct (E1 i o1 H1) as (o2 & H2 & [M|M]); exists o2; split; try done.
    + by rewrite M.
    + by eapply rtc_r.
  - intros i o2 Hn H2. destruct (orders s1 !! i) as [o1|] eqn:H1.
    + destruct (E1 i o1 H1) as (o2' & H2' & M). rewrite H2 in H2'. injection H2' as <-.
      pose proof (L2 i o1 Hn H1) as R1. destruct M as [M|M]; [by rewrite M|by eapply rtc_r].
    + rewrite (E2 i o2 H1 H2). apply rtc_refl.
Qed.

(** ** Reachable states *)

(** C11: whatever requests the users send, in whatever order, every cart
    line and every order keeps naming an existing book (or none), a user
    has at most one cart line per book, and no two users share an
    e-mail. *)
Theorem reachable_struct_ok s0 s : struct_ok s0 -> rtc step s0 s -> struct_ok s.
Proof.
  intros H0 Hrtc. induction Hrtc as [s|s1 s2 s3 Hstep _ IH]; [done|].
  apply IH. destruct Hstep. by apply serve_struct_ok.
Qed.


(** C12: along any sequence of admissible requests (every request but
    an order or cart line of fewer than one copy, a new book with a
    negative total, an admin approve or cancel of an order that is no
    longer active and a book edit that changes the total), the three
    invariants of spec section 3 hold in every reached state: the ledger
    [available_copies + reserved = total_copies] for every book,
    [0 <= available_copies <= total_copies], and every cart line and
    order of at least one copy; referential integrity and unique keys
    hold with them. *)
Theorem safe_reachable_invariants s0 s :
  ledger_ok s0 -> bounds_ok s0 -> struct_ok s0 -> rtc safe_step s0 s ->
  ledger_ok s /\ bounds_ok s /\ struct_ok s.
Proof.
  intros Hl0 Hb0 Hs0 Hrtc. induction Hrtc as [s|s1 s2 s3 Hstep _ IH]; [done|].
  destruct Hstep as [r s1 Hadm]. apply IH.
  - by apply serve_ledger_ok.
  - by apply serve_bounds_ok.
  - by apply serve_struct_ok.
Qed.
(** C13: along any sequence of admissible requests every order follows
    the state machine of spec section 4.3: an order that existed stays,
    and its status has moved only by approving a pending order or
    cancelling a pending or an approved one; an order made on the way was
    made pending and has moved the same way.  In particular a canceled
    order stays canceled, which the code alone does not ensure
    ([admin_approve_order_revives_canceled]). *)
Theorem safe_reachable_order_lifecycle s0 s :
  rtc safe_step s0 s ->
  (forall i o, orders s0 !! i = Some o ->
     exists o', orders s !! i = Some o' /\
       rtc spec_order_step (Order.status o) (Order.status o')) /\
  (forall i o', orders s0 !! i = None -> orders s !! i = Some o' ->
     rtc spec_order_step Pending (Order.status o')).
Proof.
  intros Hrtc. change (lifecycle s0 s).
  apply (rtc_ind_r (R := safe_step) (fun s => lifecycle s0 s) s0);
    [|intros s1 s2 _ Hstep IH|exact Hrtc].
  - split; [|congruence]. intros i o Hi. exists o. split; [done|apply rtc_refl].
  - destruct Hstep as [r s1 Hadm]. eapply lifecycle_step; [exact IH|]. by apply serve_orders_evolve.
Qed.
End Application.

(** ** Concrete runs, with the symbolic bcrypt and serializer *)

#[local] Existing Instance sym_bcrypt.
#[local] Existing Instance sym_serializer.
#[local] Existing Instance sym_secure_filename.

Lemma reachable_struct_ok_witness :
  struct_ok demo_store /\
  struct_ok (serve (RDeleteBook (Some 1%nat) 2%nat)
               (serve (RPlaceOrder (Some 3%nat) 2%nat (IntLit 1)) demo_store)).
Proof.
  assert (H0 : struct_ok demo_store) by decide_by_eval. split; [exact H0|].
  apply (reachable_struct_ok demo_store); [exact H0|].
  eapply rtc_l; [apply step_serve|]. eapply rtc_l; [apply step_serve|]. apply rtc_refl.
Defined.

Lemma safe_reachable_invariants_witness :
  let s1 := serve (RAddToCart (Some 3%nat) 1%nat (IntLit 2)) demo_store in
  let s2 := serve (RCheckout (Some 3%nat) (Some "card")) s1 in
  ledger_ok demo_store /\ bounds_ok demo_store /\ struct_ok demo_store /\
  ledger_ok s2 /\ bounds_ok s2 /\ struct_ok s2.
Proof.
  intros s1 s2.
  assert (Hl : ledger_ok demo_store) by decide_by_eval.
  assert (Hb : bounds_ok demo_store) by decide_by_eval.
  assert (Hs : struct_ok demo_store) by decide_by_eval.
  split; [exact Hl|]. split; [exact Hb|]. split; [exact Hs|].
  apply (safe_reachable_invariants demo_store); [exact Hl|exact Hb|exact Hs|].
  apply (rtc_l _ _ s1).
  { apply safe_step_serve. intros n Hn. vm_compute in Hn. injection Hn as <-. lia. }
  apply (rtc_l _ _ s2); [by apply safe_step_serve|]. apply rtc_refl.
Defined.

(** Witness of C13: Bob orders a copy of book 1 and cancels it, and the
    admin approves order 1. *)
Lemma safe_reachable_order_lifecycle_witness :
  let s1 := serve (RPlaceOrder (Some 3%nat) 1%nat (IntLit 1)) demo_store in
  let s2 := serve (RCancelOrder (Some 3%nat) 4%nat) s1 in
  let s3 := serve (RApproveOrder (Some 1%nat) 1%nat) s2 in
  fmap Order.status (orders s3 !! 4%nat) = Some Canceled /\
  (forall i o', orders demo_store !! i = None -> orders s3 !! i = Some o' ->
     rtc spec_order_step Pending (Order.status o')).
Proof.
  intros s1 s2 s3. split; [vm_compute; reflexivity|].
  apply (safe_reachable_order_lifecycle demo_store s3).
  apply (rtc_l _ _ s1).
  { apply safe_step_serve. intros n Hn. vm_compute in Hn. injection Hn as <-. lia. }
  apply (rtc_l _ _ s2); [by apply safe_step_serve|].
  apply (rtc_l _ _ s3); [|apply rtc_refl].
  apply safe_step_serve. intros o Ho. vm_compute in Ho. by injection Ho as <-.
Defined.
