(* ===== verification/Roles.v ===== *)
(** * The [role] column as a type

    [User.role] is a [db.String(30)] (models.py line 20) with the
    default ['student']; the routes compare it with ['admin'] and
    ['student'] in two styles: [current_user.role != 'admin'] (the admin
    routes) and [current_user.role != 'student'] ([place_order],
    [request_book]), while [index] and [student_dashboard] treat every
    role that is not ['admin'] as a student.  The styles agree only when
    every user's role is one of the two values of spec section 6
    ([roles_ok]).  No route writes the column: [register] leaves the
    default, the start-up code writes ['admin'] into its new row, and
    every other write of a user row copies the role it read.  So the
    column stays well typed from the start-up database on, whatever
    requests follow ([reachable_roles_ok]). *)

From S2P Require Import Prelude Model Forms Libraries Ledger Orders Cart Checkout Requests.
From S2P Require Import Catalog Users Recovery Search System.

Open Scope bookstore_scope.

(** A role of spec section 6. *)
Definition role_ok (u : User.t) : Prop := User.role u = "student" \/ User.role u = "admin".

#[export] Instance role_ok_dec u : Decision (role_ok u).
Proof. unfold role_ok. apply _. Defined.

(** Every user has a role of spec section 6. *)
Definition roles_ok (s : Store) : Prop := map_Forall (fun _ u => role_ok u) (users s).

#[export] Instance roles_ok_dec s : Decision (roles_ok s).
Proof. unfold roles_ok. apply _. Defined.

(** A write of the users table that gives a row either the role it had
    or the column default. *)
Definition roles_evolve (s s' : Store) : Prop :=
  forall k u', users s' !! k = Some u' ->
    User.role u' = "student" \/ exists u, users s !! k = Some u /\ User.role u' = User.role u.

(** ** Lemmas *)

Lemma roles_evolve_same s s' : users s' = users s -> roles_evolve s s'.
Proof. intros Hu k u' Hk. right. exists u'. by rewrite <- Hu. Qed.

Lemma roles_evolve_insert s s' k u :
  users s' = <[k:=u]> (users s) ->
  User.role u = "student" \/ (exists v, users s !! k = Some v /\ User.role u = User.role v) ->
  roles_evolve s s'.
Proof.
  intros Hu Hr j u' Hj. rewrite Hu in Hj. destruct (decide (j = k)) as [->|Hne].
  - rewrite lookup_insert_eq in Hj. by injection Hj as <-.
  - rewrite lookup_insert_ne in Hj by congruence. right. by exists u'.
Qed.

Lemma roles_evolve_ok s s' : roles_evolve s s' -> roles_ok s -> roles_ok s'.
Proof.
  intros He Hok k u' Hk. destruct (He k u' Hk) as [Hs|(u & Hu & Hr)].
  - by left.
  - unfold role_ok. rewrite Hr. exact (Hok k u Hu).
Qed.

#[local] Hint Resolve roles_evolve_same : core.

(** Destructure the inversion lemma [L] of a route and close the goal
    [roles_evolve s s'] of a route that writes no user row. *)
Local Ltac users_kept L :=
  match goal with
  | Hrun : _ = inr _ |- _ =>
      apply L in Hrun;
      repeat match goal with
             | H : exists _, _ |- _ => destruct H
             | H : _ /\ _ |- _ => destruct H
             end;
      subst; auto
  end.

Section Roles.
Context {bcrypt : Bcrypt} {serializer : TimedSerializer} {sfn : SecureFilename}.

(** Every route writes user rows as [roles_evolve] allows. *)
Lemma serve_roles_evolve r s : roles_evolve s (serve r s).
Proof.
  destruct r; simpl; apply (final_inv _ _ (roles_evolve s)); auto; intros u s' Hrun.
  - users_kept place_order_run.
  - users_kept student_edit_order_run.
  - users_kept student_cancel_order_run.
  - users_kept admin_approve_order_run.
  - users_kept admin_cancel_order_run.
  - apply add_to_cart_run in Hrun as (uid & cu & n & book & _ & _ & _ & _ & Hs).
    cbv zeta in Hs. destruct (first_cart_item _ _ _) as [[]|]; subst; auto.
  - users_kept remove_from_cart_run.
  - users_kept cart_checkout_run.
    destruct (checkout_user_lines x (form_str payment_method "mock") s)
      as (s'' & Hrun' & _ & Hu & _). rewrite H1 in Hrun'. injection Hrun' as <-. auto.
  - users_kept request_book_keeps.
  - users_kept admin_approve_request_keeps.
  - users_kept admin_reject_request_keeps.
  - users_kept admin_add_book_run.
  - users_kept admin_edit_book_run.
  - users_kept admin_delete_book_run.
  - users_kept toggle_wishlist_keeps.
  - users_kept register_run. eapply roles_evolve_insert; [reflexivity|by left].
  - users_kept reset_password_run. apply first_user_by_email_Some in H1 as [Hv _].
    eapply roles_evolve_insert; [reflexivity|right; eauto].
  - apply profile_run in Hrun as (uid & cu & Hcu & [[-> _]|(f & _ & _ & ->)]);
      unfold current_user in Hcu; destruct sess as [i|]; [|done| |done];
      destruct (users s !! i) as [v|] eqn:Hv; simplify_eq;
      (eapply roles_evolve_insert; [reflexivity|right; eauto]).
  - users_kept admin_edit_student_run. eapply roles_evolve_insert; [reflexivity|right; eauto].
  - users_kept admin_delete_student_run. intros k u' Hk. right. exists u'.
    simpl in Hk. by apply lookup_delete_Some in Hk as [_ ->].
  - users_kept catalog_keeps.
Qed.

(** The start-up code writes the role ['admin'] into the only row it
    adds. *)
Lemma startup_roles_ok salt s : roles_ok s -> roles_ok (final (startup salt) s).
Proof.
  intros Hok. apply (final_inv _ _ roles_ok); [done|]. intros u s' Hrun.
  unfold startup, add_user in Hrun. unfold_st.
  destruct (first_row is_admin_row (users s)); [by injection Hrun as _ <-|].
  case_bool_decide; [|done]. injection Hrun as _ <-.
  apply map_Forall_insert_2; [by right|done].
Qed.

(** On a well-typed users table the two styles of role guard agree. *)
Lemma roles_ok_guards s sess uid u :
  roles_ok s -> current_user s sess = Some (uid, u) ->
  is_role u "student" = negb (is_role u "admin").
Proof.
  intros Hok Hcu. unfold current_user in Hcu. destruct sess as [i|]; [|done].
  destruct (users s !! i) as [v|] eqn:Hv; [|done]. injection Hcu as <- <-.
  unfold is_role. by destruct (Hok i v Hv) as [-> | ->].
Qed.

(** ** Theorem *)

(** C19: the [role] column is well typed in every database the
    application reaches: from a database whose users have a role of
    spec section 6 (the empty one in particular), after the start-up
    code and any sequence of requests of any users, every user's role
    is ['student'] or ['admin'], so every logged-in user passes exactly
    one of the guards [role != 'student'] and [role != 'admin']. *)
Theorem reachable_roles_ok salt s0 s :
  roles_ok s0 -> rtc step (final (startup salt) s0) s ->
  roles_ok s /\
  forall sess uid u, current_user s sess = Some (uid, u) ->
    is_role u "student" = negb (is_role u "admin").
Proof.
  intros H0 Hrtc.
  assert (Hs : roles_ok s).
  { apply startup_roles_ok with (salt := salt) in H0. revert H0.
    induction Hrtc as [s|s1 s2 s3 Hstep _ IH]; [done|]. intros H1.
    apply IH. destruct Hstep as [r t]. apply (roles_evolve_ok t); [apply serve_roles_evolve|done]. }
  split; [done|]. intros sess uid u. by apply roles_ok_guards.
Qed.
End Roles.

(** ** A concrete run, with the symbolic bcrypt, serializer and file names *)

#[local] Existing Instance sym_bcrypt.
#[local] Existing Instance sym_serializer.
#[local] Existing Instance sym_secure_filename.

(** Witness of C19: on the empty database the start-up code creates
    the admin (row 1), then Eve registers (row 2) and the admin edits
    her name: the admin is ['admin'], Eve ['student']. *)
Lemma reachable_roles_ok_witness :
  let s0 := mkStore ∅ ∅ ∅ ∅ ∅ ∅ ∅ in
  let s1 := final (startup "salt") s0 in
  let eve := mkRegisterForm true (Some "Eve") (Some "eve@campus.edu") true
               (Some "eve-pw") (Some "eve-pw") in
  let s2 := serve (RRegister None eve "salt") s1 in
  let s3 := serve (REditStudent (Some 1%nat) 2%nat
                     (mkStudentForm true (Some "Eve B.") None true)) s2 in
  roles_ok s3 /\ fmap User.role (users s3 !! 1%nat) = Some "admin" /\
  fmap User.role (users s3 !! 2%nat) = Some "student".
Proof.
  intros s0 s1 eve s2 s3.
  destruct (reachable_roles_ok "salt" s0 s3) as [Hok _].
  - intros k u Hk. discriminate Hk.
  - eapply rtc_l; [constructor|]. eapply rtc_l; [constructor|]. apply rtc_refl.
  - split; [exact Hok|]. split; vm_compute; reflexivity.
Defined.
