(* ===== verification/Lifecycle.v ===== *)
(** * Termination of the order lifecycle

    The state machine of spec section 4.3 ([System.spec_order_step]) is
    well founded: every transition raises the rank of the status
    ([status_rank]: pending 0, approved 1, canceled 2), so an order
    changes its status at most twice in its life.  Along admissible
    requests ([safe_step]) the code inherits this measure from
    [serve_orders_evolve]: whatever the run, an order's status changes at
    most [2 - rank] more times.  Along the code's own requests the
    measure fails: [admin_approve_order] sets [approved] on a canceled
    order and [admin_cancel_order] cancels any order (src/app.py lines
    299-323), so an admin can move one order between the two statuses
    for ever, and each cancel gives its copies back once more.

    A run is a list of databases, each one request after the previous
    ([run]); [status_changes] counts the requests of a run that change
    the status of one order. *)

From S2P Require Import Prelude Model Forms Libraries Ledger Orders Cart Checkout Requests.
From S2P Require Import Catalog Users Recovery Search System.

Open Scope bookstore_scope.
Open Scope nat_scope.

(** ** Ranks, runs and status changes *)

(** The rank of a status in the machine of spec section 4.3; the
    statuses no route writes ([returned], [paid]) are final. *)
Definition status_rank (st : OrderStatus) : nat :=
  match st with
  | Pending => 0
  | Approved => 1
  | Canceled | Returned | Paid => 2
  end.

(** The rank of order [i] in [s]; an order not yet made has rank 0. *)
Definition order_rank (i : nat) (s : Store) : nat :=
  match orders s !! i with Some o => status_rank (Order.status o) | None => 0 end.

(** Whether the request from [s] to [s'] changed the status of order [i]. *)
Definition status_changed (i : nat) (s s' : Store) : bool :=
  match orders s !! i, orders s' !! i with
  | Some o, Some o' => bool_decide (Order.status o <> Order.status o')
  | _, _ => false
  end.

(** [ss] is a run of [R] from [s]: each database is one [R] step after
    the one before it. *)
Fixpoint run (R : relation Store) (s : Store) (ss : list Store) : Prop :=
  match ss with
  | [] => True
  | s' :: rest => R s s' /\ run R s' rest
  end.

(** The number of requests of the run [ss] from [s] that change the
    status of order [i]. *)
Fixpoint status_changes (i : nat) (s : Store) (ss : list Store) : nat :=
  match ss with
  | [] => 0
  | s' :: rest => (if status_changed i s s' then 1 else 0) + status_changes i s' rest
  end.

(** ** Lemmas *)

Lemma spec_order_step_rank st st' : spec_order_step st st' -> status_rank st < status_rank st'.
Proof. by destruct 1; simpl; lia. Qed.

(** No infinite chain of transitions of spec section 4.3. *)
Lemma spec_order_step_wf : well_founded (fun st' st => spec_order_step st st').
Proof.
  apply (well_founded_lt_compat _ (fun st => 2 - status_rank st)).
  intros st' st Hs. pose proof (spec_order_step_rank _ _ Hs).
  destruct st'; simpl in *; lia.
Qed.

Lemma order_rank_le i s : order_rank i s <= 2.
Proof.
  unfold order_rank. destruct (orders s !! i) as [o|]; [destruct (Order.status o)|]; simpl; lia.
Qed.

(** A request that moves orders as [orders_evolve] allows raises the
    rank of an order whose status it changes. *)
Lemma evolve_rank i s s' :
  orders_evolve s s' ->
  (if status_changed i s s' then 1 else 0) + order_rank i s <= order_rank i s'.
Proof.
  intros [E _]. unfold status_changed, order_rank.
  destruct (orders s !! i) as [o|] eqn:Hi; [|destruct (orders s' !! i); lia].
  destruct (E i o Hi) as (o' & -> & [Hs|Hs]).
  - rewrite Hs, bool_decide_eq_false_2 by tauto. lia.
  - pose proof (spec_order_step_rank _ _ Hs).
    rewrite bool_decide_eq_true_2 by (intros Heq; rewrite Heq in *; lia). lia.
Qed.

Section Cycle.
Context {bcrypt : Bcrypt} {serializer : TimedSerializer} {sfn : SecureFilename}.

(** An admin [a] cancelling and approving order [i] [n] times. *)
Fixpoint cancel_approve_cycle (a i n : nat) (s : Store) : list Store :=
  match n with
  | 0 => []
  | S n =>
      let s1 := serve (RAdminCancelOrder (Some a) i) s in
      let s2 := serve (RApproveOrder (Some a) i) s1 in
      s1 :: s2 :: cancel_approve_cycle a i n s2
  end.

(** What the admin cycle needs: [a] is an admin and order [i] names an
    existing book. *)
Definition cycle_ready (a i : nat) (s : Store) : Prop :=
  (exists u, users s !! a = Some u /\ is_role u "admin" = true) /\
  exists o b bk, orders s !! i = Some o /\ Order.book_id o = Some b /\ books s !! b = Some bk.

Lemma admin_cancel_order_cycle a i s :
  cycle_ready a i s ->
  cycle_ready a i (serve (RAdminCancelOrder (Some a) i) s) /\
  fmap Order.status (orders (serve (RAdminCancelOrder (Some a) i) s) !! i) = Some Canceled.
Proof.
  intros [(u & Hu & Ha) (o & b & bk & Ho & Hb & Hbk)]. simpl.
  unfold final, admin_cancel_order, login_required, get_order_or_404, save_order,
    order_book, save_book, current_user. unfold_st. rewrite Hu. cbn. rewrite Ha. cbn.
  rewrite Ho. cbn. rewrite Hb, Hbk. cbn. rewrite lookup_insert_eq.
  split; [|done]. split; [eauto|]. exists (Order.set_status o Canceled), b.
  eexists. simpl. rewrite lookup_insert_eq. split; [done|]. split; [by destruct o|].
  apply lookup_insert_eq.
Qed.

Lemma admin_approve_order_cycle a i s :
  cycle_ready a i s ->
  cycle_ready a i (serve (RApproveOrder (Some a) i) s) /\
  fmap Order.status (orders (serve (RApproveOrder (Some a) i) s) !! i) = Some Approved.
Proof.
  intros [(u & Hu & Ha) (o & b & bk & Ho & Hb & Hbk)]. simpl.
  unfold final, admin_approve_order, login_required, get_order_or_404, save_order,
    current_user. unfold_st. rewrite Hu. cbn. rewrite Ha. cbn.
  rewrite Ho. cbn. rewrite lookup_insert_eq. split; [|done]. split; [eauto|].
  exists (Order.set_status o Approved), b, bk. simpl. rewrite lookup_insert_eq.
  split; [done|]. by destruct o.
Qed.

Lemma status_changed_true i s s' st st' :
  fmap Order.status (orders s !! i) = Some st -> fmap Order.status (orders s' !! i) = Some st' ->
  st <> st' -> status_changed i s s' = true.
Proof.
  unfold status_changed. intros H H' Hne.
  destruct (orders s !! i), (orders s' !! i); simplify_eq/=. by apply bool_decide_eq_true_2.
Qed.

(** Along admissible requests the rank of an order bounds the status
    changes still to come. *)
Lemma safe_run_changes s ss i :
  run safe_step s ss -> status_changes i s ss + order_rank i s <= 2.
Proof.
  revert s. induction ss as [|s' ss IH]; intros s Hrun; simpl; [apply order_rank_le|].
  destruct Hrun as [Hstep Hrest]. specialize (IH s' Hrest).
  assert (He : orders_evolve s s') by (destruct Hstep; by apply serve_orders_evolve).
  pose proof (evolve_rank i s s' He). lia.
Qed.

(** Each round of the admin cycle changes the status twice and leaves
    the order approved, ready for the next round. *)
Lemma cycle_changes a i n s :
  cycle_ready a i s -> fmap Order.status (orders s !! i) <> Some Canceled ->
  run step s (cancel_approve_cycle a i n s) /\
  status_changes i s (cancel_approve_cycle a i n s) = 2 * n.
Proof.
  revert s. induction n as [|n IH]; intros s Hr Hst; [done|]. cbn [cancel_approve_cycle].
  set (s1 := serve (RAdminCancelOrder (Some a) i) s).
  set (s2 := serve (RApproveOrder (Some a) i) s1).
  destruct (admin_cancel_order_cycle a i s Hr) as [Hr1 Hs1]. fold s1 in Hr1, Hs1.
  destruct (admin_approve_order_cycle a i s1 Hr1) as [Hr2 Hs2]. fold s2 in Hr2, Hs2.
  destruct (IH s2 Hr2) as [Hrun Hn]; [by rewrite Hs2|].
  destruct Hr as [_ (o & _ & _ & Ho & _)].
  cbn [run status_changes]. rewrite Hn.
  rewrite Ho in Hst. simpl in Hst.
  rewrite (status_changed_true i s s1 (Order.status o) Canceled)
    by (rewrite ?Ho; simpl; congruence).
  rewrite (status_changed_true i s1 s2 Canceled Approved) by done.
  split; [split; [constructor|split; [constructor|exact Hrun]]|lia].
Qed.

(** ** Theorem *)

(** C18: termination of the order lifecycle.  Along any run of
    admissible requests (spec sections 4.3 and 8) an order changes its
    status at most [2 - rank] more times, so at most twice in its life:
    the spec's machine has no infinite chain.  Along the requests the
    code serves the lifecycle does not terminate: while an admin and an
    order with an existing book remain, the admin can cancel and approve
    the order [n] times for any [n], every request changing its
    status. *)
Theorem order_lifecycle_terminates :
  (forall s ss i, run safe_step s ss -> status_changes i s ss <= 2 - order_rank i s) /\
  (forall a i s n, cycle_ready a i s -> fmap Order.status (orders s !! i) <> Some Canceled ->
     run step s (cancel_approve_cycle a i n s) /\
     status_changes i s (cancel_approve_cycle a i n s) = 2 * n).
Proof.
  split.
  - intros s ss i Hrun. pose proof (safe_run_changes s ss i Hrun). lia.
  - intros a i s n. apply cycle_changes.
Qed.
End Cycle.

(** ** Concrete runs, with the symbolic bcrypt, serializer and file names *)

#[local] Existing Instance sym_bcrypt.
#[local] Existing Instance sym_serializer.
#[local] Existing Instance sym_secure_filename.

(** Witness of C18: Bob orders a copy of Dune (order 4) and cancels
    it, an admissible run within the bound; the admin cycles order 3
    (approved) three times, six changes of its status. *)
Lemma order_lifecycle_terminates_witness :
  let s1 := serve (RPlaceOrder (Some 3%nat) 1%nat (IntLit 1)) demo_store in
  let s2 := serve (RCancelOrder (Some 3%nat) 4%nat) s1 in
  status_changes 4 demo_store [s1; s2] <= 2 - order_rank 4 demo_store /\
  run step demo_store (cancel_approve_cycle 1 3 3 demo_store) /\
  status_changes 3 demo_store (cancel_approve_cycle 1 3 3 demo_store) = 6.
Proof.
  intros s1 s2. destruct order_lifecycle_terminates as [Hsafe Hcode]. split.
  - apply Hsafe. split; [|split; [|done]]; apply safe_step_serve; [|done].
    intros n Hn. vm_compute in Hn. injection Hn as <-. lia.
  - apply (Hcode 1 3 demo_store 3).
    + split; [eexists; split; reflexivity|]. do 3 eexists. split; [reflexivity|].
      split; reflexivity.
    + vm_compute. discriminate.
Defined.
