(* ===== verification/Views.v ===== *)
(** * Dashboards, listings and logout

    The routes of src/app.py that only read rows to render a template,
    and [logout], which only clears the session:
    - [index] (lines 68-74) sends a logged-in user to a dashboard by
      role and renders the landing page otherwise;
    - [admin_dashboard] (lines 172-182): every book, the users with role
      ['student'], every order and the number of pending book requests;
    - [student_dashboard] (lines 241-250): redirects an admin, and shows
      the user's orders newest first with [cart_count];
    - [admin_requests] (lines 412-419), [admin_students] (lines 446-453)
      and [cart] (lines 456-460);
    - [logout] (lines 112-118).

    A view answers a redirect ([Goto]) or a page with the rows the
    template is given ([Show]); the failures are those of the other
    routes: [LoginRequired] for [@login_required] and [Unauthorized] for
    the "Not authorized" flash and redirect.  [Query.all()] returns rows
    in row-id order ([rows_asc]).  [order_by(created_at.desc())] is
    modelled as descending row id ([rows_desc]): a row gets the next row
    id and [datetime.utcnow] when it is inserted, so a later row has a
    larger id and a timestamp no earlier (clocks are taken as monotone),
    and descending ids is one order that [created_at DESC] allows.  The
    templates themselves are not modelled. *)

From S2P Require Import Prelude Model Forms Libraries Ledger Orders Cart Checkout Requests.
From S2P Require Import Catalog Users Recovery Search System Roles.

Open Scope bookstore_scope.

(** ** Listings *)

(** Rows compared by their id. *)
Definition key_le {A} : relation (nat * A) := fun p q => (p.1 <= q.1)%nat.
Definition key_ge {A} : relation (nat * A) := fun p q => (q.1 <= p.1)%nat.

#[export] Instance key_le_dec {A} : RelDecision (@key_le A).
Proof. intros p q. unfold key_le. apply _. Defined.
#[export] Instance key_ge_dec {A} : RelDecision (@key_ge A).
Proof. intros p q. unfold key_ge. apply _. Defined.

(** [Model.query.all()]: the rows in row-id order. *)
Definition rows_asc {A} (m : gmap nat A) : list (nat * A) := merge_sort key_le (map_to_list m).

(** [Model.query.order_by(Model.created_at.desc()).all()] *)
Definition rows_desc {A} (m : gmap nat A) : list (nat * A) := merge_sort key_ge (map_to_list m).

(** ** Views *)

(** What a template is given. *)
Inductive Page :=
  | IndexPage
  | AdminDashboardPage (books : list (nat * Book.t)) (users : list (nat * User.t))
      (orders : list (nat * Order.t)) (pending_requests : nat)
  | StudentDashboardPage (orders : list (nat * Order.t)) (cart_count : Z)
  | AdminRequestsPage (requests : list (nat * BookRequest.t))
  | AdminStudentsPage (students : list (nat * User.t))
  | CartPage (cart_items : list (nat * Cart.t)).

(** [redirect(url)] or [render_template(page, ...)]. *)
Inductive View := Goto (url : string) | Show (p : Page).

(** [url_for('admin_dashboard')] and [url_for('student_dashboard')] *)
Definition ADMIN_URL : string := "/admin".
Definition STUDENT_URL : string := "/student".

(** [GET /]: [current_user.is_authenticated] is a session whose user
    [load_user] finds. *)
Definition index (s : Store) (sess : option nat) : View :=
  match current_user s sess with
  | Some (_, cu) => if is_role cu "admin" then Goto ADMIN_URL else Goto STUDENT_URL
  | None => Show IndexPage
  end.

(** [User.query.filter_by(role='student')] *)
Definition students (s : Store) : gmap nat User.t :=
  filter (fun kv : nat * User.t => is_role kv.2 "student" = true) (users s).

(** [BookRequest.query.filter_by(status='pending').count()] *)
Definition pending_requests (s : Store) : nat :=
  size (filter (fun kv : nat * BookRequest.t => BookRequest.status kv.2 = ReqPending) (requests s)).

(** [GET /admin] *)
Definition admin_dashboard (sess : option nat) : handler View :=
  user <- login_required sess ;; let '(_, cu) := user in
  guardS (is_role cu "admin") Unauthorized ;;;
  s <- getS ;;
  retS (Show (AdminDashboardPage (rows_asc (books s)) (rows_asc (students s))
                (rows_asc (orders s)) (pending_requests s))).

(** [Order.query.filter_by(user_id=current_user.id)] *)
Definition user_orders (s : Store) (uid : nat) : gmap nat Order.t :=
  filter (fun kv : nat * Order.t => Order.user_id kv.2 = Some uid) (orders s).

(** [GET /student] *)
Definition student_dashboard (sess : option nat) : handler View :=
  user <- login_required sess ;; let '(uid, cu) := user in
  if is_role cu "admin" then retS (Goto ADMIN_URL) else
  s <- getS ;;
  retS (Show (StudentDashboardPage (rows_desc (user_orders s uid)) (cart_count s uid))).

(** [GET /admin/requests] *)
Definition admin_requests (sess : option nat) : handler View :=
  user <- login_required sess ;; let '(_, cu) := user in
  guardS (is_role cu "admin") Unauthorized ;;;
  s <- getS ;;
  retS (Show (AdminRequestsPage (rows_desc (requests s)))).

(** [GET /admin/students] *)
Definition admin_students (sess : option nat) : handler View :=
  user <- login_required sess ;; let '(_, cu) := user in
  guardS (is_role cu "admin") Unauthorized ;;;
  s <- getS ;;
  retS (Show (AdminStudentsPage (rows_asc (students s)))).

(** [GET /cart] *)
Definition cart (sess : option nat) : handler View :=
  user <- login_required sess ;; let '(uid, _) := user in
  s <- getS ;;
  retS (Show (CartPage (user_cart_items s uid))).

(** [GET /logout]: the session after it ([logout_user()] clears it) and
    the redirect to the index; no row is written. *)
Definition logout (sess : option nat) : handler (option nat * Response) :=
  _ <- login_required sess ;; retS (None, Redirect INDEX_URL).

Section Sessions.
Context {bcrypt : Bcrypt} {serializer : TimedSerializer} {sfn : SecureFilename}.

(** The request [r] sent with the session cookie [sess]. *)
Definition with_session (sess : option nat) (r : request) : request :=
  match r with
  | RPlaceOrder _ b q => RPlaceOrder sess b q
  | REditOrder _ o q => REditOrder sess o q
  | RCancelOrder _ o => RCancelOrder sess o
  | RApproveOrder _ o => RApproveOrder sess o
  | RAdminCancelOrder _ o => RAdminCancelOrder sess o
  | RAddToCart _ b q => RAddToCart sess b q
  | RRemoveFromCart _ i => RRemoveFromCart sess i
  | RCheckout _ pm => RCheckout sess pm
  | RRequestBook _ f => RRequestBook sess f
  | RApproveRequest _ i => RApproveRequest sess i
  | RRejectRequest _ i => RRejectRequest sess i
  | RAddBook _ f => RAddBook sess f
  | REditBook _ b f => REditBook sess b f
  | RDeleteBook _ b => RDeleteBook sess b
  | RToggleWishlist _ b => RToggleWishlist sess b
  | RRegister _ f salt => RRegister sess f salt
  | RResetPassword _ _ _ _ => r
  | RProfile _ n f => RProfile sess n f
  | REditStudent _ u f => REditStudent sess u f
  | RDeleteStudent _ u => RDeleteStudent sess u
  | RCatalog _ q => RCatalog sess q
  end.

(** The routes under [@login_required]: all but [register] and
    [reset_password]. *)
Definition needs_login (r : request) : bool :=
  match r with
  | RRegister _ _ _ | RResetPassword _ _ _ _ => false
  | _ => true
  end.
End Sessions.

(** ** Lemmas *)

#[local] Instance key_le_trans {A} : Transitive (@key_le A).
Proof. intros ? ? ?. unfold key_le. lia. Qed.
#[local] Instance key_le_total {A} : Total (@key_le A).
Proof. intros ? ?. unfold key_le. lia. Qed.
#[local] Instance key_ge_trans {A} : Transitive (@key_ge A).
Proof. intros ? ? ?. unfold key_ge. lia. Qed.
#[local] Instance key_ge_total {A} : Total (@key_ge A).
Proof. intros ? ?. unfold key_ge. lia. Qed.

(** Rows sorted by ids in a non-strict order, with distinct ids, are
    sorted in the strict one. *)
Lemma sorted_strict {A} (R T : relation nat) (l : list (nat * A)) :
  (forall i j, R i j -> i <> j -> T i j) ->
  StronglySorted (fun p q => R p.1 q.1) l -> NoDup l.*1 ->
  StronglySorted (fun p q => T p.1 q.1) l.
Proof.
  intros HR. induction l as [|p l IH]; intros Hs Hnd; [constructor|].
  apply StronglySorted_inv in Hs as [Hs Hf]. apply NoDup_cons in Hnd as [Hnin Hnd].
  constructor; [by apply IH|]. apply Forall_forall. intros q Hq.
  apply HR; [exact (proj1 (Forall_forall _ _) Hf q Hq)|].
  intros Heq. apply Hnin, list_elem_of_fmap. by exists q.
Qed.

(** A listing holds exactly the rows of the table, once each, by
    increasing ([rows_asc]) or decreasing ([rows_desc]) id. *)
Lemma rows_asc_spec {A} (m : gmap nat A) :
  (forall i x, (i, x) ∈ rows_asc m <-> m !! i = Some x) /\
  StronglySorted (fun p q => p.1 < q.1)%nat (rows_asc m).
Proof.
  unfold rows_asc. pose proof (merge_sort_Permutation key_le (map_to_list m)) as Hp.
  split; [intros i x; by rewrite Hp, elem_of_map_to_list|].
  apply (sorted_strict le lt); [lia|apply StronglySorted_merge_sort; apply _|].
  rewrite Hp. apply NoDup_fst_map_to_list.
Qed.

Lemma rows_desc_spec {A} (m : gmap nat A) :
  (forall i x, (i, x) ∈ rows_desc m <-> m !! i = Some x) /\
  StronglySorted (fun p q => q.1 < p.1)%nat (rows_desc m).
Proof.
  unfold rows_desc. pose proof (merge_sort_Permutation key_ge (map_to_list m)) as Hp.
  split; [intros i x; by rewrite Hp, elem_of_map_to_list|].
  apply (sorted_strict (fun i j => j <= i) (fun i j => j < i))%nat;
    [lia|apply StronglySorted_merge_sort; apply _|].
  rewrite Hp. apply NoDup_fst_map_to_list.
Qed.

Lemma login_required_None {A} (k : nat * User.t -> handler A) s :
  bindS (login_required None) k s = inl LoginRequired.
Proof. done. Qed.

Lemma students_lookup s i u :
  students s !! i = Some u <-> users s !! i = Some u /\ User.role u = "student".
Proof.
  unfold students, is_role. rewrite map_lookup_filter_Some. simpl.
  by rewrite String.eqb_eq.
Qed.

Lemma user_orders_lookup s uid i o :
  user_orders s uid !! i = Some o <-> orders s !! i = Some o /\ Order.user_id o = Some uid.
Proof. unfold user_orders. by rewrite map_lookup_filter_Some. Qed.

Section LoggedOut.
Context {bcrypt : Bcrypt} {serializer : TimedSerializer} {sfn : SecureFilename}.

(** Without a session every route under [@login_required] redirects to
    the login page and writes nothing. *)
Lemma serve_logged_out r s : needs_login r = true -> serve (with_session None r) s = s.
Proof.
  destruct r; simpl; try discriminate; intros _;
    unfold final, place_order, student_edit_order, student_cancel_order, admin_approve_order,
      admin_cancel_order, add_to_cart, remove_from_cart, cart_checkout, request_book,
      admin_approve_request, admin_reject_request, admin_add_book, admin_edit_book,
      admin_delete_book, toggle_wishlist, profile, admin_edit_student, admin_delete_student,
      catalog;
    by rewrite login_required_None.
Qed.
End LoggedOut.

(** ** Theorems *)

Section ViewTheorems.
Context {bcrypt : Bcrypt} {serializer : TimedSerializer} {sfn : SecureFilename}.

(** C35: [logout] ends the session.  Without a logged-in user it is the
    redirect to the login page; otherwise it writes nothing, clears the
    session and redirects to the index, and with the cleared session
    the index shows the landing page and every route under
    [@login_required] (all the routes that write, but [register] and
    [reset_password]) writes nothing, whatever the database. *)
Theorem logout_ends_session sess s :
  match logout sess s with
  | inl e => e = LoginRequired /\ current_user s sess = None
  | inr ((sess', resp), s') =>
      s' = s /\ sess' = None /\ resp = Redirect INDEX_URL /\
      (forall t, index t sess' = Show IndexPage) /\
      (forall r t, needs_login r = true -> serve (with_session sess' r) t = t)
  end.
Proof.
  unfold logout, login_required. unfold_st.
  destruct (current_user s sess) as [[uid cu]|]; [cbn|done].
  do 4 (split; [done|]). intros r t. apply serve_logged_out.
Qed.

(** C36: [GET /admin] writes nothing; without a session it is the
    redirect to login, for a user who is not an admin the "Not
    authorized" redirect, and for an admin the page lists every book,
    every user whose role is ['student'] and every order, each once and
    by row id, with the number of book requests still pending. *)
Theorem admin_dashboard_spec sess s :
  match admin_dashboard sess s with
  | inl e =>
      (e = LoginRequired /\ current_user s sess = None) \/
      (e = Unauthorized /\ exists uid cu, current_user s sess = Some (uid, cu) /\
         is_role cu "admin" = false)
  | inr (v, s') =>
      s' = s /\ exists bs us os n, v = Show (AdminDashboardPage bs us os n) /\
        (forall i b, (i, b) ∈ bs <-> books s !! i = Some b) /\
        (forall i u, (i, u) ∈ us <-> users s !! i = Some u /\ User.role u = "student") /\
        (forall i o, (i, o) ∈ os <-> orders s !! i = Some o) /\
        StronglySorted (fun p q => p.1 < q.1)%nat bs /\
        StronglySorted (fun p q => p.1 < q.1)%nat us /\
        StronglySorted (fun p q => p.1 < q.1)%nat os /\
        n = size (filter (fun kv : nat * BookRequest.t =>
                            BookRequest.status kv.2 = ReqPending) (requests s))
  end.
Proof.
  unfold admin_dashboard, login_required. unfold_st.
  destruct (current_user s sess) as [[uid cu]|] eqn:Hcu; cbn; [|by left].
  destruct (is_role cu "admin") eqn:Ha; cbn; [|right; eauto].
  split; [done|]. do 4 eexists. split; [reflexivity|].
  destruct (rows_asc_spec (books s)) as [Hb Sb].
  destruct (rows_asc_spec (students s)) as [Hu Su].
  destruct (rows_asc_spec (orders s)) as [Ho So].
  split; [done|]. split; [intros i u; by rewrite Hu, students_lookup|]. auto.
Qed.

(** C37: the index and the two dashboards agree.  On a database whose
    roles are well typed ([Roles.roles_ok], which every reachable
    database has), [GET /] shows the landing page to a visitor without a
    session, for whom both dashboards redirect to login; it sends an
    admin to [/admin], which renders, and [/student] sends the admin
    back there; it sends every other user to [/student], and that user
    is a student (so [place_order] and [request_book] accept them), is
    refused [/admin], and sees their own orders, each once and newest
    first, with the number of copies in their cart. *)
Theorem index_dispatch s sess :
  roles_ok s ->
  match current_user s sess with
  | None =>
      index s sess = Show IndexPage /\ admin_dashboard sess s = inl LoginRequired /\
      student_dashboard sess s = inl LoginRequired
  | Some (uid, cu) =>
      if is_role cu "admin" then
        index s sess = Goto ADMIN_URL /\
        (exists p, admin_dashboard sess s = inr (Show p, s)) /\
        student_dashboard sess s = inr (Goto ADMIN_URL, s)
      else
        index s sess = Goto STUDENT_URL /\ is_role cu "student" = true /\
        admin_dashboard sess s = inl Unauthorized /\
        exists os,
          student_dashboard sess s = inr (Show (StudentDashboardPage os (cart_count s uid)), s) /\
          (forall i o, (i, o) ∈ os <-> orders s !! i = Some o /\ Order.user_id o = Some uid) /\
          StronglySorted (fun p q => q.1 < p.1)%nat os
  end.
Proof.
  intros Hok. unfold index, admin_dashboard, student_dashboard, login_required. unfold_st.
  destruct (current_user s sess) as [[uid cu]|] eqn:Hcu; cbn; [|done].
  pose proof (roles_ok_guards s sess uid cu Hok Hcu) as Hg.
  destruct (is_role cu "admin"); cbn; [eauto|].
  do 3 (split; [done|]). eexists. split; [reflexivity|].
  destruct (rows_desc_spec (user_orders s uid)) as [Ho So].
  split; [intros i o; by rewrite Ho, user_orders_lookup|done].
Qed.
End ViewTheorems.

(** ** Concrete runs, with the symbolic bcrypt, serializer and file names *)

#[local] Existing Instance sym_bcrypt.
#[local] Existing Instance sym_serializer.
#[local] Existing Instance sym_secure_filename.

(** Witness of C35: Alice logs out; with the cleared session the index
    is the landing page and her order of a copy of Dune writes nothing. *)
Lemma logout_ends_session_witness :
  logout (Some 2%nat) demo_store = inr ((None, Redirect INDEX_URL), demo_store) /\
  index demo_store None = Show IndexPage /\
  serve (RPlaceOrder None 1%nat (IntLit 1)) demo_store = demo_store.
Proof.
  pose proof (logout_ends_session (Some 2%nat) demo_store) as H.
  assert (E : logout (Some 2%nat) demo_store = inr ((None, Redirect INDEX_URL), demo_store))
    by reflexivity.
  rewrite E in H. destruct H as (_ & _ & _ & Hi & Hs).
  split; [exact E|]. split; [apply Hi|].
  apply (Hs (RPlaceOrder (Some 2%nat) 1%nat (IntLit 1)) demo_store). reflexivity.
Defined.

(** Witness of C36: the admin's dashboard on [demo_store] lists the two
    students, Bob among them, and the one pending request. *)
Lemma admin_dashboard_spec_witness :
  exists bs us os, admin_dashboard (Some 1%nat) demo_store =
    inr (Show (AdminDashboardPage bs us os 1), demo_store) /\
    length us = 2%nat /\ (3%nat, bob) ∈ us.
Proof.
  pose proof (admin_dashboard_spec (Some 1%nat) demo_store) as H.
  destruct (admin_dashboard (Some 1%nat) demo_store) as [e|[v s']] eqn:E;
    vm_compute in E; [discriminate|]. injection E as <- <-.
  destruct H as (_ & bs & us & os & n & Hv & _ & Hu & _).
  injection Hv as <- <- <- <-. do 3 eexists. split; [reflexivity|].
  split; [vm_compute; reflexivity|]. apply Hu. split; reflexivity.
Defined.

(** Witness of C37: Alice (user 2) is sent to [/student], refused
    [/admin], and sees her order 1. *)
Lemma index_dispatch_witness :
  roles_ok demo_store /\ index demo_store (Some 2%nat) = Goto STUDENT_URL /\
  admin_dashboard (Some 2%nat) demo_store = inl Unauthorized /\
  exists os, student_dashboard (Some 2%nat) demo_store =
      inr (Show (StudentDashboardPage os (cart_count demo_store 2)), demo_store) /\
    (1%nat, Order.mk (Some 2%nat) (Some 2%nat) 3 Pending None "unpaid") ∈ os.
Proof.
  assert (Hok : roles_ok demo_store) by decide_by_eval. split; [exact Hok|].
  pose proof (index_dispatch demo_store (Some 2%nat) Hok) as H.
  assert (Hcu : current_user demo_store (Some 2%nat) = Some (2%nat, alice)) by reflexivity.
  rewrite Hcu in H. change (is_role alice "admin") with false in H.
  destruct H as (H1 & _ & H3 & os & H4 & H5 & _).
  split; [exact H1|]. split; [exact H3|]. exists os. split; [exact H4|].
  apply H5. split; reflexivity.
Defined.
