(* ===== verification/Concurrency.v ===== *)
(** * Concurrent requests: the read phase and the commit of [place_order] and [add_to_cart]

    A request reads rows when it runs its queries and writes them when
    the session flushes at [db.session.commit()].  Python's sqlite3
    driver opens a transaction only before the first INSERT or UPDATE,
    so the [Book.query.get_or_404] of [place_order] (src/app.py line 215)
    reads the last committed row without holding a lock, and the flush
    writes the value computed in Python ([book.available_copies -= qty],
    line 219) as an absolute value.  [place_order_read] is the read
    phase (every check of the route, on the database as read) and
    [place_order_flush] the commit (the book row as computed, and the
    order inserted under the row id the database gives it then);
    [place_order_split] proves that reading and committing on the same
    database is the handler of [Orders].  Two requests interleaved as
    read, read, commit, commit then sell the same copy twice.
    [add_to_cart_read] and [add_to_cart_flush] split [add_to_cart]
    (lines 465-478) the same way: two adds of one user for a book with
    no line both insert one, and the cart has two lines for the pair.

    The spec (sections 5 and 9) requires the reservation to be one
    atomic conditional update ([UPDATE book SET available_copies =
    available_copies - :qty WHERE id = :id AND available_copies >=
    :qty]); [atomic_commit] models it (from the spec), and any sequence
    of such commits, whatever snapshots the plans were read from, keeps
    the ledger and never takes more copies than are free. *)

From S2P Require Import Prelude Model Ledger Orders Cart.

Open Scope bookstore_scope.
Open Scope Z_scope.

#[export] Instance Cart_eq_dec : EqDecision Cart.t.
Proof. solve_decision. Defined.
#[export] Instance Order_eq_dec : EqDecision Order.t.
Proof. solve_decision. Defined.

(** ** Inventory writes: what the commit of a split route does *)

(** The commit of a request that writes the row of one book as its read
    phase computed it.  [iw_flush] is the commit; [iw_book] and [iw_row]
    are the book and the row it writes, as an absolute value (the ORM
    flushes the attribute it computed in Python, not an increment);
    [iw_delta] is the change it makes to the copies reserved on that
    book, as long as the other rows it writes are still as they were
    read ([iw_fresh]). *)
Class InventoryWrite (P : Type) := {
  iw_flush : P -> Store -> Store;
  iw_book : P -> nat;
  iw_row : P -> Book.t;
  iw_delta : P -> Z;
  iw_fresh : P -> Store -> bool;
  iw_flush_books : forall p s, books (iw_flush p s) = <[iw_book p:=iw_row p]> (books s);
  iw_flush_reserved : forall p s, iw_fresh p s = true ->
    reserved (iw_flush p s) (iw_book p) = (reserved s (iw_book p) + iw_delta p)%Z;
}.

(** A plan as its read phase made it from [s]: the book row it will
    write is the row read with [iw_delta] fewer copies available, and
    the other rows it writes are as read. *)
Definition read_ok `{InventoryWrite P} (p : P) (s : Store) : Prop :=
  exists bk, books s !! iw_book p = Some bk /\
    iw_row p = Book.set_available_copies bk (Book.available_copies bk - iw_delta p) /\
    iw_fresh p s = true.

(** ** The two phases of [place_order] *)

(** What a request that passed its checks will write. *)
Record plan := mkPlan {
  plan_book_id : nat;
  plan_qty : Z;
  plan_book : Book.t;
  plan_order : Order.t;
}.

(** The read phase: lines 212-218 on the database as read. *)
Definition place_order_read (sess : option nat) (book_id : nat) (qty_field : FormInt) (s : Store)
    : Error + plan :=
  match current_user s sess with
  | None => inl LoginRequired
  | Some (uid, cu) =>
      if negb (is_role cu "student") then inl Unauthorized else
      match form_int qty_field 1 with
      | None => inl ServerError
      | Some qty =>
          match books s !! book_id with
          | None => inl NotFound
          | Some book =>
              if Book.available_copies book <? qty then inl InsufficientInventory
              else inr (mkPlan book_id qty
                          (Book.set_available_copies book (Book.available_copies book - qty))
                          (new_order uid book_id qty))
          end
      end
  end.

(** The commit (lines 219-223): the flush writes the book row as the
    request computed it and inserts the order under the next row id. *)
Definition place_order_flush (p : plan) (s : Store) : Store :=
  with_orders (with_books s (<[plan_book_id p:=plan_book p]> (books s)))
    (<[next_key (orders s):=plan_order p]> (orders s)).

(** Two requests interleaved as read, read, commit, commit: the database
    after both commits of what each read phase computed, or the error of
    a read. *)
Definition race2 `{InventoryWrite P1} `{InventoryWrite P2}
    (r1 : Store -> Error + P1) (r2 : Store -> Error + P2) (s : Store) : Error + Store :=
  match r1 s, r2 s with
  | inr p1, inr p2 => inr (iw_flush p2 (iw_flush p1 s))
  | inl e, _ | _, inl e => inl e
  end.

(** ** The two phases of [add_to_cart] *)

(** What an [add_to_cart] request that passed its checks will write:
    the book row as computed, and the line as computed, in place of the
    line it found (its id and the row as read) or as a new line. *)
Record cart_plan := mkCartPlan {
  cp_book_id : nat;
  cp_book : Book.t;
  cp_line : option (nat * Cart.t);
  cp_item : Cart.t;
}.

(** The read phase: lines 465-475 on the database as read. *)
Definition add_to_cart_read (sess : option nat) (book_id : nat) (qty_field : FormInt)
    (s : Store) : Error + cart_plan :=
  match current_user s sess with
  | None => inl LoginRequired
  | Some (uid, _) =>
      match form_int qty_field 1 with
      | None => inl ServerError
      | Some qty =>
          match books s !! book_id with
          | None => inl NotFound
          | Some book =>
              if Book.available_copies book <? qty then inl InsufficientInventory else
              let book' := Book.set_available_copies book (Book.available_copies book - qty) in
              match first_cart_item s uid book_id with
              | Some (cid, c) =>
                  inr (mkCartPlan book_id book' (Some (cid, c))
                         (Cart.set_quantity c (Cart.quantity c + qty)))
              | None => inr (mkCartPlan book_id book' None (Cart.mk uid book_id qty))
              end
          end
      end
  end.

(** The commit (lines 473-478): the line as computed, updated in place
    or inserted under the next row id, and the book row as computed. *)
Definition add_to_cart_flush (p : cart_plan) (s : Store) : Store :=
  let s1 := match cp_line p with
            | Some (cid, _) => with_carts s (<[cid:=cp_item p]> (carts s))
            | None => with_carts s (<[next_key (carts s):=cp_item p]> (carts s))
            end in
  with_books s1 (<[cp_book_id p:=cp_book p]> (books s)).

(** ** The spec's atomic reservation (modelled from spec section 5) *)

(** [UPDATE book SET available_copies = available_copies - :qty WHERE
    id = :id AND available_copies >= :qty], then the insert, in one
    transaction; no row updated is [InsufficientInventory]. *)
Definition atomic_commit (p : plan) (s : Store) : Error + Store :=
  match books s !! plan_book_id p with
  | None => inl NotFound
  | Some book =>
      if Book.available_copies book <? plan_qty p then inl InsufficientInventory
      else inr (with_orders
                  (with_books s (<[plan_book_id p:=Book.set_available_copies book
                                     (Book.available_copies book - plan_qty p)]> (books s)))
                  (<[next_key (orders s):=plan_order p]> (orders s)))
  end.

(** A sequence of atomic commits; a failed one is rolled back. *)
Fixpoint atomic_commits (ps : list plan) (s : Store) : Store :=
  match ps with
  | [] => s
  | p :: rest =>
      atomic_commits rest (match atomic_commit p s with inr s' => s' | inl _ => s end)
  end.

(** A plan of [place_order]: a pending order of [plan_qty] copies of
    [plan_book_id]. *)
Definition plan_ok (p : plan) : Prop :=
  Order.book_id (plan_order p) = Some (plan_book_id p) /\
  Order.status (plan_order p) = Pending /\
  Order.quantity (plan_order p) = plan_qty p.

(** ** The split is the handler *)

(** Reading and committing on the same database is [place_order]. *)
Lemma place_order_split sess book_id qty_field s :
  place_order sess book_id qty_field s =
    match place_order_read sess book_id qty_field s with
    | inl e => inl e
    | inr p => inr (next_key (orders s), place_order_flush p s)
    end.
Proof.
  unfold place_order, place_order_read, login_required, get_book_or_404, save_book, add_order.
  unfold_st. destruct (current_user s sess) as [[uid cu]|]; [cbn|done].
  destruct (is_role cu "student"); [cbn|done].
  destruct (form_int qty_field 1) as [qty|]; [cbn|done].
  destruct (books s !! book_id) as [book|]; [cbn|done].
  by destruct (Book.available_copies book <? qty).
Qed.

(** An atomic commit of a plan keeps the ledger. *)
Lemma atomic_commit_ledger p s s' :
  plan_ok p -> atomic_commit p s = inr s' -> ledger_ok s -> ledger_ok s'.
Proof.
  intros (Hb & Hst & Hq) Hc Hok. unfold atomic_commit in Hc.
  destruct (books s !! plan_book_id p) as [book|] eqn:Hbk; [|done].
  destruct (Book.available_copies book <? plan_qty p); [done|]. injection Hc as <-.
  assert (Hact : active (Order.status (plan_order p)) = true) by (rewrite Hst; done).
  apply (ledger_ok_one_book s _ (plan_book_id p) book
           (Book.available_copies book - plan_qty p)); [done|done|done| |].
  - rw_reserved reserved_add_order s. rewrite order_hold_same by done. lia.
  - intros b Hne. rw_reserved reserved_add_order s.
    rewrite (order_hold_other _ (plan_book_id p)) by done. lia.
Qed.

(** An atomic commit of a plan with a non-negative quantity keeps
    [0 <= available_copies <= total_copies]. *)
Lemma atomic_commit_stock p s s' :
  0 <= plan_qty p -> atomic_commit p s = inr s' -> stock_ok s -> stock_ok s'.
Proof.
  intros Hq Hc Hok. unfold atomic_commit in Hc.
  destruct (books s !! plan_book_id p) as [book|] eqn:Hbk; [|done].
  destruct (Book.available_copies book <? plan_qty p) eqn:Hlt; [done|]. injection Hc as <-.
  apply Z.ltb_ge in Hlt. pose proof (Hok _ _ Hbk) as Hb0. simpl in Hb0.
  eapply (stock_ok_one_book s _ (plan_book_id p) book); [done|reflexivity|]. lia.
Qed.

(** A plan that passed the read phase: the book as read, the pending
    order, and the book row the commit will write. *)
Lemma place_order_read_plan sess book_id qty_field s p :
  place_order_read sess book_id qty_field s = inr p ->
  exists bk, books s !! book_id = Some bk /\ plan_book_id p = book_id /\ plan_ok p /\
    plan_qty p <= Book.available_copies bk /\
    plan_book p = Book.set_available_copies bk (Book.available_copies bk - plan_qty p).
Proof.
  unfold place_order_read. destruct (current_user s sess) as [[uid cu]|]; [|done].
  destruct (negb (is_role cu "student")); [done|].
  destruct (form_int qty_field 1) as [qty|]; [|done].
  destruct (books s !! book_id) as [bk|] eqn:Hb; [|done].
  destruct (Book.available_copies bk <? qty) eqn:Hlt; [done|]. intros [= <-].
  apply Z.ltb_ge in Hlt. exists bk. repeat split; done.
Qed.

(** A commit adds the plan's order to the reserved total of its book. *)
Lemma reserved_flush p s :
  plan_ok p -> reserved (place_order_flush p s) (plan_book_id p) =
    reserved s (plan_book_id p) + plan_qty p.
Proof.
  intros (Hb & Hst & Hq).
  assert (Hact : active (Order.status (plan_order p)) = true) by (rewrite Hst; done).
  rewrite (reserved_add_order s _ (next_key (orders s)) (plan_order p)) by eauto with bookstore.
  rewrite order_hold_same by done. lia.
Qed.

Lemma Book_set_available_twice bk n m :
  Book.set_available_copies (Book.set_available_copies bk n) m = Book.set_available_copies bk m.
Proof. by destruct bk. Qed.

(** Reading and committing on the same database is [add_to_cart]. *)
Lemma add_to_cart_split sess book_id qty_field s :
  add_to_cart sess book_id qty_field s =
    match add_to_cart_read sess book_id qty_field s with
    | inl e => inl e
    | inr p => inr (tt, add_to_cart_flush p s)
    end.
Proof.
  unfold add_to_cart, add_to_cart_read, login_required, get_book_or_404, save_cart, add_cart,
    save_book, add_to_cart_flush. unfold_st.
  destruct (current_user s sess) as [[uid cu]|]; [cbn|done].
  destruct (form_int qty_field 1) as [qty|]; [cbn|done].
  destruct (books s !! book_id) as [book|]; [cbn|done].
  destruct (Book.available_copies book <? qty); [done|cbn].
  by destruct (first_cart_item s uid book_id) as [[cid c]|].
Qed.

(** The read phase of a user who has no line for the book plans to
    insert a new line and to write the book row as read, less the
    quantity. *)
Lemma add_to_cart_read_new sess uid cu b f s p :
  current_user s sess = Some (uid, cu) -> first_cart_item s uid b = None ->
  add_to_cart_read sess b f s = inr p ->
  exists bk, books s !! b = Some bk /\ cp_book_id p = b /\ cp_line p = None /\
    cart_key (cp_item p) = (uid, b) /\
    cp_book p = Book.set_available_copies bk
                  (Book.available_copies bk - Cart.quantity (cp_item p)).
Proof.
  intros Hcu Hf. unfold add_to_cart_read. rewrite Hcu.
  destruct (form_int f 1) as [qty|]; [|done].
  destruct (books s !! b) as [bk|] eqn:Hb; [|done].
  destruct (Book.available_copies bk <? qty); [done|]. rewrite Hf. intros [= <-].
  by exists bk.
Qed.

(** A commit that inserts a line adds its quantity to the reserved
    total of its book. *)
Lemma reserved_cart_flush_new p s :
  cp_line p = None -> Cart.book_id (cp_item p) = cp_book_id p ->
  reserved (add_to_cart_flush p s) (cp_book_id p) =
    reserved s (cp_book_id p) + Cart.quantity (cp_item p).
Proof.
  intros Hl Hb. unfold add_to_cart_flush. rewrite Hl, reserved_with_books.
  rewrite (reserved_add_cart s _ (next_key (carts s)) (cp_item p)) by eauto with bookstore.
  rewrite cart_hold_same by done. lia.
Qed.

(** A commit that writes the line it planned adds the quantity it adds
    to the reserved total of the book: the new line's quantity, or the
    difference with the line as read. *)
Lemma reserved_cart_flush p s :
  Cart.book_id (cp_item p) = cp_book_id p ->
  match cp_line p with
  | None => True
  | Some (cid, c) => carts s !! cid = Some c /\ Cart.book_id c = cp_book_id p
  end ->
  reserved (add_to_cart_flush p s) (cp_book_id p) =
    reserved s (cp_book_id p) + Cart.quantity (cp_item p) -
    match cp_line p with Some (_, c) => Cart.quantity c | None => 0 end.
Proof.
  intros Hb Hl. destruct (cp_line p) as [[cid c]|] eqn:Hp.
  - destruct Hl as [Hc Hcb]. unfold add_to_cart_flush. rewrite Hp, reserved_with_books.
    rewrite (reserved_save_cart s _ cid c (cp_item p)) by done.
    rewrite !cart_hold_same by done. lia.
  - rewrite reserved_cart_flush_new by done. lia.
Qed.

#[export] Instance plan_ok_dec p : Decision (plan_ok p).
Proof. unfold plan_ok. apply _. Defined.

(** [place_order]'s commit writes a pending order, [add_to_cart]'s the
    line it computed in place of the line as read, if any. *)
Definition plan_fresh (p : plan) (_ : Store) : bool := bool_decide (plan_ok p).

Definition cart_delta (p : cart_plan) : Z :=
  Cart.quantity (cp_item p) - match cp_line p with Some (_, c) => Cart.quantity c | None => 0 end.

Definition cart_fresh (p : cart_plan) (s : Store) : bool :=
  bool_decide (Cart.book_id (cp_item p) = cp_book_id p) &&
  match cp_line p with
  | None => true
  | Some (cid, c) => bool_decide (carts s !! cid = Some c /\ Cart.book_id c = cp_book_id p)
  end.

Lemma place_order_flush_reserved p s :
  plan_fresh p s = true ->
  reserved (place_order_flush p s) (plan_book_id p) = reserved s (plan_book_id p) + plan_qty p.
Proof. intros Hp. apply reserved_flush. by apply bool_decide_eq_true_1 in Hp. Qed.

Lemma add_to_cart_flush_reserved p s :
  cart_fresh p s = true ->
  reserved (add_to_cart_flush p s) (cp_book_id p) = reserved s (cp_book_id p) + cart_delta p.
Proof.
  intros Hf. apply andb_true_iff in Hf as [Hb Hl]. apply bool_decide_eq_true_1 in Hb.
  unfold cart_delta. rewrite reserved_cart_flush; [lia|done|].
  destruct (cp_line p) as [[cid c]|]; [by apply bool_decide_eq_true_1 in Hl|done].
Qed.

(** [place_order]'s commit: its book row, and a new pending order. *)
#[export] Instance place_order_write : InventoryWrite plan := {
  iw_flush := place_order_flush;
  iw_book := plan_book_id;
  iw_row := plan_book;
  iw_delta := plan_qty;
  iw_fresh := plan_fresh;
  iw_flush_books p s := eq_refl;
  iw_flush_reserved := place_order_flush_reserved;
}.

(** [add_to_cart]'s commit: its book row, and the line it computed. *)
#[export] Instance add_to_cart_write : InventoryWrite cart_plan := {
  iw_flush := add_to_cart_flush;
  iw_book := cp_book_id;
  iw_row := cp_book;
  iw_delta := cart_delta;
  iw_fresh := cart_fresh;
  iw_flush_books p s := eq_refl;
  iw_flush_reserved := add_to_cart_flush_reserved;
}.

(** The read phases of the two routes make plans as [read_ok] says. *)
Lemma place_order_read_ok sess book_id qty_field s p :
  place_order_read sess book_id qty_field s = inr p -> read_ok p s.
Proof.
  intros (bk & Hb & <- & Hok & _ & Hrow)%place_order_read_plan.
  exists bk. split; [done|]. split; [done|]. by apply bool_decide_eq_true_2.
Qed.

Lemma add_to_cart_read_ok sess book_id qty_field s p :
  add_to_cart_read sess book_id qty_field s = inr p -> read_ok p s.
Proof.
  unfold add_to_cart_read. destruct (current_user s sess) as [[uid cu]|]; [|done].
  destruct (form_int qty_field 1) as [qty|]; [|done].
  destruct (books s !! book_id) as [bk|] eqn:Hb; [|done].
  destruct (Book.available_copies bk <? qty); [done|].
  destruct (first_cart_item s uid book_id) as [[cid c]|] eqn:Hf; intros [= <-];
    exists bk; simpl; (split; [done|]); unfold cart_delta, cart_fresh; simpl.
  - apply first_cart_item_Some in Hf as (Hc & _ & Hcb). split; [do 2 f_equal; lia|].
    apply andb_true_iff. split; apply bool_decide_eq_true_2; [done|]. by split.
  - split; [do 2 f_equal; lia|]. by rewrite andb_true_r, bool_decide_eq_true_2.
Qed.

(** ** Theorems *)

(** The race of spec section 9, as the code runs it.  Two
    [place_order] requests for the same book that both read it before
    either commits both pass the stock check on the copies they read,
    and each commit writes [available_copies] as its own request
    computed it: the second write erases the first reservation.  The
    database then has both orders, the book shows only the second
    request's copies taken, and [available + reserved] exceeds
    [total_copies] by exactly the first request's quantity; the ledger
    (spec section 8, "no oversell") is broken whenever that quantity is
    not 0. *)
Lemma place_order_race_lost_update sess1 sess2 b f1 f2 s p1 p2 bk :
  place_order_read sess1 b f1 s = inr p1 -> place_order_read sess2 b f2 s = inr p2 ->
  books s !! b = Some bk -> ledger_ok s ->
  let s' := place_order_flush p2 (place_order_flush p1 s) in
  race2 (place_order_read sess1 b f1) (place_order_read sess2 b f2) s =
    inr s' /\
  books s' !! b = Some (Book.set_available_copies bk (Book.available_copies bk - plan_qty p2)) /\
  Book.available_copies bk - plan_qty p2 + reserved s' b = Book.total_copies bk + plan_qty p1 /\
  (plan_qty p1 <> 0 -> ~ ledger_ok s').
Proof.
  intros H1 H2 Hb Hl s'.
  destruct (place_order_read_plan _ _ _ _ _ H1) as (bk1 & Hb1 & Hid1 & Hok1 & _ & _).
  destruct (place_order_read_plan _ _ _ _ _ H2) as (bk2 & Hb2 & Hid2 & Hok2 & _ & Hbook2).
  rewrite Hb in Hb1, Hb2. injection Hb1 as <-. injection Hb2 as <-.
  pose proof (reserved_flush p1 s Hok1) as R1.
  pose proof (reserved_flush p2 (place_order_flush p1 s) Hok2) as R2.
  rewrite Hid1 in R1. rewrite Hid2 in R2. pose proof (Hl b bk Hb) as Hbk. simpl in Hbk.
  assert (Hbook : books s' !! b =
            Some (Book.set_available_copies bk (Book.available_copies bk - plan_qty p2))).
  { subst s'. unfold place_order_flush. simpl. rewrite Hid2, lookup_insert_eq. by rewrite Hbook2. }
  split; [unfold race2; by rewrite H1, H2|]. split; [exact Hbook|].
  split; [fold s' in R2; lia|]. intros Hq Hl'.
  specialize (Hl' b _ Hbook). simpl in Hl'. fold s' in R2. lia.
Qed.

(** A run of [place_order_race_lost_update]: book 4 has 1 copy free
    (3 in all, 2 in Alice's cart).  Alice and Bob each order 1 copy and both read the book
    before either commits: both orders are made, the book shows 0 free
    and the ledger is off by one.  Run one after the other, the second
    order fails with [InsufficientInventory]. *)
Lemma place_order_race_lost_update_witness :
  let r1 := place_order_read (Some 2%nat) 4%nat (IntLit 1) in
  let r2 := place_order_read (Some 3%nat) 4%nat (IntLit 1) in
  ledger_ok demo_store /\
  (exists s', race2 r1 r2 demo_store = inr s' /\
     fmap Book.available_copies (books s' !! 4%nat) = Some 0 /\
     size (orders s') = (size (orders demo_store) + 2)%nat /\ ~ ledger_ok s') /\
  place_order (Some 3%nat) 4%nat (IntLit 1)
    (final (place_order (Some 2%nat) 4%nat (IntLit 1)) demo_store) = inl InsufficientInventory.
Proof.
  intros r1 r2. assert (Hl : ledger_ok demo_store) by decide_by_eval.
  split; [exact Hl|]. split; [|vm_compute; reflexivity].
  destruct (r1 demo_store) as [e|p1] eqn:H1; [vm_compute in H1; discriminate|].
  destruct (r2 demo_store) as [e|p2] eqn:H2; [vm_compute in H2; discriminate|].
  destruct (place_order_race_lost_update _ _ _ _ _ demo_store p1 p2 kr H1 H2 eq_refl Hl)
    as (Hrace & _ & _ & Hbroken).
  eexists. split; [exact Hrace|].
  vm_compute in H1, H2. injection H1 as <-. injection H2 as <-.
  split; [vm_compute; reflexivity|]. split; [vm_compute; reflexivity|].
  apply Hbroken. discriminate.
Defined.

(** C15: with the spec's atomic conditional update, the ledger and the
    stock bound hold after any sequence of commits of [place_order]
    plans with non-negative quantities, whatever databases the plans
    were read from: a commit re-checks [available_copies] at the moment
    it writes, so concurrent orders never take more copies than are
    free. *)
Theorem atomic_commits_safe ps s :
  Forall plan_ok ps -> Forall (fun p => 0 <= plan_qty p) ps ->
  ledger_ok s -> stock_ok s ->
  ledger_ok (atomic_commits ps s) /\ stock_ok (atomic_commits ps s).
Proof.
  revert s. induction ps as [|p ps IH]; intros s Hok Hpos Hl Hs; simpl; [done|].
  apply Forall_cons in Hok as [Hp Hok], Hpos as [Hq Hpos].
  apply IH; [done|done| |];
    (destruct (atomic_commit p s) as [e|s'] eqn:Hc; [done|]).
  - by apply (atomic_commit_ledger p s s').
  - by apply (atomic_commit_stock p s s').
Qed.

(** Witness of C15: the two plans of the race of
    [place_order_race_lost_update], committed atomically: the second is
    refused and only one order is made. *)
Lemma atomic_commits_safe_witness :
  let ps := match place_order_read (Some 2%nat) 4%nat (IntLit 1) demo_store,
                  place_order_read (Some 3%nat) 4%nat (IntLit 1) demo_store with
            | inr p1, inr p2 => [p1; p2]
            | _, _ => []
            end in
  length ps = 2%nat /\
  size (orders (atomic_commits ps demo_store)) = (size (orders demo_store) + 1)%nat /\
  ledger_ok (atomic_commits ps demo_store) /\ stock_ok (atomic_commits ps demo_store).
Proof.
  intros ps. split; [vm_compute; reflexivity|]. split; [vm_compute; reflexivity|].
  apply atomic_commits_safe.
  - vm_compute. repeat constructor.
  - vm_compute. repeat constructor; discriminate.
  - decide_by_eval.
  - decide_by_eval.
Defined.

(** C16: the spec's "no oversell" (section 8), with the atomic update:
    one-copy orders for a book with [k] free copies, committed in any
    order and whatever database they were read from, succeed exactly
    [min N k] times out of [N]: [k] copies are taken when [N >= k], and
    every order gets its copy when [N <= k]. *)
Theorem atomic_commits_no_oversell b ps s bk k :
  Forall (fun p => plan_ok p /\ plan_book_id p = b /\ plan_qty p = 1) ps ->
  books s !! b = Some bk -> Book.available_copies bk = Z.of_nat k ->
  books (atomic_commits ps s) !! b =
    Some (Book.set_available_copies bk (Z.of_nat (k - min (length ps) k))) /\
  size (orders (atomic_commits ps s)) = (size (orders s) + min (length ps) k)%nat.
Proof.
  revert s bk k. induction ps as [|p ps IH]; intros s bk k Hps Hb Hk; simpl.
  - rewrite Nat.sub_0_r, <- Hk, Book_set_available_id. split; [done|lia].
  - apply Forall_cons in Hps as [(_ & Hid & Hq) Hps].
    unfold atomic_commit. rewrite Hid, Hb, Hq.
    destruct (Book.available_copies bk <? 1) eqn:Hlt.
    + apply Z.ltb_lt in Hlt. assert (k = 0%nat) as -> by lia.
      destruct (IH s bk 0%nat Hps Hb Hk) as [IH1 IH2]. rewrite IH1, IH2. simpl. split; [done|lia].
    + apply Z.ltb_ge in Hlt. destruct k as [|k]; [lia|].
      set (bk' := Book.set_available_copies bk (Book.available_copies bk - 1)).
      destruct (IH (with_orders (with_books s (<[b:=bk']> (books s)))
                     (<[next_key (orders s):=plan_order p]> (orders s))) bk' k Hps)
        as [IH1 IH2]; [simpl; apply lookup_insert_eq|simpl; lia|].
      rewrite IH1, IH2. unfold bk'. rewrite Book_set_available_twice. simpl.
      rewrite map_size_insert_None by apply next_key_fresh. split; [done|lia].
Qed.

(** Witness of C16: three one-copy orders for book 4, which has one copy
    free: only the first is committed and the book is left with none. *)
Lemma atomic_commits_no_oversell_witness :
  let ps := [mkPlan 4 1 kr (new_order 2 4 1); mkPlan 4 1 kr (new_order 3 4 1);
             mkPlan 4 1 kr (new_order 3 4 1)] in
  books (atomic_commits ps demo_store) !! 4%nat = Some (Book.set_available_copies kr 0) /\
  size (orders (atomic_commits ps demo_store)) = (size (orders demo_store) + 1)%nat.
Proof.
  intros ps. apply (atomic_commits_no_oversell 4%nat ps demo_store kr 1%nat);
    [repeat constructor|reflexivity|reflexivity].
Defined.


(** C17: the same race in the cart (spec sections 3, 8 and 9).  Two
    [add_to_cart] requests of one user for a book they have no line
    for, both read before either commits (a double click), both find no
    line and both insert one: the cart then has two lines for the same
    (user, book) pair, which spec section 3 forbids and no unique index
    prevents, and the book shows only the second request's copies
    taken, so [available + reserved] exceeds [total_copies] by the
    first request's quantity. *)
Theorem add_to_cart_race_duplicate_line sess uid cu b f1 f2 s p1 p2 bk :
  current_user s sess = Some (uid, cu) -> first_cart_item s uid b = None ->
  add_to_cart_read sess b f1 s = inr p1 -> add_to_cart_read sess b f2 s = inr p2 ->
  books s !! b = Some bk -> ledger_ok s ->
  let s1 := add_to_cart_flush p1 s in
  let s' := add_to_cart_flush p2 s1 in
  let q1 := Cart.quantity (cp_item p1) in
  let q2 := Cart.quantity (cp_item p2) in
  race2 (add_to_cart_read sess b f1) (add_to_cart_read sess b f2) s =
    inr s' /\
  carts s' !! next_key (carts s) = Some (cp_item p1) /\
  carts s' !! next_key (carts s1) = Some (cp_item p2) /\
  next_key (carts s) <> next_key (carts s1) /\
  cart_key (cp_item p1) = (uid, b) /\ cart_key (cp_item p2) = (uid, b) /\ ~ cart_unique s' /\
  books s' !! b = Some (Book.set_available_copies bk (Book.available_copies bk - q2)) /\
  Book.available_copies bk - q2 + reserved s' b = Book.total_copies bk + q1.
Proof.
  intros Hcu Hf H1 H2 Hb Hl s1 s' q1 q2.
  destruct (add_to_cart_read_new _ _ _ _ _ _ _ Hcu Hf H1)
    as (bk1 & Hb1 & Hid1 & Hl1 & Hk1 & Hbook1).
  destruct (add_to_cart_read_new _ _ _ _ _ _ _ Hcu Hf H2)
    as (bk2 & Hb2 & Hid2 & Hl2 & Hk2 & Hbook2).
  rewrite Hb in Hb1, Hb2. injection Hb1 as <-. injection Hb2 as <-.
  assert (Hc1 : carts s1 = <[next_key (carts s):=cp_item p1]> (carts s))
    by (unfold s1, add_to_cart_flush; by rewrite Hl1).
  assert (Hc' : carts s' = <[next_key (carts s1):=cp_item p2]> (carts s1))
    by (unfold s', add_to_cart_flush; by rewrite Hl2).
  assert (Hin1 : carts s1 !! next_key (carts s) = Some (cp_item p1))
    by (rewrite Hc1; apply lookup_insert_eq).
  assert (Hne : next_key (carts s) <> next_key (carts s1)).
  { intros Heq. pose proof (next_key_fresh (carts s1)) as Hn. rewrite <- Heq, Hin1 in Hn. done. }
  assert (Hbk1 : Cart.book_id (cp_item p1) = cp_book_id p1)
    by (unfold cart_key in Hk1; injection Hk1; congruence).
  assert (Hbk2 : Cart.book_id (cp_item p2) = cp_book_id p2)
    by (unfold cart_key in Hk2; injection Hk2; congruence).
  pose proof (reserved_cart_flush_new p1 s Hl1 Hbk1) as R1.
  pose proof (reserved_cart_flush_new p2 s1 Hl2 Hbk2) as R2.
  rewrite Hid1 in R1. rewrite Hid2 in R2. fold s1 in R1. fold s' in R2.
  pose proof (Hl b bk Hb) as Hbk. simpl in Hbk.
  assert (Hs1 : carts s' !! next_key (carts s) = Some (cp_item p1))
    by (rewrite Hc', lookup_insert_ne by done; exact Hin1).
  assert (Hs2 : carts s' !! next_key (carts s1) = Some (cp_item p2))
    by (rewrite Hc'; apply lookup_insert_eq).
  split; [unfold race2; by rewrite H1, H2|]. do 5 (split; [done|]). split.
  - intros Hu. apply Hne, (Hu _ _ Hs1 _ _ Hs2). congruence.
  - split; [|unfold q1, q2; lia].
    unfold s', add_to_cart_flush. simpl. rewrite Hid2, lookup_insert_eq. by rewrite Hbook2.
Qed.

(** Witness of C17: Bob (user 3) has no line for Dune (5 free) and
    adds one copy twice, both requests reading before either commits:
    his cart gets two lines for Dune and the book shows 4 free. *)
Lemma add_to_cart_race_duplicate_line_witness :
  let r1 := add_to_cart_read (Some 3%nat) 1%nat (IntLit 1) in
  exists s', race2 r1 r1 demo_store = inr s' /\ ~ cart_unique s' /\
    fmap Book.available_copies (books s' !! 1%nat) = Some 4 /\
    size (carts s') = (size (carts demo_store) + 2)%nat.
Proof.
  intros r1. assert (Hl : ledger_ok demo_store) by decide_by_eval.
  destruct (r1 demo_store) as [e|p] eqn:H1; [vm_compute in H1; discriminate|].
  destruct (add_to_cart_race_duplicate_line (Some 3%nat) 3%nat bob 1%nat (IntLit 1) (IntLit 1)
              demo_store p p dune eq_refl eq_refl H1 H1 eq_refl Hl)
    as (Hrace & _ & _ & _ & _ & _ & Hdup & _).
  eexists. split; [exact Hrace|]. split; [exact Hdup|].
  vm_compute in H1. injection H1 as <-. split; vm_compute; reflexivity.
Defined.
