(* ===== verification/Races.v ===== *)
(** * The other inventory routes, split, and the lost update in general

    Every route that writes [Book.available_copies] reads the book row,
    computes the new value in Python and has the commit write it back:
    [place_order] and [add_to_cart] ([Concurrency]), and here
    [student_edit_order] (src/app.py lines 253-279),
    [student_cancel_order] (282-297), [admin_cancel_order] (311-323) and
    [remove_from_cart] (482-494).  Each is split into its read phase
    (every check of the route, on the database as read) and its commit
    (the rows as computed), the two proved equal to the handler of
    [Orders] or [Cart] when nothing runs in between.

    [inv_request] gathers the six routes: [inv_read] is the read phase
    of a request, [inv_flush] the commit of what it read, [inv_serve]
    the route's handler run alone, and [inv_race] two requests
    interleaved as read, read, commit, commit.
    [inventory_race_lost_update] is the write-write race on the book
    row for any two of them: when both requests read the book before
    either commits, the second commit writes the row it computed from
    the old value and the first request's change to [available_copies]
    is lost, while its change to the reservations stays; the ledger is
    off by that change.  A cancel that races with an order loses the
    copies it gave back; an order that races with a cancel sells copies
    twice. *)

From S2P Require Import Prelude Model Ledger Orders Cart Concurrency.

Open Scope bookstore_scope.
Open Scope Z_scope.

(** ** The two phases of [student_edit_order] *)

(** What an edit that passed its checks will write: the book row and
    the order with its new quantity, and the order as read. *)
Record edit_plan := mkEditPlan {
  ep_order_id : nat;
  ep_order : Order.t;
  ep_new_qty : Z;
  ep_book_id : nat;
  ep_book : Book.t;
}.

(** Lines 254-271 on the database as read. *)
Definition student_edit_order_read (sess : option nat) (order_id : nat) (quantity_field : FormInt)
    (s : Store) : Error + edit_plan :=
  match current_user s sess with
  | None => inl LoginRequired
  | Some (uid, _) =>
      match orders s !! order_id with
      | None => inl NotFound
      | Some order =>
          if negb (bool_decide (Order.user_id order = Some uid)) then inl Unauthorized else
          if negb (bool_decide (Order.status order = Pending)) then inl InvalidState else
          match form_int quantity_field (Order.quantity order) with
          | None => inl InvalidQuantity
          | Some new_qty =>
              match Order.book_id order with
              | None => inl ServerError
              | Some b =>
                  match books s !! b with
                  | None => inl ServerError
                  | Some book =>
                      let max_allowed := Book.available_copies book + Order.quantity order in
                      if (new_qty <? 1) || (max_allowed <? new_qty) then inl InvalidQuantity
                      else inr (mkEditPlan order_id order new_qty b
                                  (Book.set_available_copies book (max_allowed - new_qty)))
                  end
              end
          end
      end
  end.

(** Lines 273-275: the book row and the order as computed. *)
Definition student_edit_order_flush (p : edit_plan) (s : Store) : Store :=
  with_orders (with_books s (<[ep_book_id p:=ep_book p]> (books s)))
    (<[ep_order_id p:=Order.set_quantity (ep_order p) (ep_new_qty p)]> (orders s)).

(** The order the plan writes is still the pending order of the book
    that was read. *)
Definition edit_fresh (p : edit_plan) (s : Store) : bool :=
  bool_decide (orders s !! ep_order_id p = Some (ep_order p) /\
               Order.book_id (ep_order p) = Some (ep_book_id p) /\
               Order.status (ep_order p) = Pending).

(** ** The two phases of the cancels *)

(** What a cancel will write: the book row with the copies returned,
    and the order, as read, set to canceled. *)
Record cancel_plan := mkCancelPlan {
  xp_order_id : nat;
  xp_order : Order.t;
  xp_book_id : nat;
  xp_book : Book.t;
}.

(** [student_cancel_order], lines 283-292 on the database as read. *)
Definition student_cancel_order_read (sess : option nat) (order_id : nat) (s : Store)
    : Error + cancel_plan :=
  match current_user s sess with
  | None => inl LoginRequired
  | Some (uid, _) =>
      match orders s !! order_id with
      | None => inl NotFound
      | Some order =>
          if negb (bool_decide (Order.user_id order = Some uid)) then inl Unauthorized else
          if negb (bool_decide (Order.status order = Pending)) then inl InvalidState else
          match Order.book_id order with
          | None => inl ServerError
          | Some b =>
              match books s !! b with
              | None => inl ServerError
              | Some book =>
                  inr (mkCancelPlan order_id order b (return_copies book (Order.quantity order)))
              end
          end
      end
  end.

(** [admin_cancel_order], lines 312-318 on the database as read: no
    status check. *)
Definition admin_cancel_order_read (sess : option nat) (order_id : nat) (s : Store)
    : Error + cancel_plan :=
  match current_user s sess with
  | None => inl LoginRequired
  | Some (_, cu) =>
      if negb (is_role cu "admin") then inl Unauthorized else
      match orders s !! order_id with
      | None => inl NotFound
      | Some order =>
          match Order.book_id order with
          | None => inl ServerError
          | Some b =>
              match books s !! b with
              | None => inl ServerError
              | Some book =>
                  inr (mkCancelPlan order_id order b (return_copies book (Order.quantity order)))
              end
          end
      end
  end.

(** The commit of either cancel: the book row and the order as
    computed. *)
Definition cancel_flush (p : cancel_plan) (s : Store) : Store :=
  with_orders (with_books s (<[xp_book_id p:=xp_book p]> (books s)))
    (<[xp_order_id p:=Order.set_status (xp_order p) Canceled]> (orders s)).

(** The order the plan cancels is still the active order of the book
    that was read. *)
Definition cancel_fresh (p : cancel_plan) (s : Store) : bool :=
  bool_decide (orders s !! xp_order_id p = Some (xp_order p) /\
               Order.book_id (xp_order p) = Some (xp_book_id p)) &&
  active (Order.status (xp_order p)).

(** ** The two phases of [remove_from_cart] *)

(** What a removal will write: the book row with the line's copies
    returned, and the deletion of the line as read. *)
Record remove_plan := mkRemovePlan {
  rp_item_id : nat;
  rp_item : Cart.t;
  rp_book : Book.t;
}.

(** Lines 485-490 on the database as read. *)
Definition remove_from_cart_read (sess : option nat) (item_id : nat) (s : Store)
    : Error + remove_plan :=
  match current_user s sess with
  | None => inl LoginRequired
  | Some (uid, _) =>
      match carts s !! item_id with
      | None => inl NotFound
      | Some item =>
          if negb (Nat.eqb (Cart.user_id item) uid) then inl Unauthorized else
          match books s !! Cart.book_id item with
          | None => inl ServerError
          | Some book => inr (mkRemovePlan item_id item (return_copies book (Cart.quantity item)))
          end
      end
  end.

(** Lines 490-492: the book row as computed, and the delete. *)
Definition remove_from_cart_flush (p : remove_plan) (s : Store) : Store :=
  with_carts (with_books s (<[Cart.book_id (rp_item p):=rp_book p]> (books s)))
    (delete (rp_item_id p) (carts s)).

(** The line the plan deletes is still there as read. *)
Definition remove_fresh (p : remove_plan) (s : Store) : bool :=
  bool_decide (carts s !! rp_item_id p = Some (rp_item p)).

(** ** The six inventory routes as one request type *)

(** The change each commit makes to the copies reserved on its book. *)
Definition edit_delta (p : edit_plan) : Z := ep_new_qty p - Order.quantity (ep_order p).
Definition cancel_delta (p : cancel_plan) : Z := - Order.quantity (xp_order p).
Definition remove_delta (p : remove_plan) : Z := - Cart.quantity (rp_item p).

(** A request of one of the routes that write [available_copies]. *)
Inductive inv_request :=
  | IPlaceOrder (sess : option nat) (book_id : nat) (qty_field : FormInt)
  | IAddToCart (sess : option nat) (book_id : nat) (qty_field : FormInt)
  | IEditOrder (sess : option nat) (order_id : nat) (quantity_field : FormInt)
  | ICancelOrder (sess : option nat) (order_id : nat)
  | IAdminCancelOrder (sess : option nat) (order_id : nat)
  | IRemoveFromCart (sess : option nat) (item_id : nat).

(** What the read phase of one of them computed. *)
Inductive inv_plan :=
  | PlacePlan (p : plan)
  | CartPlan (p : cart_plan)
  | EditPlan (p : edit_plan)
  | CancelPlan (p : cancel_plan)
  | RemovePlan (p : remove_plan).

(** The route's handler, run as one transaction. *)
Definition inv_serve (r : inv_request) (s : Store) : Store :=
  match r with
  | IPlaceOrder sess b f => final (place_order sess b f) s
  | IAddToCart sess b f => final (add_to_cart sess b f) s
  | IEditOrder sess o f => final (student_edit_order sess o f) s
  | ICancelOrder sess o => final (student_cancel_order sess o) s
  | IAdminCancelOrder sess o => final (admin_cancel_order sess o) s
  | IRemoveFromCart sess i => final (remove_from_cart sess i) s
  end.

(** Its read phase. *)
Definition inv_read (r : inv_request) (s : Store) : Error + inv_plan :=
  match r with
  | IPlaceOrder sess b f => sum_map id PlacePlan (place_order_read sess b f s)
  | IAddToCart sess b f => sum_map id CartPlan (add_to_cart_read sess b f s)
  | IEditOrder sess o f => sum_map id EditPlan (student_edit_order_read sess o f s)
  | ICancelOrder sess o => sum_map id CancelPlan (student_cancel_order_read sess o s)
  | IAdminCancelOrder sess o => sum_map id CancelPlan (admin_cancel_order_read sess o s)
  | IRemoveFromCart sess i => sum_map id RemovePlan (remove_from_cart_read sess i s)
  end.

(** Its commit. *)
Definition inv_flush (p : inv_plan) (s : Store) : Store :=
  match p with
  | PlacePlan p => place_order_flush p s
  | CartPlan p => add_to_cart_flush p s
  | EditPlan p => student_edit_order_flush p s
  | CancelPlan p => cancel_flush p s
  | RemovePlan p => remove_from_cart_flush p s
  end.

(** The book whose row the commit writes, and the row. *)
Definition inv_book (p : inv_plan) : nat :=
  match p with
  | PlacePlan p => plan_book_id p
  | CartPlan p => cp_book_id p
  | EditPlan p => ep_book_id p
  | CancelPlan p => xp_book_id p
  | RemovePlan p => Cart.book_id (rp_item p)
  end.

Definition inv_row (p : inv_plan) : Book.t :=
  match p with
  | PlacePlan p => plan_book p
  | CartPlan p => cp_book p
  | EditPlan p => ep_book p
  | CancelPlan p => xp_book p
  | RemovePlan p => rp_book p
  end.

(** The change of the commit to the copies reserved on that book. *)
Definition inv_delta (p : inv_plan) : Z :=
  match p with
  | PlacePlan p => plan_qty p
  | CartPlan p => cart_delta p
  | EditPlan p => edit_delta p
  | CancelPlan p => cancel_delta p
  | RemovePlan p => remove_delta p
  end.

(** The other rows the commit writes are still as read (for a cancel,
    the order is also still active). *)
Definition inv_fresh (p : inv_plan) (s : Store) : bool :=
  match p with
  | PlacePlan p => plan_fresh p s
  | CartPlan p => cart_fresh p s
  | EditPlan p => edit_fresh p s
  | CancelPlan p => cancel_fresh p s
  | RemovePlan p => remove_fresh p s
  end.

(** Two requests interleaved as read, read, commit, commit. *)
Definition inv_race (r1 r2 : inv_request) (s : Store) : Error + Store :=
  match inv_read r1 s, inv_read r2 s with
  | inr p1, inr p2 => inr (inv_flush p2 (inv_flush p1 s))
  | inl e, _ | _, inl e => inl e
  end.

(** ** The splits are the handlers *)

Lemma student_edit_order_split sess order_id quantity_field s :
  student_edit_order sess order_id quantity_field s =
    match student_edit_order_read sess order_id quantity_field s with
    | inl e => inl e
    | inr p => inr (tt, student_edit_order_flush p s)
    end.
Proof.
  unfold student_edit_order, student_edit_order_read, login_required, get_order_or_404,
    order_book, save_book, save_order. unfold_st.
  destruct (current_user s sess) as [[uid cu]|]; [cbn|done].
  destruct (orders s !! order_id) as [order|]; [cbn|done].
  case_bool_decide; [cbn|done]. case_bool_decide; [cbn|done].
  destruct (form_int _ _) as [n|]; [cbn|done].
  destruct (Order.book_id order) as [b|]; [cbn|done].
  destruct (books s !! b) as [book|]; [cbn|done].
  by destruct (_ || _).
Qed.

Lemma student_cancel_order_split sess order_id s :
  student_cancel_order sess order_id s =
    match student_cancel_order_read sess order_id s with
    | inl e => inl e
    | inr p => inr (tt, cancel_flush p s)
    end.
Proof.
  unfold student_cancel_order, student_cancel_order_read, login_required, get_order_or_404,
    order_book, save_book, save_order. unfold_st.
  destruct (current_user s sess) as [[uid cu]|]; [cbn|done].
  destruct (orders s !! order_id) as [order|]; [cbn|done].
  case_bool_decide; [cbn|done]. case_bool_decide; [cbn|done].
  destruct (Order.book_id order) as [b|]; [cbn|done].
  by destruct (books s !! b) as [book|].
Qed.

Lemma admin_cancel_order_split sess order_id s :
  admin_cancel_order sess order_id s =
    match admin_cancel_order_read sess order_id s with
    | inl e => inl e
    | inr p => inr (tt, cancel_flush p s)
    end.
Proof.
  unfold admin_cancel_order, admin_cancel_order_read, login_required, get_order_or_404,
    order_book, save_book, save_order. unfold_st.
  destruct (current_user s sess) as [[uid cu]|]; [cbn|done].
  destruct (is_role cu "admin"); [cbn|done].
  destruct (orders s !! order_id) as [order|]; [cbn|done].
  destruct (Order.book_id order) as [b|]; [cbn|done].
  by destruct (books s !! b) as [book|].
Qed.

Lemma remove_from_cart_split sess item_id s :
  remove_from_cart sess item_id s =
    match remove_from_cart_read sess item_id s with
    | inl e => inl e
    | inr p => inr (tt, remove_from_cart_flush p s)
    end.
Proof.
  unfold remove_from_cart, remove_from_cart_read, login_required, get_cart_or_404,
    cart_book, save_book, delete_cart. unfold_st.
  destruct (current_user s sess) as [[uid cu]|]; [cbn|done].
  destruct (carts s !! item_id) as [item|]; [cbn|done].
  destruct (Nat.eqb _ _); [cbn|done].
  by destruct (books s !! Cart.book_id item) as [book|].
Qed.

(** ** How each commit moves the reservations *)

Lemma student_edit_order_flush_reserved p s :
  edit_fresh p s = true ->
  reserved (student_edit_order_flush p s) (ep_book_id p) =
    reserved s (ep_book_id p) + edit_delta p.
Proof.
  intros (Ho & Hb & Hst)%bool_decide_eq_true_1.
  assert (Ha : active (Order.status (ep_order p)) = true) by (rewrite Hst; done).
  unfold student_edit_order_flush, edit_delta.
  rewrite (reserved_save_order s _ _ (ep_order p)
             (Order.set_quantity (ep_order p) (ep_new_qty p))) by done.
  rewrite !order_hold_same by done. simpl. lia.
Qed.

Lemma cancel_flush_reserved p s :
  cancel_fresh p s = true ->
  reserved (cancel_flush p s) (xp_book_id p) = reserved s (xp_book_id p) + cancel_delta p.
Proof.
  intros (Hf & Ha)%andb_true_iff. apply bool_decide_eq_true_1 in Hf as [Ho Hb].
  unfold cancel_flush, cancel_delta.
  rewrite (reserved_save_order s _ _ (xp_order p) (Order.set_status (xp_order p) Canceled))
    by done.
  rewrite order_hold_same, (order_hold_inactive _ _ (Order.set_status _ _)) by done. lia.
Qed.

Lemma remove_from_cart_flush_reserved p s :
  remove_fresh p s = true ->
  reserved (remove_from_cart_flush p s) (Cart.book_id (rp_item p)) =
    reserved s (Cart.book_id (rp_item p)) + remove_delta p.
Proof.
  intros Hc%bool_decide_eq_true_1. unfold remove_from_cart_flush, remove_delta.
  rewrite (reserved_delete_cart s _ _ (rp_item p)) by done.
  rewrite cart_hold_same by done. lia.
Qed.


(** ** The read phases compute the row from the row as read *)

Lemma student_edit_order_read_row sess order_id f s p :
  student_edit_order_read sess order_id f s = inr p ->
  exists bk, books s !! ep_book_id p = Some bk /\
    ep_book p = Book.set_available_copies bk (Book.available_copies bk - edit_delta p).
Proof.
  unfold student_edit_order_read. destruct (current_user s sess) as [[uid cu]|]; [|done].
  destruct (orders s !! order_id) as [o|]; [|done].
  case_bool_decide; [|done]. case_bool_decide; [|done].
  destruct (form_int _ _) as [n|]; [|done]. destruct (Order.book_id o) as [b|]; [|done].
  destruct (books s !! b) as [bk|] eqn:Hbk; [|done]. destruct (_ || _); [done|].
  intros [= <-]. exists bk. split; [done|]. simpl. unfold edit_delta. simpl. f_equal. lia.
Qed.

Lemma student_cancel_order_read_row sess order_id s p :
  student_cancel_order_read sess order_id s = inr p ->
  exists bk, books s !! xp_book_id p = Some bk /\
    xp_book p = Book.set_available_copies bk (Book.available_copies bk - cancel_delta p).
Proof.
  unfold student_cancel_order_read. destruct (current_user s sess) as [[uid cu]|]; [|done].
  destruct (orders s !! order_id) as [o|]; [|done].
  case_bool_decide; [|done]. case_bool_decide; [|done].
  destruct (Order.book_id o) as [b|]; [|done].
  destruct (books s !! b) as [bk|] eqn:Hbk; [|done].
  intros [= <-]. exists bk. split; [done|]. simpl. unfold cancel_delta, return_copies. simpl.
  f_equal. lia.
Qed.

Lemma admin_cancel_order_read_row sess order_id s p :
  admin_cancel_order_read sess order_id s = inr p ->
  exists bk, books s !! xp_book_id p = Some bk /\
    xp_book p = Book.set_available_copies bk (Book.available_copies bk - cancel_delta p).
Proof.
  unfold admin_cancel_order_read. destruct (current_user s sess) as [[uid cu]|]; [|done].
  destruct (negb _); [done|]. destruct (orders s !! order_id) as [o|]; [|done].
  destruct (Order.book_id o) as [b|]; [|done].
  destruct (books s !! b) as [bk|] eqn:Hbk; [|done].
  intros [= <-]. exists bk. split; [done|]. simpl. unfold cancel_delta, return_copies. simpl.
  f_equal. lia.
Qed.

Lemma remove_from_cart_read_row sess item_id s p :
  remove_from_cart_read sess item_id s = inr p ->
  exists bk, books s !! Cart.book_id (rp_item p) = Some bk /\
    rp_book p = Book.set_available_copies bk (Book.available_copies bk - remove_delta p).
Proof.
  unfold remove_from_cart_read. destruct (current_user s sess) as [[uid cu]|]; [|done].
  destruct (carts s !! item_id) as [c|]; [|done]. destruct (negb _); [done|].
  destruct (books s !! Cart.book_id c) as [bk|] eqn:Hbk; [|done].
  intros [= <-]. exists bk. split; [done|]. simpl. unfold remove_delta, return_copies. simpl.
  f_equal. lia.
Qed.

(** ** The six routes *)

(** A read of [inv_read] that succeeded is a read of the route. *)
Local Ltac inv_read_case :=
  match goal with
  | H : sum_map _ _ ?x = inr _ |- _ =>
      let E := fresh "E" in
      destruct x eqn:E; simpl in H; [discriminate|injection H as <-]
  end.

(** Each route run alone commits what its read phase computed. *)
Lemma inv_split r s p : inv_read r s = inr p -> inv_serve r s = inv_flush p s.
Proof.
  destruct r; simpl; intros H; unfold final;
    rewrite ?place_order_split, ?add_to_cart_split, ?student_edit_order_split,
      ?student_cancel_order_split, ?admin_cancel_order_split, ?remove_from_cart_split;
    inv_read_case; reflexivity.
Qed.

(** Every commit writes the book row its read phase computed. *)
Lemma inv_flush_books p s : books (inv_flush p s) = <[inv_book p:=inv_row p]> (books s).
Proof. by destruct p. Qed.

Lemma inv_flush_reserved p s :
  inv_fresh p s = true ->
  reserved (inv_flush p s) (inv_book p) = reserved s (inv_book p) + inv_delta p.
Proof.
  destruct p; simpl;
    [apply place_order_flush_reserved|apply add_to_cart_flush_reserved|
     apply student_edit_order_flush_reserved|apply cancel_flush_reserved|
     apply remove_from_cart_flush_reserved].
Qed.

(** The row is the row read, with [inv_delta] fewer copies available. *)
Lemma inv_read_row r s p :
  inv_read r s = inr p ->
  exists bk, books s !! inv_book p = Some bk /\
    inv_row p = Book.set_available_copies bk (Book.available_copies bk - inv_delta p).
Proof.
  destruct r; simpl; intros H; inv_read_case.
  - destruct (place_order_read_ok _ _ _ _ _ E) as (bk & Hb & Hr & _). by exists bk.
  - destruct (add_to_cart_read_ok _ _ _ _ _ E) as (bk & Hb & Hr & _). by exists bk.
  - exact (student_edit_order_read_row _ _ _ _ _ E).
  - exact (student_cancel_order_read_row _ _ _ _ E).
  - exact (admin_cancel_order_read_row _ _ _ _ E).
  - exact (remove_from_cart_read_row _ _ _ _ E).
Qed.

(** ** Theorem *)

(** C14: the write-write race on a book row (spec sections 5, 8 and
    9), for any two requests of the six routes that write
    [available_copies] ([place_order], [add_to_cart],
    [student_edit_order], [student_cancel_order], [admin_cancel_order],
    [remove_from_cart]).  Run alone, each route commits what its read
    phase computed.  When two requests for the same book both read it
    before either commits, and the rows each commit writes besides the
    book are still as read, both commits succeed: the database has the
    book row the second request computed from the old value, while the
    reservations of both requests are made, so the first request's
    change to [available_copies] is lost and [available + reserved] is
    off by exactly that change, breaking the ledger whenever it is
    not 0. *)
Theorem inventory_race_lost_update r1 r2 s p1 p2 b bk :
  inv_read r1 s = inr p1 -> inv_read r2 s = inr p2 ->
  inv_book p1 = b -> inv_book p2 = b -> books s !! b = Some bk ->
  inv_fresh p1 s = true -> inv_fresh p2 (inv_flush p1 s) = true -> ledger_ok s ->
  inv_serve r1 s = inv_flush p1 s /\ inv_serve r2 s = inv_flush p2 s /\
  exists s', inv_race r1 r2 s = inr s' /\
    books s' !! b =
      Some (Book.set_available_copies bk (Book.available_copies bk - inv_delta p2)) /\
    Book.available_copies bk - inv_delta p2 + reserved s' b = Book.total_copies bk + inv_delta p1 /\
    (inv_delta p1 <> 0 -> ~ ledger_ok s').
Proof.
  intros H1 H2 Hb1 Hb2 Hb Hf1 Hf2 Hl.
  split; [by apply inv_split|]. split; [by apply inv_split|].
  destruct (inv_read_row r2 s p2 H2) as (bk2 & Hbk2 & Hrow2).
  rewrite Hb2, Hb in Hbk2. injection Hbk2 as <-.
  pose proof (inv_flush_reserved p1 s Hf1) as R1.
  pose proof (inv_flush_reserved p2 _ Hf2) as R2. rewrite Hb1 in R1. rewrite Hb2 in R2.
  set (s' := inv_flush p2 (inv_flush p1 s)) in *.
  assert (Hbook : books s' !! b =
            Some (Book.set_available_copies bk (Book.available_copies bk - inv_delta p2))).
  { subst s'. rewrite inv_flush_books, Hb2, lookup_insert_eq. by rewrite Hrow2. }
  pose proof (Hl b bk Hb) as Hbk. simpl in Hbk.
  exists s'. split; [unfold inv_race; by rewrite H1, H2|]. split; [exact Hbook|].
  split; [lia|]. intros Hd Hl'. specialize (Hl' b _ Hbook). simpl in Hl'. lia.
Qed.

(** Witness of C14: Alice cancels her order 1 (3 copies of SICP) while
    Bob orders one copy of SICP (2 free), both requests reading the
    book before either commits: SICP shows 1 free, Alice's 3 copies are
    lost and the ledger is off by 3; one after the other, 4 are free. *)
Lemma inventory_race_lost_update_witness :
  let r1 := ICancelOrder (Some 2%nat) 1%nat in
  let r2 := IPlaceOrder (Some 3%nat) 2%nat (IntLit 1) in
  ledger_ok demo_store /\
  (exists s', inv_race r1 r2 demo_store = inr s' /\
     fmap Book.available_copies (books s' !! 2%nat) = Some 1 /\ ~ ledger_ok s') /\
  fmap Book.available_copies (books (inv_serve r2 (inv_serve r1 demo_store)) !! 2%nat) = Some 4.
Proof.
  intros r1 r2. assert (Hl : ledger_ok demo_store) by decide_by_eval.
  split; [exact Hl|]. split; [|vm_compute; reflexivity].
  destruct (inv_read r1 demo_store) as [e|p1] eqn:H1; [vm_compute in H1; discriminate|].
  destruct (inv_read r2 demo_store) as [e|p2] eqn:H2; [vm_compute in H2; discriminate|].
  pose proof H1 as E1. pose proof H2 as E2. vm_compute in E1, E2.
  injection E1 as <-. injection E2 as <-.
  destruct (inventory_race_lost_update r1 r2 demo_store _ _ 2%nat sicp H1 H2)
    as (_ & _ & s' & Hrace & Hbook & _ & Hbroken);
    [reflexivity|reflexivity|reflexivity|vm_compute; reflexivity|vm_compute; reflexivity|
     exact Hl|].
  exists s'. split; [exact Hrace|]. split; [rewrite Hbook; reflexivity|].
  apply Hbroken. vm_compute. discriminate.
Defined.
